(** * Waste & recommendation analytics and recipe matching

    A shallow embedding of [src/services/analyticsService.js] and
    [src/services/mealPlanningService.js].

    Conventions of the embedding.
    - Numbers.  [Binary64] is IEEE 754 binary64 as the Standard Library
      specifies it ([SpecFloat]); the module [Engine] computes the
      scores, the sums of money and the match of a recipe with it, as
      the engine does.  [JS.jsnum] is the idealisation of a number by an
      exact rational, one of the two infinities or NaN, without rounding
      and without the sign of zero, finite values in lowest terms; the
      modules [Analytics] and [MealPlanning] compute with it, and what is
      proved of them does not turn on the rounding of a last digit:
      counts, order, bounds, failures.  [EngineProofs.percentage_exact]
      gives the range on which a rounded percentage is the same in both.
    - A field that the code reads without checking its type is a [JS.jsval]:
      absent, a number or a string.  A number of the data is the rational
      it denotes; [Engine] holds the double nearest to it.
    - The conversions that belong to the language runtime (number to
      string, string to number, date parsing) are the fields of the class
      [JS.Runtime]; every definition and theorem is parametric in them.
      [Engine.Host] adds [toLowerCase], of which only its action on ASCII
      strings is fixed; [JS.toLowerCase] is that action.
    - Code that can throw returns a [JS.result]. *)

From Stdlib Require Import ZArith QArith Qround Qreduction Qabs Qminmax.
From Stdlib Require Qcanon DecimalString.
From Stdlib Require Floats.SpecFloat.
From Stdlib Require Import List String Ascii Bool Lia Lqa Permutation Sorted.
Import ListNotations.
Local Open Scope string_scope.
Local Open Scope list_scope.

(** ** The fragment of the JavaScript runtime the two services use *)

Module JS.

(** Numbers. *)
Inductive jsnum : Type :=
| Fin (q : Q)
| PInf
| NInf
| NaN.

Definition fin (q : Q) : jsnum := Fin (Qred q).
Definition ofZ (z : Z) : jsnum := fin (inject_Z z).
Definition ofNat (n : nat) : jsnum := ofZ (Z.of_nat n).

Definition neg (a : jsnum) : jsnum :=
  match a with
  | Fin q => fin (- q)
  | PInf => NInf
  | NInf => PInf
  | NaN => NaN
  end.

(** [a + b] on numbers. *)
Definition add (a b : jsnum) : jsnum :=
  match a, b with
  | NaN, _ | _, NaN => NaN
  | Fin x, Fin y => fin (x + y)
  | PInf, NInf | NInf, PInf => NaN
  | PInf, _ | _, PInf => PInf
  | NInf, _ | _, NInf => NInf
  end.

(** [a - b]. *)
Definition sub (a b : jsnum) : jsnum := add a (neg b).

(** An infinity of the given sign times the finite [q]. *)
Definition scale_inf (positive : bool) (q : Q) : jsnum :=
  match (q ?= 0)%Q with
  | Eq => NaN
  | Gt => if positive then PInf else NInf
  | Lt => if positive then NInf else PInf
  end.

(** [a * b]. *)
Definition mul (a b : jsnum) : jsnum :=
  match a, b with
  | NaN, _ | _, NaN => NaN
  | Fin x, Fin y => fin (x * y)
  | PInf, Fin y | Fin y, PInf => scale_inf true y
  | NInf, Fin y | Fin y, NInf => scale_inf false y
  | PInf, PInf | NInf, NInf => PInf
  | PInf, NInf | NInf, PInf => NInf
  end.

(** [a / b]: a finite number over zero is an infinity, zero over zero is
    NaN. *)
Definition div (a b : jsnum) : jsnum :=
  match a, b with
  | NaN, _ | _, NaN => NaN
  | Fin x, Fin y =>
      match (y ?= 0)%Q with
      | Eq => match (x ?= 0)%Q with Eq => NaN | Gt => PInf | Lt => NInf end
      | _ => fin (x / y)
      end
  | Fin _, PInf | Fin _, NInf => fin 0
  | PInf, Fin y => if Qle_bool 0 y then PInf else NInf
  | NInf, Fin y => if Qle_bool 0 y then NInf else PInf
  | _, _ => NaN
  end.

(** [a < b], [a <= b], [a > b], [a >= b]: every comparison with NaN is
    false. *)
Definition lt (a b : jsnum) : bool :=
  match a, b with
  | NaN, _ | _, NaN => false
  | Fin x, Fin y => negb (Qle_bool y x)
  | _, NInf => false
  | PInf, _ => false
  | _, PInf => true
  | NInf, _ => true
  end.

Definition le (a b : jsnum) : bool :=
  match a, b with
  | NaN, _ | _, NaN => false
  | Fin x, Fin y => Qle_bool x y
  | NInf, _ => true
  | _, PInf => true
  | _, NInf => false
  | PInf, _ => false
  end.

Definition gt (a b : jsnum) : bool := lt b a.
Definition ge (a b : jsnum) : bool := le b a.

(** [Math.min(a, b)]. *)
Definition Math_min (a b : jsnum) : jsnum :=
  match a, b with
  | NaN, _ | _, NaN => NaN
  | _, _ => if le a b then a else b
  end.

(** [Math.round] on a rational: the nearest integer, a tie going up. *)
Definition Qround_half_up (q : Q) : Z := Qfloor (q + (1 # 2)).

(** [Math.round(a)], [Math.ceil(a)], [Math.abs(a)]. *)
Definition Math_round (a : jsnum) : jsnum :=
  match a with
  | Fin q => ofZ (Qround_half_up q)
  | _ => a
  end.

Definition Math_ceil (a : jsnum) : jsnum :=
  match a with
  | Fin q => ofZ (Qceiling q)
  | _ => a
  end.

Definition Math_abs (a : jsnum) : jsnum :=
  match a with
  | Fin q => fin (Qabs q)
  | NInf => PInf
  | _ => a
  end.

(** The number of hundredths [toFixed(2)] prints for [q]: the magnitude is
    rounded to the nearest hundredth, a tie going to the larger one, and
    the sign is put back. *)
Definition hundredths (q : Q) : Z :=
  let n := Qfloor (Qabs q * 100 + (1 # 2)) in
  if Qle_bool 0 q then n else (- n)%Z.

(** [parseFloat(a.toFixed(2))].  (From 1e21 on [toFixed] prints the
    number as it is; a floating point number of that size is an integer
    and comes back unchanged either way.) *)
Definition round2 (a : jsnum) : jsnum :=
  match a with
  | Fin q => fin (inject_Z (hundredths q) / 100)
  | _ => a
  end.

(** Values of fields that the code does not check before use. *)
Inductive jsval : Type :=
| VUndef
| VNum (x : jsnum)
| VStr (s : string).

(** The conversions of the language runtime. *)
Class Runtime : Type := {
  NumberToString : jsnum -> string;
  StringToNumber : string -> jsnum;
  Date_parse : string -> jsnum
}.

Section Conversions.
Context {rt : Runtime}.

Definition ToNumber (v : jsval) : jsnum :=
  match v with
  | VUndef => NaN
  | VNum x => x
  | VStr s => StringToNumber s
  end.

Definition ToString (v : jsval) : string :=
  match v with
  | VUndef => "undefined"
  | VNum x => NumberToString x
  | VStr s => s
  end.

(** The operator [+]: concatenation as soon as one side is a string. *)
Definition plus (a b : jsval) : jsval :=
  match a, b with
  | VStr _, _ | _, VStr _ => VStr (ToString a ++ ToString b)
  | _, _ => VNum (add (ToNumber a) (ToNumber b))
  end.

(** The operator [*]. *)
Definition times (a b : jsval) : jsnum := mul (ToNumber a) (ToNumber b).

(** The argument of [new Date(...)]: nothing, a string or a Date (given by
    its time value in milliseconds, NaN for an invalid Date). *)
Inductive date_arg : Type :=
| DUndef
| DString (s : string)
| DDate (t : jsnum).

(** The time value of [new Date(a)]. *)
Definition new_Date (a : date_arg) : jsnum :=
  match a with
  | DUndef => NaN
  | DString s => Date_parse s
  | DDate t => t
  end.

End Conversions.

(** Strings. *)
Definition lower_ascii (c : ascii) : ascii :=
  let n := nat_of_ascii c in
  if (65 <=? n)%nat && (n <=? 90)%nat then ascii_of_nat (n + 32) else c.

Fixpoint toLowerCase (s : string) : string :=
  match s with
  | EmptyString => EmptyString
  | String c s' => String (lower_ascii c) (toLowerCase s')
  end.

(** [s.includes(k)]: [k] occurs in [s] as a substring. *)
Fixpoint includes (s k : string) : bool :=
  if prefix k s then true
  else match s with
       | EmptyString => false
       | String _ s' => includes s' k
       end.

(** [a || b] on fields that hold a string or nothing: the empty string is
    falsy. *)
Definition truthy (a : option string) : bool :=
  match a with
  | Some (String _ _) => true
  | _ => false
  end.

Definition or_else (a b : option string) : option string :=
  if truthy a then a else b.

(** [a || ""]. *)
Definition or_empty (a : option string) : string :=
  match or_else a (Some EmptyString) with
  | Some s => s
  | None => EmptyString
  end.

(** Arrays. *)

(** [xs.includes(x)] on an array of strings. *)
Definition array_includes (xs : list string) (x : string) : bool :=
  existsb (String.eqb x) xs.

(** [xs.slice(0, k)]: a negative [k] counts from the end. *)
Definition slice0 {A : Type} (k : Z) (xs : list A) : list A :=
  let len := Z.of_nat (List.length xs) in
  let stop := if (k <? 0)%Z then Z.max (len + k) 0 else Z.min k len in
  firstn (Z.to_nat stop) xs.

(** [xs.sort(cmp)]: the sort is stable; [x] goes after [y] only when
    [cmp(x, y) > 0], so a NaN counts as a tie.  (For a comparator that is
    not a consistent order the language leaves the result to the engine.) *)
Fixpoint insert_by {A : Type} (cmp : A -> A -> jsnum) (x : A) (xs : list A)
  : list A :=
  match xs with
  | [] => [x]
  | y :: ys => if gt (cmp x y) (ofZ 0) then y :: insert_by cmp x ys
               else x :: xs
  end.

Definition sort_by {A : Type} (cmp : A -> A -> jsnum) (xs : list A) : list A :=
  fold_right (insert_by cmp) [] xs.

(** Exceptions. *)
Inductive js_error : Type :=
| TypeError
| InvalidInputError (field : string).

Inductive result (A : Type) : Type :=
| Ok (a : A)
| Throw (e : js_error).

Arguments Ok {A} a.
Arguments Throw {A} e.

Definition bind {A B : Type} (m : result A) (k : A -> result B) : result B :=
  match m with
  | Ok a => k a
  | Throw e => Throw e
  end.

Fixpoint mapM {A B : Type} (f : A -> result B) (xs : list A)
  : result (list B) :=
  match xs with
  | [] => Ok []
  | x :: xs' =>
      bind (f x) (fun y => bind (mapM f xs') (fun ys => Ok (y :: ys)))
  end.

End JS.

Notation "x <- m ;; k" := (JS.bind m (fun x => k))
  (at level 61, m at next level, right associativity).

(** ** Data handed to the engine *)

(** An entry of the consumption log.  Only the fields the code reads. *)
Module LogEntry.
Record t : Type := make {
  name : option string;
  item : option string;
  price : JS.jsval;
  status : string
}.
End LogEntry.

(** An item of the inventory.  [daysLeft] is a stored field for the meal
    planner; the analytics recompute it from [expiry]. *)
Module InventoryItem.
Record t : Type := make {
  name : option string;
  item : option string;
  price : JS.jsval;
  quantity : JS.jsval;
  expiry : JS.date_arg;
  daysLeft : JS.jsval
}.
End InventoryItem.

(** ** analyticsService.js *)

Module Analytics.
Import JS.

Record RiskItem : Type := {
  risk_name : option string;
  risk_daysLeft : jsnum;
  riskPrice : jsnum
}.

Record WasteMetrics : Type := {
  totalWastedMoney : jsnum;
  riskValue : jsnum;
  riskItems : list RiskItem;
  riskItemNames : list (option string)
}.

Record SDGMetrics : Type := {
  sdgScore : Z;
  successRate : Z;
  wastedCount : Z;
  consumedCount : Z;
  totalItems : Z
}.

Record Categories : Type := {
  fruits : nat;
  vegetables : nat;
  proteins : nat;
  grains : nat;
  dairy : nat
}.

Record NutritionMetrics : Type := {
  nutritionScore : jsnum;
  categories : Categories;
  totalConsumed : nat;
  suggestions : list string
}.

Record WeeklyInsights : Type := {
  weeklyChange : Z;
  wasteReduction : Z;
  insights : list string;
  previousScore : Z;
  currentScore : Z
}.

Record Recommendation : Type := {
  action : string;
  description : string;
  impact : jsnum;
  priority : string;
  steps : list string
}.

Record Recommendations : Type := {
  recommendations : list Recommendation;
  potentialImprovement : jsnum;
  estimatedNewScore : jsnum
}.

(** [item.status === s] *)
Definition has_status (s : string) (e : LogEntry.t) : bool :=
  String.eqb (LogEntry.status e) s.

(** [x.toFixed(2)] read back by [parseFloat]; only a number has
    [toFixed]. *)
Definition toFixed2 (v : jsval) : result jsnum :=
  match v with
  | VNum x => Ok (round2 x)
  | _ => Throw TypeError
  end.

Definition day_ms : jsnum := ofZ (1000 * 60 * 60 * 24).

Section Waste.
Context {rt : Runtime}.

(** [Math.ceil((expiry - today) / (1000 * 60 * 60 * 24))] *)
Definition daysLeftOn (today : jsnum) (item : InventoryItem.t) : jsnum :=
  let expiry := new_Date (InventoryItem.expiry item) in
  Math_ceil (div (sub expiry today) day_ms).

(** [daysLeft <= 2 && daysLeft > 0] *)
Definition highRisk (daysLeft : jsnum) : bool :=
  le daysLeft (ofZ 2) && gt daysLeft (ofZ 0).

(** One turn of the loop over the inventory; the state is [riskValue] and
    [riskItems]. *)
Definition riskStep (today : jsnum) (st : jsnum * list RiskItem)
    (item : InventoryItem.t) : jsnum * list RiskItem :=
  let daysLeft := daysLeftOn today item in
  if highRisk daysLeft then
    (add (fst st)
         (times (InventoryItem.price item) (InventoryItem.quantity item)),
     snd st ++
       [ {| risk_name := or_else (InventoryItem.name item)
                                 (InventoryItem.item item);
            risk_daysLeft := daysLeft;
            riskPrice := times (InventoryItem.price item)
                               (InventoryItem.quantity item) |} ])
  else st.

Definition defaultToday : string := "2025-11-21".

Definition calculateWasteMetrics (history : list LogEntry.t)
    (inventory : list InventoryItem.t) (todayString : option string)
  : result WasteMetrics :=
  let todayString :=
    match todayString with Some s => s | None => defaultToday end in
  let totalWastedMoney :=
    fold_left (fun sum item => plus sum (LogEntry.price item))
              (filter (has_status "wasted") history) (VNum (ofZ 0)) in
  let today := new_Date (DString todayString) in
  let st := fold_left (riskStep today) inventory (ofZ 0, []) in
  total <- toFixed2 totalWastedMoney ;;
  risk <- toFixed2 (VNum (fst st)) ;;
  Ok {| totalWastedMoney := total;
        riskValue := risk;
        riskItems := snd st;
        riskItemNames := map risk_name (snd st) |}.

End Waste.

(** [history.filter((item) => item.status === s).length] *)
Definition countStatus (s : string) (history : list LogEntry.t) : Z :=
  Z.of_nat (List.length (filter (has_status s) history)).

(** A missing history is [None].  In the second branch the history has an
    entry, so the quotient is finite and [Math.round] gives an integer. *)
Definition calculateSDGScore (history : option (list LogEntry.t))
  : SDGMetrics :=
  match history with
  | None | Some [] =>
      {| sdgScore := 50; successRate := 0; wastedCount := 0;
         consumedCount := 0; totalItems := 0 |}
  | Some history =>
      let wastedCount := countStatus "wasted" history in
      let consumedCount := countStatus "consumed" history in
      let totalItems := Z.of_nat (List.length history) in
      let successRate :=
        Qround_half_up
          ((inject_Z consumedCount / inject_Z totalItems) * 100) in
      let sdgScore := successRate in
      {| sdgScore := sdgScore; successRate := successRate;
         wastedCount := wastedCount; consumedCount := consumedCount;
         totalItems := totalItems |}
  end.

Definition interpretSDGScore (score : Z) : string :=
  if (score >=? 85)%Z then "Excellent! You're a waste-fighting champion! 🌱"
  else if (score >=? 70)%Z
  then "Great! You're doing well with food sustainability. 👍"
  else if (score >=? 50)%Z
  then "Good effort! There's room to improve your waste habits. 💪"
  else "Time to make a change! Let's reduce that waste. 🎯".

Definition fruitKeywords : list string :=
  ["apple"; "orange"; "banana"; "berries"; "mango"; "grape"].
Definition vegKeywords : list string :=
  ["carrot"; "lettuce"; "broccoli"; "spinach"; "tomato"; "cucumber"].
Definition proteinKeywords : list string :=
  ["egg"; "chicken"; "fish"; "meat"; "tofu"; "bean"; "lentil"].
Definition grainKeywords : list string :=
  ["bread"; "rice"; "wheat"; "oat"; "pasta"; "cereal"].
Definition dairyKeywords : list string :=
  ["milk"; "cheese"; "yogurt"; "butter"].

(** [keywords.some((k) => itemName.includes(k))] *)
Definition someIncluded (keywords : list string) (itemName : string) : bool :=
  existsb (fun k => includes itemName k) keywords.

(** The body of the loop over the consumed items. *)
Definition categorize (categories : Categories) (item : LogEntry.t)
  : Categories :=
  let itemName :=
    toLowerCase
      (or_empty (or_else (LogEntry.name item) (LogEntry.item item))) in
  let c := categories in
  if someIncluded fruitKeywords itemName then
    {| fruits := S (fruits c); vegetables := vegetables c;
       proteins := proteins c; grains := grains c; dairy := dairy c |}
  else if someIncluded vegKeywords itemName then
    {| fruits := fruits c; vegetables := S (vegetables c);
       proteins := proteins c; grains := grains c; dairy := dairy c |}
  else if someIncluded proteinKeywords itemName then
    {| fruits := fruits c; vegetables := vegetables c;
       proteins := S (proteins c); grains := grains c; dairy := dairy c |}
  else if someIncluded grainKeywords itemName then
    {| fruits := fruits c; vegetables := vegetables c;
       proteins := proteins c; grains := S (grains c); dairy := dairy c |}
  else if someIncluded dairyKeywords itemName then
    {| fruits := fruits c; vegetables := vegetables c;
       proteins := proteins c; grains := grains c; dairy := S (dairy c) |}
  else c.

(** [Object.values(categories)]: the counts in the order of the keys. *)
Definition categoryValues (c : Categories) : list nat :=
  [fruits c; vegetables c; proteins c; grains c; dairy c].

(** [Math.min((count / maxPerCategory) * 100, 100)] *)
Definition categoryScore (maxPerCategory : jsnum) (count : nat) : jsnum :=
  Math_min (mul (div (ofNat count) maxPerCategory) (ofZ 100)) (ofZ 100).

(** [cond && suggestions.push(text)] as a list to append. *)
Definition pushIf (cond : bool) (text : string) : list string :=
  if cond then [text] else [].

Definition calculateNutritionScore (history : option (list LogEntry.t))
  : NutritionMetrics :=
  match history with
  | None | Some [] =>
      {| nutritionScore := ofZ 50;
         categories := {| fruits := 0; vegetables := 0; proteins := 0;
                          grains := 0; dairy := 0 |};
         totalConsumed := 0;
         suggestions :=
           ["Add more vegetables"; "Include proteins"; "Eat whole grains"] |}
  | Some history =>
      let consumedItems := filter (has_status "consumed") history in
      let categories :=
        fold_left categorize consumedItems
          {| fruits := 0; vegetables := 0; proteins := 0;
             grains := 0; dairy := 0 |} in
      let maxPerCategory :=
        Math_ceil (div (ofNat (List.length consumedItems)) (ofZ 5)) in
      let nutritionScore :=
        fold_left
          (fun nutritionScore count =>
             add nutritionScore
                 (div (categoryScore maxPerCategory count) (ofZ 5)))
          (categoryValues categories) (ofZ 0) in
      let nutritionScore := Math_round nutritionScore in
      let suggestions :=
        pushIf (lt (ofNat (vegetables categories))
                   (div maxPerCategory (ofZ 2)))
               "Boost vegetables to 25% of meals"
        ++ pushIf (lt (ofNat (fruits categories))
                      (div maxPerCategory (ofZ 2)))
                  "Add more fruits for vitamins"
        ++ pushIf (lt (ofNat (proteins categories))
                      (div maxPerCategory (ofZ 2)))
                  "Include proteins in every meal"
        ++ pushIf (lt (ofNat (grains categories))
                      (div maxPerCategory (ofZ 2)))
                  "Choose whole grains"
        ++ pushIf (lt (ofNat (dairy categories))
                      (div maxPerCategory (ofZ 3)))
                  "Add dairy for calcium" in
      {| nutritionScore := nutritionScore;
         categories := categories;
         totalConsumed := List.length consumedItems;
         suggestions :=
           match suggestions with
           | [] => ["Great variety! Keep it up!"]
           | _ => suggestions
           end |}
  end.

Section Reports.
Context {rt : Runtime}.

(** [${n}] inside a template literal, for an integer [n]. *)
Definition showZ (n : Z) : string := NumberToString (ofZ n).

Definition improvedLine (scoreImprovement : Z) : string :=
  "🎉 Great job! Your score improved by " ++ showZ scoreImprovement
  ++ "% this week!".
Definition droppedLine (scoreImprovement : Z) : string :=
  "⚠️ Your score dropped by " ++ showZ (Z.abs scoreImprovement)
  ++ "%. Let's improve!".
Definition stableLine : string :=
  "📊 Your score remained stable this week.".
Definition fewerLine (wasteReduction : Z) : string :=
  "✅ You wasted " ++ showZ wasteReduction ++ " fewer items than last week!".
Definition moreLine (wasteReduction : Z) : string :=
  "❌ You wasted " ++ showZ (Z.abs wasteReduction)
  ++ " more items. Let's focus on reducing waste.".
Definition consumedLine (more : Z) : string :=
  "💪 You consumed " ++ showZ more ++ " more items this week!".

Definition generateWeeklyInsights (history : list LogEntry.t)
    (currentMetrics : SDGMetrics) : WeeklyInsights :=
  let sdgScore := sdgScore currentMetrics in
  let wastedCount := wastedCount currentMetrics in
  let consumedCount := consumedCount currentMetrics in
  let half := Qceiling (inject_Z (Z.of_nat (List.length history)) / 2) in
  let twoWeeksAgo := slice0 half history in
  let prevMetrics := calculateSDGScore (Some twoWeeksAgo) in
  let scoreImprovement := (sdgScore - Analytics.sdgScore prevMetrics)%Z in
  let prevWasted := countStatus "wasted" twoWeeksAgo in
  let wasteReduction := (prevWasted - wastedCount)%Z in
  let insights :=
    [ if (scoreImprovement >? 0)%Z then improvedLine scoreImprovement
      else if (scoreImprovement <? 0)%Z then droppedLine scoreImprovement
      else stableLine ]
    ++ (if (wasteReduction >? 0)%Z then [fewerLine wasteReduction]
        else if (wasteReduction <? 0)%Z then [moreLine wasteReduction]
        else [])
    ++ (if (consumedCount >? Analytics.consumedCount prevMetrics)%Z
        then [consumedLine
                (consumedCount - Analytics.consumedCount prevMetrics)]
        else []) in
  {| weeklyChange := scoreImprovement;
     wasteReduction := wasteReduction;
     insights := insights;
     previousScore := Analytics.sdgScore prevMetrics;
     currentScore := sdgScore |}.

(** [${suggestions[0]}] inside a template literal. *)
Definition firstSuggestion (suggestions : list string) : string :=
  match suggestions with
  | s :: _ => s
  | [] => "undefined"
  end.

Definition wasteRecommendation (wasteReductionPotential : jsnum)
  : Recommendation :=
  {| action := "Focus on waste reduction";
     description :=
       "Reduce waste by 25% to boost your score by "
       ++ NumberToString
            (Math_round (mul wasteReductionPotential (fin (25 # 100))))
       ++ "%";
     impact := Math_round (mul wasteReductionPotential (fin (25 # 100)));
     priority := "HIGH";
     steps := ["Check fridge daily for expiring items";
               "Plan meals with expiring items first";
               "Use NOURISHBOT's meal suggestions"] |}.

Definition nutritionRecommendation (nutritionPotential : jsnum)
    (suggestions : list string) : Recommendation :=
  {| action := "Improve nutrition diversity";
     description :=
       firstSuggestion suggestions ++ " to boost nutrition score by "
       ++ NumberToString (Math_round (mul nutritionPotential (fin (3 # 10))))
       ++ "%";
     impact := Math_round (mul nutritionPotential (fin (3 # 10)));
     priority := "MEDIUM";
     steps := slice0 2 suggestions |}.

Definition vegetableRecommendation : Recommendation :=
  {| action := "Add more vegetables";
     description := "Boost SDG score by 10% with vegetable-based meals";
     impact := ofZ 10;
     priority := "HIGH";
     steps := ["Try carrot salad"; "Make veggie stir-fry";
               "Add veggies to every meal"] |}.

Definition proteinRecommendation : Recommendation :=
  {| action := "Include more proteins";
     description := "Protein-rich meals reduce waste by 15%";
     impact := ofZ 15;
     priority := "MEDIUM";
     steps := ["Add eggs to breakfast"; "Include beans in lunch";
               "Choose protein for dinner"] |}.

(** [min(wastedCount * 10, 100 - sdgScore)] *)
Definition wastePotential (sdgMetrics : SDGMetrics) : jsnum :=
  Math_min (mul (ofZ (wastedCount sdgMetrics)) (ofZ 10))
           (sub (ofZ 100) (ofZ (sdgScore sdgMetrics))).

(** The candidates in the order they are pushed, with the running
    [potentialImprovement] before the cap. *)
Definition candidates (sdgMetrics : SDGMetrics)
    (nutritionMetrics : NutritionMetrics)
  : list Recommendation * jsnum :=
  let nutritionScore := nutritionScore nutritionMetrics in
  let categories := categories nutritionMetrics in
  let suggestions := suggestions nutritionMetrics in
  let st := ([], ofZ 0) in
  let wasteReductionPotential := wastePotential sdgMetrics in
  let st :=
    if gt wasteReductionPotential (ofZ 0) then
      (fst st ++ [wasteRecommendation wasteReductionPotential],
       add (snd st) (mul wasteReductionPotential (fin (25 # 100))))
    else st in
  let nutritionPotential := sub (ofZ 100) nutritionScore in
  let st :=
    if gt nutritionPotential (ofZ 15) then
      (fst st ++ [nutritionRecommendation nutritionPotential suggestions],
       add (snd st) (mul nutritionPotential (fin (15 # 100))))
    else st in
  let st :=
    if (vegetables categories <? 2)%nat then
      (fst st ++ [vegetableRecommendation], add (snd st) (ofZ 10))
    else st in
  let st :=
    if (proteins categories <? 2)%nat then
      (fst st ++ [proteinRecommendation], add (snd st) (ofZ 5))
    else st in
  st.

Definition generateActionableRecommendations (sdgMetrics : SDGMetrics)
    (nutritionMetrics : NutritionMetrics) : Recommendations :=
  let st := candidates sdgMetrics nutritionMetrics in
  let potentialImprovement := Math_min (snd st) (ofZ 30) in
  {| recommendations := slice0 3 (fst st);
     potentialImprovement := Math_round potentialImprovement;
     estimatedNewScore :=
       Math_min (add (ofZ (sdgScore sdgMetrics))
                     (Math_round potentialImprovement))
                (ofZ 100) |}.

(** The scores of the complete profile. *)
Record SDGProfile : Type := {
  personalSDGScore : Z;
  scoreInterpretation : string;
  waste : WasteMetrics;
  waste_successRate : Z;
  nutrition : NutritionMetrics;
  weeklyInsights : WeeklyInsights;
  profile_recommendations : Recommendations;
  metrics : SDGMetrics
}.

Definition generateCompleteSDGProfile (history : list LogEntry.t)
    (inventory : list InventoryItem.t) (todayString : option string)
  : result SDGProfile :=
  wasteMetrics <- calculateWasteMetrics history inventory todayString ;;
  let sdgMetrics := calculateSDGScore (Some history) in
  let nutritionMetrics := calculateNutritionScore (Some history) in
  let weeklyInsights := generateWeeklyInsights history sdgMetrics in
  let recommendations :=
    generateActionableRecommendations sdgMetrics nutritionMetrics in
  Ok {| personalSDGScore := sdgScore sdgMetrics;
        scoreInterpretation := interpretSDGScore (sdgScore sdgMetrics);
        waste := wasteMetrics;
        waste_successRate := successRate sdgMetrics;
        nutrition := nutritionMetrics;
        weeklyInsights := weeklyInsights;
        profile_recommendations := recommendations;
        metrics := sdgMetrics |}.

End Reports.

End Analytics.

(** ** mealPlanningService.js *)

Module MealPlanning.
Import JS.

Module Recipe.
Record t : Type := make {
  name : string;
  ingredients : list string;
  time : string;
  difficulty : string;
  instructions : string
}.
End Recipe.

(** The own keys of [recipeDatabase], in the order they are written. *)
Definition recipeDatabase : list (string * list Recipe.t) :=
  [ ("yogurt",
     [ Recipe.make "Yogurt Parfait" ["yogurt"; "granola"; "berries"]
         "5 min" "Easy" "Layer yogurt, granola, and berries in a bowl";
       Recipe.make "Yogurt Smoothie" ["yogurt"; "banana"; "berries"; "milk"]
         "10 min" "Easy" "Blend all ingredients until smooth";
       Recipe.make "Tzatziki Sauce" ["yogurt"; "cucumber"; "garlic"; "dill"]
         "15 min" "Easy"
         "Mix yogurt with grated cucumber, garlic, and dill" ]);
    ("carrots",
     [ Recipe.make "Carrot Stir Fry" ["carrots"; "oil"; "garlic"; "soy sauce"]
         "15 min" "Easy"
         "Stir fry sliced carrots with garlic and soy sauce";
       Recipe.make "Carrot Soup"
         ["carrots"; "onion"; "vegetable broth"; "cream"]
         "30 min" "Medium"
         "Boil carrots and onion, blend with broth and cream";
       Recipe.make "Raw Carrot Salad"
         ["carrots"; "apple"; "lemon juice"; "oil"]
         "10 min" "Easy"
         "Shred carrots and apples, dress with lemon and oil" ]);
    ("rice",
     [ Recipe.make "Vegetable Fried Rice"
         ["rice"; "carrots"; "peas"; "eggs"; "soy sauce"]
         "20 min" "Easy"
         "Stir fry cooked rice with vegetables and soy sauce";
       Recipe.make "Rice Bowl" ["rice"; "vegetables"; "protein"; "sauce"]
         "25 min" "Easy" "Serve rice topped with vegetables and protein" ]);
    ("apples",
     [ Recipe.make "Apple Crisp" ["apples"; "oats"; "butter"; "cinnamon"]
         "30 min" "Medium" "Bake sliced apples with oat topping";
       Recipe.make "Apple Smoothie" ["apples"; "yogurt"; "honey"]
         "10 min" "Easy" "Blend apple with yogurt and honey" ]) ].

Fixpoint ownProperty (key : string) (db : list (string * list Recipe.t))
  : option (list Recipe.t) :=
  match db with
  | [] => None
  | (k, v) :: rest => if String.eqb k key then Some v else ownProperty key rest
  end.

(** The lower-case property names every object inherits: reading them
    from [recipeDatabase] gives a value that is truthy and cannot be
    iterated. *)
Definition inheritedKeys : list string := ["constructor"; "__proto__"].

(** [recipeDatabase[key] || []], as far as the loop over it goes. *)
Definition recipesFor (key : string) : result (list Recipe.t) :=
  match ownProperty key recipeDatabase with
  | Some recipes => Ok recipes
  | None => if array_includes inheritedKeys key then Throw TypeError
            else Ok []
  end.

(** The result of [scoreRecipeMatch]; [spread] holds the fields copied by
    [...recipe]. *)
Record ScoredRecipe : Type := {
  recipe : string;
  matchScore : jsnum;
  matchedIngredients : list string;
  missingIngredients : list string;
  spread : Recipe.t
}.

Record Meal : Type := {
  scored : ScoredRecipe;
  urgency : Z;
  focusItem : string
}.

Record MealPlan : Type := {
  totalRecommendations : nat;
  mealPlan : list Meal;
  summary : string
}.

Record DayPlan : Type := {
  day : option string;
  meal : string;
  day_time : string;
  day_difficulty : string;
  day_focusItem : string
}.

Record ShoppingEntry : Type := {
  shop_item : string;
  shop_quantity : Z
}.

Record WeeklyMealPlan : Type := {
  weeklyPlan : list DayPlan;
  shoppingList : list ShoppingEntry;
  totalMeals : nat
}.

(** [item.name.toLowerCase()]: an item without a name has nothing to call
    [toLowerCase] on. *)
Definition lowerName (item : InventoryItem.t) : result string :=
  match InventoryItem.name item with
  | Some s => Ok (toLowerCase s)
  | None => Throw TypeError
  end.

(** [inventoryNames.some((inv) => inv.includes(ing.toLowerCase()))] *)
Definition inInventory (inventoryNames : list string) (ing : string) : bool :=
  existsb (fun inv => includes inv (toLowerCase ing)) inventoryNames.

Definition scoreRecipeMatch (recipe : Recipe.t)
    (userInventory : list InventoryItem.t) : result ScoredRecipe :=
  inventoryNames <- mapM lowerName userInventory ;;
  let matchedIngredients :=
    filter (inInventory inventoryNames) (Recipe.ingredients recipe) in
  let matchScore :=
    mul (div (ofNat (List.length matchedIngredients))
             (ofNat (List.length (Recipe.ingredients recipe))))
        (ofZ 100) in
  Ok {| recipe := Recipe.name recipe;
        matchScore := Math_round matchScore;
        matchedIngredients := matchedIngredients;
        missingIngredients :=
          filter (fun ing => negb (inInventory inventoryNames ing))
                 (Recipe.ingredients recipe);
        spread := recipe |}.

Definition weekdays : list string :=
  ["Monday"; "Tuesday"; "Wednesday"; "Thursday"; "Friday"; "Saturday";
   "Sunday"].

(** [shoppingList[ingredient]++] or [shoppingList[ingredient] = 1]: the
    keys keep the order in which they were first written. *)
Fixpoint countIngredient (ingredient : string) (shoppingList : list (string * Z))
  : list (string * Z) :=
  match shoppingList with
  | [] => [(ingredient, 1%Z)]
  | (k, n) :: rest =>
      if String.eqb k ingredient then (k, (n + 1)%Z) :: rest
      else (k, n) :: countIngredient ingredient rest
  end.

(** [xs.map((x, index) => f(x, index))] *)
Fixpoint mapi_from {A B : Type} (index : nat) (f : A -> nat -> B)
    (xs : list A) : list B :=
  match xs with
  | [] => []
  | x :: xs' => f x index :: mapi_from (S index) f xs'
  end.

(** A loop whose body can throw. *)
Fixpoint foldM {A S : Type} (f : S -> A -> result S) (xs : list A) (s : S)
  : result S :=
  match xs with
  | [] => Ok s
  | x :: xs' => s' <- f s x ;; foldM f xs' s'
  end.

Section Planner.
Context {rt : Runtime}.

Definition calculateUrgency (daysLeft : jsval) : Z :=
  if le (ToNumber daysLeft) (ofZ 1) then 100%Z
  else if le (ToNumber daysLeft) (ofZ 2) then 80%Z
  else if le (ToNumber daysLeft) (ofZ 3) then 60%Z
  else if le (ToNumber daysLeft) (ofZ 7) then 40%Z
  else 20%Z.

(** [new Date(a.expiry) - new Date(b.expiry)] *)
Definition byExpiry (a b : InventoryItem.t) : jsnum :=
  sub (new_Date (InventoryItem.expiry a)) (new_Date (InventoryItem.expiry b)).

(** The comparator of the second sort: higher urgency first, then higher
    match score. *)
Definition byUrgencyThenMatch (a b : Meal) : jsnum :=
  if negb (urgency a =? urgency b)%Z then ofZ (urgency b - urgency a)
  else sub (matchScore (scored b)) (matchScore (scored a)).

(** The body of the inner loop, for one recipe of [item]. *)
Definition considerRecipe (userInventory : list InventoryItem.t)
    (item : InventoryItem.t) (focus : string)
    (recommendedMeals : list Meal) (recipe : Recipe.t)
  : result (list Meal) :=
  scoredRecipe <- scoreRecipeMatch recipe userInventory ;;
  if ge (matchScore scoredRecipe) (ofZ 50) then
    Ok (recommendedMeals ++
          [ {| scored := scoredRecipe;
               urgency := calculateUrgency (InventoryItem.daysLeft item);
               focusItem := focus |} ])
  else Ok recommendedMeals.

(** The body of the outer loop, for one item of the sorted inventory. *)
Definition considerItem (userInventory : list InventoryItem.t)
    (recommendedMeals : list Meal) (item : InventoryItem.t)
  : result (list Meal) :=
  match InventoryItem.name item with
  | None => Throw TypeError
  | Some name =>
      itemRecipes <- recipesFor (toLowerCase name) ;;
      foldM (considerRecipe userInventory item name) itemRecipes
            recommendedMeals
  end.

(** The filter on dietary preferences. *)
Definition fitsPreferences (preferences : list string) (meal : Meal) : bool :=
  if (List.length preferences =? 0)%nat then true
  else
    let ingredients := Recipe.ingredients (spread (scored meal)) in
    let vegetarian := array_includes preferences "Vegetarian" in
    let vegan := array_includes preferences "Vegan" in
    if vegetarian && array_includes ingredients "meat" then false
    else if vegan && (array_includes ingredients "dairy"
                      || array_includes ingredients "meat") then false
    else true.

Definition generateMealPlan (userInventory : list InventoryItem.t)
    (preferences : list string) : result MealPlan :=
  let sortedByExpiry := sort_by byExpiry userInventory in
  recommendedMeals <- foldM (considerItem userInventory) sortedByExpiry [] ;;
  let recommendedMeals := sort_by byUrgencyThenMatch recommendedMeals in
  let filteredMeals := filter (fitsPreferences preferences) recommendedMeals in
  Ok {| totalRecommendations := List.length filteredMeals;
        mealPlan := slice0 5 filteredMeals;
        summary :=
          "Found " ++ NumberToString (ofNat (List.length filteredMeals))
          ++ " recipes to use your expiring items" |}.

(** [mealCount] is [None] when the caller leaves it out. *)
Definition generateWeeklyMealPlan (userInventory : list InventoryItem.t)
    (mealCount : option Z) : result WeeklyMealPlan :=
  let mealCount := match mealCount with Some n => n | None => 7%Z end in
  mealPlan <- generateMealPlan userInventory [] ;;
  let selectedMeals := slice0 mealCount (MealPlanning.mealPlan mealPlan) in
  let shoppingList :=
    fold_left
      (fun shoppingList meal =>
         fold_left (fun sl ingredient => countIngredient ingredient sl)
                   (missingIngredients (scored meal)) shoppingList)
      selectedMeals [] in
  Ok {| weeklyPlan :=
          mapi_from 0
            (fun meal index =>
               {| day := nth_error weekdays index;
                  meal := recipe (scored meal);
                  day_time := Recipe.time (spread (scored meal));
                  day_difficulty := Recipe.difficulty (spread (scored meal));
                  day_focusItem := focusItem meal |})
            selectedMeals;
        shoppingList :=
          map (fun entry => {| shop_item := fst entry;
                               shop_quantity := snd entry |})
              shoppingList;
        totalMeals := List.length selectedMeals |}.

End Planner.

End MealPlanning.

(** ** mealPlanningService.js: the two look-ups *)

Module RecipeQueries.
Import JS MealPlanning.

Record RecipeDetails : Type := {
  success : bool;
  details_recipe : option Recipe.t;
  message : option string
}.

Record IngredientRecipes : Type := {
  ingredient : string;
  count : nat;
  recipes : list Recipe.t
}.

(** The double quote character. *)
Definition quote : string := String (ascii_of_nat 34) EmptyString.

(** [Object.values(recipeDatabase)], in the order of the keys. *)
Definition categoryLists : list (list Recipe.t) := map snd recipeDatabase.

(** [r.name.toLowerCase() === mealName.toLowerCase()] *)
Definition named (mealName : string) (r : Recipe.t) : bool :=
  String.eqb (toLowerCase (Recipe.name r)) (toLowerCase mealName).

(** The loop over the categories: the first recipe [find] gives. *)
Fixpoint firstNamed (mealName : string) (categories : list (list Recipe.t))
  : option Recipe.t :=
  match categories with
  | [] => None
  | categoryRecipes :: rest =>
      match find (named mealName) categoryRecipes with
      | Some recipe => Some recipe
      | None => firstNamed mealName rest
      end
  end.

Definition getRecipeDetails (mealName : string) : RecipeDetails :=
  match firstNamed mealName categoryLists with
  | Some recipe =>
      {| success := true; details_recipe := Some recipe; message := None |}
  | None =>
      {| success := false; details_recipe := None;
         message :=
           Some ("Recipe for " ++ quote ++ mealName ++ quote
                 ++ " not found")%string |}
  end.

(** [recipe.ingredients.some((ing) =>
      ing.toLowerCase().includes(ingredient.toLowerCase()))] *)
Definition usesIngredient (ingredient : string) (recipe : Recipe.t) : bool :=
  existsb (fun ing => includes (toLowerCase ing) (toLowerCase ingredient))
          (Recipe.ingredients recipe).

Definition getRecipesByIngredient (ingredient : string)
  : IngredientRecipes :=
  let recipes :=
    fold_left
      (fun recipes categoryRecipes =>
         fold_left
           (fun recipes recipe =>
              if usesIngredient ingredient recipe then recipes ++ [recipe]
              else recipes)
           categoryRecipes recipes)
      categoryLists [] in
  {| ingredient := ingredient;
     count := List.length recipes;
     recipes := recipes |}.

End RecipeQueries.

(** ** A runtime to run the examples with

    The theorems hold for every [JS.Runtime].  To evaluate the services on
    concrete data one is fixed here: calendar dates written [YYYY-MM-DD]
    (midnight UTC, as the language reads such a string), numerals written
    with digits only, integers printed in decimal.  It makes no claim on
    the other spellings an engine accepts, and it prints a number that is
    not an integer as a fraction, which no engine does; no example relies
    on either. *)

Module Reference.
Import JS.

Definition digit (c : ascii) : option Z :=
  let n := nat_of_ascii c in
  if (48 <=? n)%nat && (n <=? 57)%nat then Some (Z.of_nat (n - 48)) else None.

Fixpoint digits (s : string) (acc : Z) : option Z :=
  match s with
  | EmptyString => Some acc
  | String c s' =>
      match digit c with
      | Some d => digits s' (10 * acc + d)%Z
      | None => None
      end
  end.

(** Days from 1970-01-01 to the given civil date. *)
Definition daysFromCivil (y m d : Z) : Z :=
  let y' := (if m <=? 2 then y - 1 else y)%Z in
  let era := (y' / 400)%Z in
  let yoe := (y' - era * 400)%Z in
  let mp := (if m >? 2 then m - 3 else m + 9)%Z in
  let doy := ((153 * mp + 2) / 5 + d - 1)%Z in
  let doe := (yoe * 365 + yoe / 4 - yoe / 100 + doy)%Z in
  (era * 146097 + doe - 719468)%Z.

(** A date written [YYYY-MM-DD], read as node reads it: a day up to 31
    in a shorter month runs over into the next month. *)
Definition isoDate (s : string) : jsnum :=
  if (String.length s =? 10)%nat
     && String.eqb (substring 4 1 s) "-"
     && String.eqb (substring 7 1 s) "-"
  then
    match digits (substring 0 4 s) 0, digits (substring 5 2 s) 0,
          digits (substring 8 2 s) 0 with
    | Some y, Some m, Some d =>
        if ((1 <=? m) && (m <=? 12) && (1 <=? d) && (d <=? 31))%Z
        then ofZ (daysFromCivil y m d * 86400000)
        else NaN
    | _, _, _ => NaN
    end
  else NaN.

(** White space, as far as it is ASCII. *)
Definition isSpace (c : ascii) : bool :=
  let n := nat_of_ascii c in
  (n =? 32)%nat || ((9 <=? n) && (n <=? 13))%nat.

Fixpoint dropSpaces (cs : list ascii) : list ascii :=
  match cs with
  | c :: cs' => if isSpace c then dropSpaces cs' else cs
  | [] => []
  end.

Definition trim (cs : list ascii) : list ascii :=
  rev (dropSpaces (rev (dropSpaces cs))).

(** The value of a digit in the given radix. *)
Definition digitIn (radix : Z) (c : ascii) : option Z :=
  let n := Z.of_nat (nat_of_ascii c) in
  let v :=
    if ((48 <=? n) && (n <=? 57))%Z then Some (n - 48)%Z
    else if ((97 <=? n) && (n <=? 102))%Z then Some (n - 87)%Z
    else if ((65 <=? n) && (n <=? 70))%Z then Some (n - 55)%Z
    else None in
  match v with
  | Some d => if (d <? radix)%Z then Some d else None
  | None => None
  end.

(** The leading digits: their value on top of [acc], how many there
    are, and what follows them. *)
Fixpoint leadingDigits (radix : Z) (cs : list ascii) (acc : Z) (count : nat)
  : Z * nat * list ascii :=
  match cs with
  | c :: cs' =>
      match digitIn radix c with
      | Some d => leadingDigits radix cs' (radix * acc + d)%Z (S count)
      | None => (acc, count, cs)
      end
  | [] => (acc, count, [])
  end.

(** An integer in the given radix, with one digit at least and nothing
    after it. *)
Definition wholeIn (radix : Z) (cs : list ascii) : jsnum :=
  match leadingDigits radix cs 0 0 with
  | (n, S _, []) => ofZ n
  | _ => NaN
  end.

(** A sign, if there is one, and what follows it. *)
Definition signOf (cs : list ascii) : bool * list ascii :=
  match cs with
  | "-"%char :: cs' => (true, cs')
  | "+"%char :: cs' => (false, cs')
  | _ => (false, cs)
  end.

(** The power of ten of an exponent part [e], [e+] or [e-] with digits;
    none when the text is not an exponent part. *)
Definition exponentOf (cs : list ascii) : option Z :=
  match cs with
  | [] => Some 0%Z
  | c :: cs' =>
      if Ascii.eqb c "e" || Ascii.eqb c "E" then
        let '(negative, ds) := signOf cs' in
        match leadingDigits 10 ds 0 0 with
        | (n, S _, []) => Some (if negative then (- n)%Z else n)
        | _ => None
        end
      else None
  end.

(** Digits, a fraction and an exponent: [12], [12.], [12.5], [.5],
    [12.5e-3]. *)
Definition unsignedDecimal (cs : list ascii) : option Q :=
  let '(whole, wholeCount, afterWhole) := leadingDigits 10 cs 0 0 in
  let '(mantissa, fractionCount, afterFraction) :=
    match afterWhole with
    | "."%char :: ds => leadingDigits 10 ds whole 0
    | _ => (whole, 0%nat, afterWhole)
    end in
  match (wholeCount + fractionCount)%nat, exponentOf afterFraction with
  | S _, Some e =>
      Some (inject_Z mantissa
            * Qpower 10 (e - Z.of_nat fractionCount))
  | _, _ => None
  end.

Definition infinityText : list ascii := list_ascii_of_string "Infinity".

(** [Number(s)]: white space around, then nothing (0), a signed decimal,
    a signed [Infinity], or an unsigned integer with a radix prefix. *)
Definition numeral (s : string) : jsnum :=
  match trim (list_ascii_of_string s) with
  | [] => ofZ 0
  | "0"%char :: p :: cs =>
      if Ascii.eqb p "x" || Ascii.eqb p "X" then wholeIn 16 cs
      else if Ascii.eqb p "o" || Ascii.eqb p "O" then wholeIn 8 cs
      else if Ascii.eqb p "b" || Ascii.eqb p "B" then wholeIn 2 cs
      else match unsignedDecimal ("0"%char :: p :: cs) with
           | Some q => fin q
           | None => NaN
           end
  | cs =>
      let '(negative, body) := signOf cs in
      if list_eq_dec ascii_dec body infinityText
      then (if negative then NInf else PInf)
      else match unsignedDecimal body with
           | Some q => fin (if negative then - q else q)
           | None => NaN
           end
  end.

Definition decimal (z : Z) : string :=
  DecimalString.NilZero.string_of_int (Z.to_int z).

Definition printNumber (x : jsnum) : string :=
  match x with
  | Fin q =>
      if (Zpos (Qden q) =? 1)%Z then decimal (Qnum q)
      else decimal (Qnum q) ++ "/" ++ decimal (Zpos (Qden q))
  | PInf => "Infinity"
  | NInf => "-Infinity"
  | NaN => "NaN"
  end.

Definition runtime : Runtime :=
  {| NumberToString := printNumber;
     StringToNumber := numeral;
     Date_parse := isoDate |}.

End Reference.

(** ** What the results are compared with *)

Module WasteSpec.
Import JS Analytics.

(** The sum of a list of numbers. *)
Definition sumNumbers (xs : list jsnum) : jsnum := fold_left add xs (ofZ 0).

Section Waste.
Context {rt : Runtime}.

(** The prices of the wasted entries, as numbers. *)
Definition wastedPrices (history : list LogEntry.t) : list jsnum :=
  map (fun e => ToNumber (LogEntry.price e))
      (filter (has_status "wasted") history).

(** The reference date as a time value. *)
Definition referenceDate (todayString : option string) : jsnum :=
  new_Date (DString (match todayString with
                     | Some s => s
                     | None => "2025-11-21"
                     end)).

(** An item is at risk when it has between one and two days left. *)
Definition atRisk (today : jsnum) (item : InventoryItem.t) : bool :=
  highRisk (daysLeftOn today item).

Definition valueOf (item : InventoryItem.t) : jsnum :=
  times (InventoryItem.price item) (InventoryItem.quantity item).

Definition riskItemOf (today : jsnum) (item : InventoryItem.t) : RiskItem :=
  {| risk_name := or_else (InventoryItem.name item) (InventoryItem.item item);
     risk_daysLeft := daysLeftOn today item;
     riskPrice := valueOf item |}.

(** No wasted entry has a string for a price. *)
Definition pricesAddUp (history : list LogEntry.t) : Prop :=
  forall e s, In e history -> has_status "wasted" e = true ->
              LogEntry.price e <> VStr s.

End Waste.
End WasteSpec.

(** The five food groups in the order in which they are tested. *)
Module NutritionSpec.
Import JS Analytics.

Inductive Category : Type := Fruit | Vegetable | Protein | Grain | DairyFood.

Definition priorityOrder : list Category :=
  [Fruit; Vegetable; Protein; Grain; DairyFood].

Definition keywordsOf (c : Category) : list string :=
  match c with
  | Fruit => fruitKeywords
  | Vegetable => vegKeywords
  | Protein => proteinKeywords
  | Grain => grainKeywords
  | DairyFood => dairyKeywords
  end.

Definition sameCategory (a b : Category) : bool :=
  match a, b with
  | Fruit, Fruit | Vegetable, Vegetable | Protein, Protein
  | Grain, Grain | DairyFood, DairyFood => true
  | _, _ => false
  end.

(** The place of a group in the order of the tests. *)
Definition rank (c : Category) : nat :=
  match c with
  | Fruit => 0
  | Vegetable => 1
  | Protein => 2
  | Grain => 3
  | DairyFood => 4
  end.

(** One of the keywords of the group occurs in the name. *)
Definition matches (c : Category) (itemName : string) : bool :=
  someIncluded (keywordsOf c) itemName.

(** The name under which an entry is classified. *)
Definition nameOf (e : LogEntry.t) : string :=
  toLowerCase (or_empty (or_else (LogEntry.name e) (LogEntry.item e))).

(** The first group, in priority order, one of whose keywords occurs in
    the name; none when no keyword does. *)
Definition firstCategory (itemName : string) : option Category :=
  find (fun c => someIncluded (keywordsOf c) itemName) priorityOrder.

Definition isIn (c : Category) (e : LogEntry.t) : bool :=
  match firstCategory (nameOf e) with
  | Some c' => sameCategory c c'
  | None => false
  end.

(** How many of the entries fall into group [c]. *)
Definition countIn (c : Category) (entries : list LogEntry.t) : nat :=
  List.length (filter (isIn c) entries).

Definition consumedOf (history : list LogEntry.t) : list LogEntry.t :=
  filter (has_status "consumed") history.

(** [ceil(consumedCount / 5)] *)
Definition maxPerCategory (consumedCount : nat) : Z :=
  Qceiling (inject_Z (Z.of_nat consumedCount) / 5).

(** [min(count / maxPerCategory * 100, 100)] *)
Definition scoreOf (maxPerCategory : Z) (count : nat) : Q :=
  Qmin (inject_Z (Z.of_nat count) / inject_Z maxPerCategory * 100) 100.

(** [round(sum of the five scores / 5)] *)
Definition scoreOfAll (maxPerCategory : Z) (c : Categories) : Z :=
  Qround_half_up
    ((scoreOf maxPerCategory (fruits c)
      + scoreOf maxPerCategory (vegetables c)
      + scoreOf maxPerCategory (proteins c)
      + scoreOf maxPerCategory (grains c)
      + scoreOf maxPerCategory (dairy c)) / 5).

Definition onePerCategory : Categories :=
  {| fruits := 1; vegetables := 1; proteins := 1; grains := 1; dairy := 1 |}.

(** The suggestions: one for each group whose count is below half of
    [maxPerCategory] (a third for dairy), vegetables first; when there is
    none, the one message of praise. *)
Definition suggestionsFor (maxPerCategory : Z) (c : Categories)
  : list string :=
  let below (k : Z) (count : nat) : bool :=
    (k * Z.of_nat count <? maxPerCategory)%Z in
  let breached :=
    (if below 2%Z (vegetables c) then ["Boost vegetables to 25% of meals"]
     else [])
    ++ (if below 2%Z (fruits c) then ["Add more fruits for vitamins"]
        else [])
    ++ (if below 2%Z (proteins c) then ["Include proteins in every meal"]
        else [])
    ++ (if below 2%Z (grains c) then ["Choose whole grains"] else [])
    ++ (if below 3%Z (dairy c) then ["Add dairy for calcium"] else []) in
  match breached with
  | [] => ["Great variety! Keep it up!"]
  | _ => breached
  end.

Definition noCounts : Categories :=
  {| fruits := 0; vegetables := 0; proteins := 0; grains := 0; dairy := 0 |}.

(** The counts of the five groups among the entries. *)
Definition countsOf (entries : list LogEntry.t) : Categories :=
  {| fruits := countIn Fruit entries;
     vegetables := countIn Vegetable entries;
     proteins := countIn Protein entries;
     grains := countIn Grain entries;
     dairy := countIn DairyFood entries |}.

End NutritionSpec.

(** The candidates of the recommendation generator, as the conditions and
    amounts of each. *)
Module RecommendationSpec.
Import JS Analytics.

(** A running total is never negative: it is a non-negative number or
    plus infinity. *)
Definition nonneg (a : jsnum) : Prop :=
  a = PInf \/ exists q, a = fin q /\ 0 <= q.

Section Candidates.
Context {rt : Runtime}.
Variable sdgMetrics : SDGMetrics.
Variable nutritionMetrics : NutritionMetrics.

Definition wasteGap : jsnum := wastePotential sdgMetrics.
Definition nutritionGap : jsnum :=
  sub (ofZ 100) (nutritionScore nutritionMetrics).

Definition proposesWaste : bool := gt wasteGap (ofZ 0).
Definition proposesNutrition : bool := gt nutritionGap (ofZ 15).
Definition proposesVegetables : bool :=
  (vegetables (categories nutritionMetrics) <? 2)%nat.
Definition proposesProteins : bool :=
  (proteins (categories nutritionMetrics) <? 2)%nat.

Definition when {A : Type} (cond : bool) (x : A) : list A :=
  if cond then [x] else [].

(** The candidates, in the order of their priority. *)
Definition generated : list Recommendation :=
  when proposesWaste (wasteRecommendation wasteGap)
  ++ when proposesNutrition
       (nutritionRecommendation nutritionGap (suggestions nutritionMetrics))
  ++ when proposesVegetables vegetableRecommendation
  ++ when proposesProteins proteinRecommendation.

(** What each candidate adds to the running total. *)
Definition partialImpacts : list jsnum :=
  when proposesWaste (mul wasteGap (fin (25 # 100)))
  ++ when proposesNutrition (mul nutritionGap (fin (15 # 100)))
  ++ when proposesVegetables (ofZ 10)
  ++ when proposesProteins (ofZ 5).

Definition runningTotal : jsnum := fold_left add partialImpacts (ofZ 0).

End Candidates.
End RecommendationSpec.

(** The three kinds of line of the weekly insights, told apart by the
    sign they start with. *)
Module InsightSpec.
Import JS Analytics.

Definition isScoreLine (s : string) : bool :=
  prefix "🎉" s || prefix "⚠️" s || prefix "📊" s.
Definition isWasteLine (s : string) : bool :=
  prefix "✅" s || prefix "❌" s.
Definition isConsumptionLine (s : string) : bool :=
  prefix "💪" s.

(** The first [ceil(length / 2)] entries. *)
Definition earlierHalf (history : list LogEntry.t) : list LogEntry.t :=
  firstn ((List.length history + 1) / 2) history.

End InsightSpec.

(** Ingredients and inventory names. *)
Module MatchSpec.
Import JS MealPlanning.

(** [k] occurs in [s]. *)
Definition occursIn (k s : string) : Prop :=
  exists a b : string, s = (a ++ k ++ b)%string.

(** Some item name contains the ingredient, letter case aside. *)
Definition held (names : list string) (ing : string) : Prop :=
  exists n, In n names /\ occursIn (toLowerCase ing) (toLowerCase n).

(** Every item has a name, and none is named like an inherited
    property. *)
Definition wellNamed (inventory : list InventoryItem.t) : bool :=
  forallb
    (fun item =>
       match InventoryItem.name item with
       | Some n => negb (array_includes inheritedKeys (toLowerCase n))
       | None => false
       end)
    inventory.

(** No exception but a [TypeError]. *)
Definition onlyTypeError {A : Type} (m : result A) : Prop :=
  match m with
  | Throw (InvalidInputError _) => False
  | _ => True
  end.

End MatchSpec.

(** What a meal of a plan is made from, and how the meals are ordered. *)
Module PlanSpec.
Import JS MealPlanning.

(** Every recipe of the database, in its order. *)
Definition allRecipes : list Recipe.t := List.concat (map snd recipeDatabase).

(** [a] may come before [b]: higher urgency, or the same urgency and a
    match score that is not lower. *)
Definition precedes (a b : Meal) : Prop :=
  (urgency b < urgency a)%Z
  \/ (urgency a = urgency b
      /\ le (matchScore (scored b)) (matchScore (scored a)) = true).

(** The ingredients the meals lack, with repetitions. *)
Definition needed (meals : list Meal) : list string :=
  List.concat (map (fun meal => missingIngredients (scored meal)) meals).

(** [shoppingList[ingredient]], 0 for a key that was never written. *)
Fixpoint quantityOf (ingredient : string) (shoppingList : list (string * Z))
  : Z :=
  match shoppingList with
  | [] => 0%Z
  | (k, n) :: rest =>
      if String.eqb k ingredient then n else quantityOf ingredient rest
  end.

(** The name of an item reads an inherited property of the database. *)
Definition readsInherited (item : InventoryItem.t) : bool :=
  match InventoryItem.name item with
  | Some n => array_includes inheritedKeys (toLowerCase n)
  | None => false
  end.

Section Built.
Context {rt : Runtime}.

(** The meal was recommended for an item of the inventory: its recipe is
    listed in the database under the lower-cased name of the item, its
    score is the match of that recipe with the inventory and is at least
    50, its urgency is that of the item. *)
Definition builtFrom (inventory : list InventoryItem.t) (meal : Meal)
  : Prop :=
  exists item n listed,
    In item inventory
    /\ InventoryItem.name item = Some n
    /\ ownProperty (toLowerCase n) recipeDatabase = Some listed
    /\ In (spread (scored meal)) listed
    /\ scoreRecipeMatch (spread (scored meal)) inventory = Ok (scored meal)
    /\ ge (matchScore (scored meal)) (ofZ 50) = true
    /\ urgency meal = calculateUrgency (InventoryItem.daysLeft item)
    /\ focusItem meal = n.

End Built.
End PlanSpec.

(** ** Sample data *)

Module Samples.
Import JS Analytics.

Definition wastedEntry (name : string) (price : Q) : LogEntry.t :=
  LogEntry.make (Some name) None (VNum (fin price)) "wasted".
Definition consumedEntry (name : string) (price : Q) : LogEntry.t :=
  LogEntry.make (Some name) None (VNum (fin price)) "consumed".

(** Six entries, three wasted and three consumed. *)
Definition threeAndThree : list LogEntry.t :=
  [ wastedEntry "Milk" 1.5; consumedEntry "Rice" 2;
    wastedEntry "Bread" 1; consumedEntry "Apple" 0.5;
    consumedEntry "Eggs" 3; wastedEntry "Spinach" 2.2 ].

(** One wasted and one consumed entry. *)
Definition oneWasted : list LogEntry.t :=
  [ wastedEntry "Milk" 2.50; consumedEntry "Rice" 1.20 ].

(** A wasted entry without a price, and one whose price is a string. *)
Definition unpriced : list LogEntry.t :=
  [ LogEntry.make (Some "Milk") None VUndef "wasted" ].
Definition textPriced : list LogEntry.t :=
  [ LogEntry.make (Some "Milk") None (VStr "cheap") "wasted" ].

(** An item worth 1.00 a piece, two pieces, expiring on the given day. *)
Definition expiringOn (name date : string) : InventoryItem.t :=
  InventoryItem.make (Some name) None (VNum (ofZ 1)) (VNum (ofZ 2))
                     (DString date) VUndef.

Definition today : option string := Some "2025-11-21".

(** An item with the stored [daysLeft] the meal planner reads. *)
Definition stocked (name : string) (daysLeft : Z) : InventoryItem.t :=
  InventoryItem.make (Some name) None (VNum (ofZ 1)) (VNum (ofZ 1))
                     (DString "2025-11-25") (VNum (ofZ daysLeft)).

(** Five consumed entries, one for each food group. *)
Definition oneOfEach : list LogEntry.t :=
  [ consumedEntry "Apple" 0.5; consumedEntry "Carrot" 0.3;
    consumedEntry "Egg" 0.2; consumedEntry "Rice" 1;
    consumedEntry "Milk" 0.9 ].

(** A history in which nothing was consumed. *)
Definition onlyWaste : list LogEntry.t := [ wastedEntry "Milk" 1.5 ].

(** A recipe with three ingredients and the inventory it is matched
    against. *)
Definition friedRice : MealPlanning.Recipe.t :=
  MealPlanning.Recipe.make "Fried Rice" ["rice"; "peas"; "egg"]
    "20 min" "Easy" "Stir fry".
Definition riceAndEggs : list InventoryItem.t :=
  [ stocked "rice" 3; stocked "eggs" 5 ].

(** A pantry for which six recipes reach a match of 50. *)
Definition pantry : list InventoryItem.t :=
  [ stocked "Yogurt" 1; stocked "Carrots" 2; stocked "Rice" 3;
    stocked "Apples" 5; stocked "Berries" 2; stocked "Granola" 30;
    stocked "Garlic" 20; stocked "Oil" 90; stocked "Honey" 365 ].

(** An item without a name. *)
Definition nameless : InventoryItem.t :=
  InventoryItem.make None None (VNum (ofZ 1)) (VNum (ofZ 1))
                     (DString "2025-11-25") (VNum (ofZ 3)).

End Samples.

(** ** Binary floating point *)

(** The numbers of the engine: IEEE 754 binary64, as the Standard
    Library specifies it in [SpecFloat] (53 bits of precision, rounding
    to nearest with ties to even, signed zeros, infinities and NaN). *)
Module Binary64.
Import SpecFloat.

Definition double : Type := spec_float.
Definition prec : Z := 53.
Definition emax : Z := 1024.

Definition nan : double := S754_nan.
Definition infinity (negative : bool) : double := S754_infinity negative.
Definition zero (negative : bool) : double := S754_zero negative.

(** [a + b], [a - b], [a * b], [a / b] on numbers. *)
Definition add : double -> double -> double := SFadd prec emax.
Definition sub : double -> double -> double := SFsub prec emax.
Definition mul : double -> double -> double := SFmul prec emax.
Definition div : double -> double -> double := SFdiv prec emax.

(** [a < b], [a <= b], [a > b], [a >= b]. *)
Definition lt (a b : double) : bool := SFltb a b.
Definition le (a b : double) : bool := SFleb a b.
Definition gt (a b : double) : bool := SFltb b a.
Definition ge (a b : double) : bool := SFleb b a.

(** The double nearest to an integer; an array length, a count and the
    integer literals of the code are below 2^53 and have a double of
    their own. *)
Definition ofZ (z : Z) : double := binary_normalize prec emax z 0 false.
Definition ofNat (n : nat) : double := ofZ (Z.of_nat n).

(** The double nearest to [n / d], with the given sign; [n] is not
    negative. *)
Definition nearest (negative : bool) (n : Z) (d : positive) : double :=
  match n with
  | Zpos _ =>
      let '(m, e, l) := SFdiv_core_binary prec emax n 0 (Zpos d) 0 in
      binary_round_aux prec emax negative m e l
  | _ => S754_zero negative
  end.

(** The double nearest to a rational: what the engine holds for a
    numeral. *)
Definition ofQ (q : Q) : double :=
  match Qnum q with
  | Z0 => S754_zero false
  | Zpos n => nearest false (Zpos n) (Qden q)
  | Zneg n => nearest true (Zpos n) (Qden q)
  end.

(** The magnitude [m * 2^e] of a finite double. *)
Definition magnitude (m : positive) (e : Z) : Q :=
  match e with
  | Z0 => inject_Z (Zpos m)
  | Zpos p => inject_Z (Zpos m * Z.pow_pos 2 p)
  | Zneg p => Zpos m # Pos.pow 2 p
  end.

(** The rational a finite double is. *)
Definition valueOfFinite (s : bool) (m : positive) (e : Z) : Q :=
  if s then - magnitude m e else magnitude m e.

(** [Math.round(x)]: the integer nearest to [x], a tie going up; the
    result between -0.5 and 0 is the negative zero.  A double whose
    exponent is not negative is an integer already. *)
Definition Math_round (x : double) : double :=
  match x with
  | S754_finite s m e =>
      if (0 <=? e)%Z then x
      else
        match Qfloor (valueOfFinite s m e + (1 # 2)) with
        | Z0 => S754_zero s
        | n => ofZ n
        end
  | _ => x
  end.

(** [Math.ceil(x)]. *)
Definition Math_ceil (x : double) : double :=
  match x with
  | S754_finite s m e =>
      if (0 <=? e)%Z then x
      else
        match Qceiling (valueOfFinite s m e) with
        | Z0 => S754_zero s
        | n => ofZ n
        end
  | _ => x
  end.

(** [Math.min(a, b)]: NaN as soon as one argument is NaN; the negative
    zero is below the positive one. *)
Definition Math_min (a b : double) : double :=
  match SFcompare a b with
  | None => S754_nan
  | Some Lt => a
  | Some Gt => b
  | Some Eq => match a with S754_zero true => a | _ => b end
  end.

(** The same double, bit for bit. *)
Definition same (a b : double) : bool :=
  match a, b with
  | S754_zero s, S754_zero s' => Bool.eqb s s'
  | S754_infinity s, S754_infinity s' => Bool.eqb s s'
  | S754_nan, S754_nan => true
  | S754_finite s m e, S754_finite s' m' e' =>
      Bool.eqb s s' && Pos.eqb m m' && Z.eqb e e'
  | _, _ => false
  end.

(** The number of hundredths [toFixed(2)] prints for the magnitude [q]:
    the nearest, a tie going to the larger one. *)
Definition hundredthsOf (q : Q) : Z := Qfloor (q * 100 + (1 # 2)).

(** [parseFloat(x.toFixed(2))]: the double nearest to the printed
    decimal.  From 1e21 on [toFixed] prints the number as [String] does,
    and it is read back unchanged. *)
Definition round2 (x : double) : double :=
  match x with
  | S754_finite s m e =>
      if Qle_bool (inject_Z (10 ^ 21)) (magnitude m e) then x
      else nearest s (hundredthsOf (magnitude m e)) 100
  | S754_zero _ => S754_zero false
  | _ => x
  end.

End Binary64.

(** ** The two services as the engine computes them *)

(** The functions whose results depend on rounding, with the arithmetic
    of [Binary64] and the [toLowerCase] of the host.  The data are the
    records above: a number of the data is the rational it denotes, and
    the engine holds the double nearest to it (every double is such a
    rational). *)
Module Engine.
Import JS Analytics MealPlanning Binary64.

Fixpoint isAscii (s : string) : bool :=
  match s with
  | EmptyString => true
  | String c s' => (nat_of_ascii c <? 128)%nat && isAscii s'
  end.

(** The host: the conversions of [JS.Runtime], which give the number a
    string or a date denotes, and [String.prototype.toLowerCase], of
    which only its action on ASCII strings is assumed. *)
Class Host : Type := {
  runtime :: Runtime;
  toLowerCase : string -> string;
  toLowerCase_ascii :
    forall s, isAscii s = true -> toLowerCase s = JS.toLowerCase s
}.

(** The double that stands for a number of the data. *)
Definition toDouble (x : jsnum) : double :=
  match x with
  | Fin q => ofQ q
  | PInf => infinity false
  | NInf => infinity true
  | NaN => nan
  end.

(** The rational a double is, for printing. *)
Definition toExact (x : double) : jsnum :=
  match x with
  | SpecFloat.S754_zero _ => JS.ofZ 0
  | SpecFloat.S754_infinity s => if s then NInf else PInf
  | SpecFloat.S754_nan => NaN
  | SpecFloat.S754_finite s m e => fin (valueOfFinite s m e)
  end.

(** What [+] has produced so far: a number or a string. *)
Inductive value : Type :=
| Num (x : double)
| Str (s : string).

Record RiskItem : Type := {
  risk_name : option string;
  risk_daysLeft : double;
  riskPrice : double
}.

Record WasteMetrics : Type := {
  totalWastedMoney : double;
  riskValue : double;
  riskItems : list RiskItem;
  riskItemNames : list (option string)
}.

Record SDGMetrics : Type := {
  sdgScore : double;
  successRate : double;
  wastedCount : nat;
  consumedCount : nat;
  totalItems : nat
}.

Record NutritionMetrics : Type := {
  nutritionScore : double;
  categories : Categories;
  totalConsumed : nat;
  suggestions : list string
}.

Record ScoredRecipe : Type := {
  recipe : string;
  matchScore : double;
  matchedIngredients : list string;
  missingIngredients : list string;
  spread : Recipe.t
}.

(** [x.toFixed(2)] read back by [parseFloat]; only a number has
    [toFixed]. *)
Definition toFixed2 (v : value) : result double :=
  match v with
  | Num x => Ok (round2 x)
  | Str _ => Throw TypeError
  end.

Definition day_ms : double := ofZ (1000 * 60 * 60 * 24).

(** [daysLeft <= 2 && daysLeft > 0] *)
Definition highRisk (daysLeft : double) : bool :=
  le daysLeft (ofZ 2) && gt daysLeft (ofZ 0).

(** [Math.min((count / maxPerCategory) * 100, 100)] *)
Definition categoryScore (maxPerCategory : double) (count : nat) : double :=
  Math_min (mul (div (ofNat count) maxPerCategory) (ofZ 100)) (ofZ 100).

(** [history.filter((item) => item.status === s).length] *)
Definition countStatus (s : string) (history : list LogEntry.t) : nat :=
  List.length (filter (has_status s) history).

(** A missing history is [None]. *)
Definition calculateSDGScore (history : option (list LogEntry.t))
  : SDGMetrics :=
  match history with
  | None | Some [] =>
      {| sdgScore := ofZ 50; successRate := ofZ 0; wastedCount := 0;
         consumedCount := 0; totalItems := 0 |}
  | Some history =>
      let wastedCount := countStatus "wasted" history in
      let consumedCount := countStatus "consumed" history in
      let totalItems := List.length history in
      let successRate :=
        Math_round
          (mul (div (ofNat consumedCount) (ofNat totalItems)) (ofZ 100)) in
      let sdgScore := successRate in
      {| sdgScore := sdgScore; successRate := successRate;
         wastedCount := wastedCount; consumedCount := consumedCount;
         totalItems := totalItems |}
  end.

Section Hosted.
Context {host : Host}.

Definition ToNumber (v : jsval) : double :=
  match v with
  | VUndef => nan
  | VNum x => toDouble x
  | VStr s => toDouble (StringToNumber s)
  end.

Definition ToString (v : jsval) : string :=
  match v with
  | VUndef => "undefined"
  | VNum x => NumberToString (toExact (toDouble x))
  | VStr s => s
  end.

(** [sum + v]: concatenation as soon as one side is a string. *)
Definition plus (sum : value) (v : jsval) : value :=
  match sum, v with
  | Str s, _ => Str (s ++ ToString v)
  | Num x, VStr s => Str (NumberToString (toExact x) ++ s)
  | Num x, _ => Num (add x (ToNumber v))
  end.

(** The operator [*]. *)
Definition times (a b : jsval) : double := mul (ToNumber a) (ToNumber b).

(** The time value of [new Date(a)]. *)
Definition new_Date (a : date_arg) : double :=
  match a with
  | DUndef => nan
  | DString s => toDouble (Date_parse s)
  | DDate t => toDouble t
  end.

(** [Math.ceil((expiry - today) / (1000 * 60 * 60 * 24))] *)
Definition daysLeftOn (today : double) (item : InventoryItem.t) : double :=
  let expiry := new_Date (InventoryItem.expiry item) in
  Math_ceil (div (sub expiry today) day_ms).

(** One turn of the loop over the inventory; the state is [riskValue] and
    [riskItems]. *)
Definition riskStep (today : double) (st : double * list RiskItem)
    (item : InventoryItem.t) : double * list RiskItem :=
  let daysLeft := daysLeftOn today item in
  if highRisk daysLeft then
    (add (fst st)
         (times (InventoryItem.price item) (InventoryItem.quantity item)),
     snd st ++
       [ {| risk_name := or_else (InventoryItem.name item)
                                 (InventoryItem.item item);
            risk_daysLeft := daysLeft;
            riskPrice := times (InventoryItem.price item)
                               (InventoryItem.quantity item) |} ])
  else st.

Definition calculateWasteMetrics (history : list LogEntry.t)
    (inventory : list InventoryItem.t) (todayString : option string)
  : result WasteMetrics :=
  let todayString :=
    match todayString with Some s => s | None => defaultToday end in
  let totalWastedMoney :=
    fold_left (fun sum item => plus sum (LogEntry.price item))
              (filter (has_status "wasted") history) (Num (ofZ 0)) in
  let today := new_Date (DString todayString) in
  let st := fold_left (riskStep today) inventory (ofZ 0, []) in
  total <- toFixed2 totalWastedMoney ;;
  risk <- toFixed2 (Num (fst st)) ;;
  Ok {| totalWastedMoney := total;
        riskValue := risk;
        riskItems := snd st;
        riskItemNames := map risk_name (snd st) |}.

(** The body of the loop over the consumed items. *)
Definition categorize (categories : Categories) (item : LogEntry.t)
  : Categories :=
  let itemName :=
    toLowerCase
      (or_empty (or_else (LogEntry.name item) (LogEntry.item item))) in
  let c := categories in
  if someIncluded fruitKeywords itemName then
    {| fruits := S (fruits c); vegetables := vegetables c;
       proteins := proteins c; grains := grains c; dairy := dairy c |}
  else if someIncluded vegKeywords itemName then
    {| fruits := fruits c; vegetables := S (vegetables c);
       proteins := proteins c; grains := grains c; dairy := dairy c |}
  else if someIncluded proteinKeywords itemName then
    {| fruits := fruits c; vegetables := vegetables c;
       proteins := S (proteins c); grains := grains c; dairy := dairy c |}
  else if someIncluded grainKeywords itemName then
    {| fruits := fruits c; vegetables := vegetables c;
       proteins := proteins c; grains := S (grains c); dairy := dairy c |}
  else if someIncluded dairyKeywords itemName then
    {| fruits := fruits c; vegetables := vegetables c;
       proteins := proteins c; grains := grains c; dairy := S (dairy c) |}
  else c.

Definition calculateNutritionScore (history : option (list LogEntry.t))
  : NutritionMetrics :=
  match history with
  | None | Some [] =>
      {| nutritionScore := ofZ 50;
         categories := {| fruits := 0; vegetables := 0; proteins := 0;
                          grains := 0; dairy := 0 |};
         totalConsumed := 0;
         suggestions :=
           ["Add more vegetables"; "Include proteins"; "Eat whole grains"] |}
  | Some history =>
      let consumedItems := filter (has_status "consumed") history in
      let categories :=
        fold_left categorize consumedItems
          {| fruits := 0; vegetables := 0; proteins := 0;
             grains := 0; dairy := 0 |} in
      let maxPerCategory :=
        Math_ceil (div (ofNat (List.length consumedItems)) (ofZ 5)) in
      let nutritionScore :=
        fold_left
          (fun nutritionScore count =>
             add nutritionScore
                 (div (categoryScore maxPerCategory count) (ofZ 5)))
          (categoryValues categories) (ofZ 0) in
      let nutritionScore := Math_round nutritionScore in
      let suggestions :=
        pushIf (lt (ofNat (vegetables categories))
                   (div maxPerCategory (ofZ 2)))
               "Boost vegetables to 25% of meals"
        ++ pushIf (lt (ofNat (fruits categories))
                      (div maxPerCategory (ofZ 2)))
                  "Add more fruits for vitamins"
        ++ pushIf (lt (ofNat (proteins categories))
                      (div maxPerCategory (ofZ 2)))
                  "Include proteins in every meal"
        ++ pushIf (lt (ofNat (grains categories))
                      (div maxPerCategory (ofZ 2)))
                  "Choose whole grains"
        ++ pushIf (lt (ofNat (dairy categories))
                      (div maxPerCategory (ofZ 3)))
                  "Add dairy for calcium" in
      {| nutritionScore := nutritionScore;
         categories := categories;
         totalConsumed := List.length consumedItems;
         suggestions :=
           match suggestions with
           | [] => ["Great variety! Keep it up!"]
           | _ => suggestions
           end |}
  end.

(** [item.name.toLowerCase()]: an item without a name has nothing to call
    [toLowerCase] on. *)
Definition lowerName (item : InventoryItem.t) : result string :=
  match InventoryItem.name item with
  | Some s => Ok (toLowerCase s)
  | None => Throw TypeError
  end.

(** [inventoryNames.some((inv) => inv.includes(ing.toLowerCase()))] *)
Definition inInventory (inventoryNames : list string) (ing : string) : bool :=
  existsb (fun inv => includes inv (toLowerCase ing)) inventoryNames.

Definition scoreRecipeMatch (recipe : Recipe.t)
    (userInventory : list InventoryItem.t) : result ScoredRecipe :=
  inventoryNames <- mapM lowerName userInventory ;;
  let matchedIngredients :=
    filter (inInventory inventoryNames) (Recipe.ingredients recipe) in
  let matchScore :=
    mul (div (ofNat (List.length matchedIngredients))
             (ofNat (List.length (Recipe.ingredients recipe))))
        (ofZ 100) in
  Ok {| recipe := Recipe.name recipe;
        matchScore := Math_round matchScore;
        matchedIngredients := matchedIngredients;
        missingIngredients :=
          filter (fun ing => negb (inInventory inventoryNames ing))
                 (Recipe.ingredients recipe);
        spread := recipe |}.

End Hosted.
End Engine.

(** ** What the results of the engine are compared with *)

Module EngineSpec.
Import JS Analytics MealPlanning NutritionSpec MatchSpec Binary64 Engine.

(** The sum of a list of doubles, from the left, starting at 0. *)
Definition sumNumbers (xs : list double) : double :=
  fold_left add xs (ofZ 0).

(** [Math.round((part / whole) * 100)] as the engine computes it. *)
Definition percentage (part whole : nat) : double :=
  Math_round (mul (div (ofNat part) (ofNat whole)) (ofZ 100)).

(** The exact percentage, rounded to the nearest integer, a tie going
    up. *)
Definition halfUp (part whole : nat) : Z :=
  ((200 * Z.of_nat part + Z.of_nat whole) / (2 * Z.of_nat whole))%Z.

(** For every whole below [bound] and every part of it, the engine's
    percentage is the exact one rounded. *)
Definition percentagesExactBelow (bound : nat) : bool :=
  forallb
    (fun whole =>
       forallb
         (fun part => same (percentage part whole) (ofZ (halfUp part whole)))
         (seq 0 (S whole)))
    (seq 1 (bound - 1)).

Section Hosted.
Context {host : Host}.

(** The prices of the wasted entries, as numbers. *)
Definition wastedPrices (history : list LogEntry.t) : list double :=
  map (fun e => ToNumber (LogEntry.price e))
      (filter (has_status "wasted") history).

(** The reference date as a time value. *)
Definition referenceDate (todayString : option string) : double :=
  new_Date (DString (match todayString with
                     | Some s => s
                     | None => "2025-11-21"
                     end)).

(** An item is at risk when it has between one and two days left. *)
Definition atRisk (today : double) (item : InventoryItem.t) : bool :=
  highRisk (daysLeftOn today item).

Definition valueOf (item : InventoryItem.t) : double :=
  times (InventoryItem.price item) (InventoryItem.quantity item).

Definition riskItemOf (today : double) (item : InventoryItem.t) : RiskItem :=
  {| risk_name := or_else (InventoryItem.name item) (InventoryItem.item item);
     risk_daysLeft := daysLeftOn today item;
     riskPrice := valueOf item |}.

(** The name under which an entry is classified. *)
Definition nameOf (e : LogEntry.t) : string :=
  toLowerCase (or_empty (or_else (LogEntry.name e) (LogEntry.item e))).

Definition isIn (c : Category) (e : LogEntry.t) : bool :=
  match firstCategory (nameOf e) with
  | Some c' => sameCategory c c'
  | None => false
  end.

(** How many of the entries fall into group [c]. *)
Definition countIn (c : Category) (entries : list LogEntry.t) : nat :=
  List.length (filter (isIn c) entries).

(** The counts of the five groups among the entries. *)
Definition countsOf (entries : list LogEntry.t) : Categories :=
  {| fruits := countIn Fruit entries;
     vegetables := countIn Vegetable entries;
     proteins := countIn Protein entries;
     grains := countIn Grain entries;
     dairy := countIn DairyFood entries |}.

(** [ceil(consumedCount / 5)] *)
Definition maxPerCategory (consumedCount : nat) : double :=
  Math_ceil (div (ofNat consumedCount) (ofZ 5)).

(** The sum, in the order of the keys and starting at 0, of the fifths
    of the five category scores. *)
Definition sumOfFifths (m : double) (c : Categories) : double :=
  add (add (add (add (add (ofZ 0)
                          (div (categoryScore m (fruits c)) (ofZ 5)))
                     (div (categoryScore m (vegetables c)) (ofZ 5)))
                (div (categoryScore m (proteins c)) (ofZ 5)))
           (div (categoryScore m (grains c)) (ofZ 5)))
      (div (categoryScore m (dairy c)) (ofZ 5)).

(** Some item name contains the ingredient, letter case aside. *)
Definition held (names : list string) (ing : string) : Prop :=
  exists n, In n names /\ occursIn (toLowerCase ing) (toLowerCase n).

End Hosted.

(** 120 consumed entries, one of grain and eight of dairy among them. *)
Definition grainAndDairy : Categories :=
  {| fruits := 0; vegetables := 0; proteins := 0; grains := 1; dairy := 8 |}.

End EngineSpec.

(** The reference host and the data of the examples. *)
Module EngineSamples.
Import JS Analytics MealPlanning Engine.

Definition host : Host :=
  {| runtime := Reference.runtime;
     toLowerCase := JS.toLowerCase;
     toLowerCase_ascii := fun s _ => eq_refl |}.

(** Two wasted entries whose prices add up to just below 1.045. *)
Definition nearTie : list LogEntry.t :=
  [ Samples.wastedEntry "Salt" 0.001; Samples.wastedEntry "Milk" 1.044 ].

(** Three pieces at 0.1 each, expiring on the given day. *)
Definition threeDimes (date : string) : InventoryItem.t :=
  InventoryItem.make (Some "Gum") None (VNum (fin 0.1)) (VNum (JS.ofZ 3))
                     (DString date) VUndef.

(** A recipe and an inventory written in mixed case. *)
Definition friedRiceMixed : Recipe.t :=
  Recipe.make "Fried Rice" ["RICE"; "Peas"; "Egg"]
    "20 min" "Easy" "Stir fry".
Definition riceAndEggsMixed : list InventoryItem.t :=
  [ Samples.stocked "Basmati Rice" 3; Samples.stocked "EGGS" 5 ].

(** Forty entries, twenty-three of them consumed. *)
Definition twentyThreeOfForty : list LogEntry.t :=
  repeat (Samples.consumedEntry "Rice" 1) 23
  ++ repeat (Samples.wastedEntry "Milk" 1) 17.

End EngineSamples.

(** ** Arithmetic of the runtime numbers *)

Module JSFacts.
Import JS.
Local Open Scope Q_scope.

Lemma Qred_inject_Z (z : Z) : Qred (inject_Z z) = inject_Z z.
Proof. apply Qcanon.Qred_identity. simpl. apply Z.gcd_1_r. Qed.

Lemma ofZ_Fin (z : Z) : ofZ z = Fin (inject_Z z).
Proof. unfold ofZ, fin. now rewrite Qred_inject_Z. Qed.

Lemma fin_ext (x y : Q) : x == y -> fin x = fin y.
Proof. intros E. unfold fin. f_equal. now apply Qred_complete. Qed.

Lemma fin_inj (x y : Q) : fin x = fin y -> x == y.
Proof.
  unfold fin. intros E. injection E as E. now apply Qred_eq_iff.
Qed.

Lemma ofZ_inj (a b : Z) : ofZ a = ofZ b -> a = b.
Proof.
  intros E. apply fin_inj in E. unfold Qeq in E. simpl in E. lia.
Qed.

Lemma Qle_bool_Qred (x y : Q) : Qle_bool (Qred x) (Qred y) = Qle_bool x y.
Proof. apply eq_true_iff_eq. rewrite !Qle_bool_iff. apply Qred_le. Qed.

Lemma Qcompare_Qred_0 (x : Q) : (Qred x ?= 0) = (x ?= 0).
Proof. apply Qcompare_comp; [apply Qred_correct | reflexivity]. Qed.

Lemma add_fin (x y : Q) : add (fin x) (fin y) = fin (x + y).
Proof. simpl. apply fin_ext. now rewrite !Qred_correct. Qed.

Lemma neg_fin (x : Q) : neg (fin x) = fin (- x).
Proof. simpl. apply fin_ext. now rewrite Qred_correct. Qed.

Lemma sub_fin (x y : Q) : sub (fin x) (fin y) = fin (x - y).
Proof. unfold sub. rewrite neg_fin, add_fin. reflexivity. Qed.

Lemma mul_fin (x y : Q) : mul (fin x) (fin y) = fin (x * y).
Proof. simpl. apply fin_ext. now rewrite !Qred_correct. Qed.

Lemma div_fin (x y : Q) : ~ y == 0 -> div (fin x) (fin y) = fin (x / y).
Proof.
  intros Hy. unfold div, fin at 1 2. rewrite Qcompare_Qred_0.
  destruct (y ?= 0) eqn:C.
  - apply Qeq_alt in C. contradiction.
  - apply fin_ext. now rewrite !Qred_correct.
  - apply fin_ext. now rewrite !Qred_correct.
Qed.

Lemma div_zero_zero : div (ofZ 0) (ofZ 0) = NaN.
Proof. reflexivity. Qed.

Lemma le_fin (x y : Q) : le (fin x) (fin y) = Qle_bool x y.
Proof. simpl. apply Qle_bool_Qred. Qed.

Lemma lt_fin (x y : Q) : lt (fin x) (fin y) = negb (Qle_bool y x).
Proof. simpl. now rewrite Qle_bool_Qred. Qed.

Lemma min_fin (x y : Q) : Math_min (fin x) (fin y) = fin (Qmin x y).
Proof.
  unfold Math_min, fin at 1 2. fold (fin x). fold (fin y).
  rewrite le_fin. destruct (Qle_bool x y) eqn:L; apply fin_ext.
  - apply Qle_bool_iff in L. symmetry. now apply Q.min_l.
  - symmetry. apply Q.min_r. destruct (Qlt_le_dec y x) as [H|H].
    + now apply Qlt_le_weak.
    + apply Qle_bool_iff in H. congruence.
Qed.

Lemma round_fin (x : Q) : Math_round (fin x) = ofZ (Qround_half_up x).
Proof.
  simpl. unfold Qround_half_up. now rewrite Qred_correct.
Qed.

Lemma ceil_fin (x : Q) : Math_ceil (fin x) = ofZ (Qceiling x).
Proof. simpl. now rewrite Qred_correct. Qed.

Lemma Qround_half_up_Z (z : Z) : Qround_half_up (inject_Z z) = z.
Proof.
  unfold Qround_half_up, Qfloor, Qplus, inject_Z. simpl.
  replace (z * 2 + 1)%Z with (1 + z * 2)%Z by lia.
  rewrite Z.div_add by lia. reflexivity.
Qed.

Lemma round_ofZ (z : Z) : Math_round (ofZ z) = ofZ z.
Proof. unfold ofZ. now rewrite round_fin, Qround_half_up_Z. Qed.

Lemma add_ofZ (a b : Z) : add (ofZ a) (ofZ b) = ofZ (a + b).
Proof. unfold ofZ. rewrite add_fin. apply fin_ext. now rewrite inject_Z_plus. Qed.

Lemma sub_ofZ (a b : Z) : sub (ofZ a) (ofZ b) = ofZ (a - b).
Proof.
  unfold ofZ. rewrite sub_fin. apply fin_ext.
  unfold Z.sub. now rewrite inject_Z_plus, inject_Z_opp.
Qed.

Lemma mul_ofZ (a b : Z) : mul (ofZ a) (ofZ b) = ofZ (a * b).
Proof. unfold ofZ. rewrite mul_fin. apply fin_ext. now rewrite inject_Z_mult. Qed.

Lemma Qle_bool_inject_Z (a b : Z) :
  Qle_bool (inject_Z a) (inject_Z b) = (a <=? b)%Z.
Proof.
  apply eq_true_iff_eq. rewrite Qle_bool_iff, Z.leb_le, <- Zle_Qle.
  reflexivity.
Qed.

Lemma le_ofZ (a b : Z) : le (ofZ a) (ofZ b) = (a <=? b)%Z.
Proof. unfold ofZ. rewrite le_fin. apply Qle_bool_inject_Z. Qed.

Lemma lt_ofZ (a b : Z) : lt (ofZ a) (ofZ b) = (a <? b)%Z.
Proof.
  unfold ofZ. rewrite lt_fin, Qle_bool_inject_Z.
  rewrite Z.ltb_antisym. reflexivity.
Qed.

Lemma gt_ofZ (a b : Z) : gt (ofZ a) (ofZ b) = (b <? a)%Z.
Proof. apply lt_ofZ. Qed.

Lemma min_ofZ (a b : Z) : Math_min (ofZ a) (ofZ b) = ofZ (Z.min a b).
Proof.
  unfold ofZ. rewrite min_fin. apply fin_ext.
  destruct (Z.le_ge_cases a b) as [H|H].
  - rewrite Z.min_l by assumption. apply Q.min_l. now rewrite <- Zle_Qle.
  - rewrite Z.min_r by assumption. apply Q.min_r. now rewrite <- Zle_Qle.
Qed.

Lemma slice0_nonneg {A : Type} (k : Z) (xs : list A) :
  (0 <= k)%Z -> slice0 k xs = firstn (Z.to_nat k) xs.
Proof.
  intros Hk. unfold slice0. destruct (Z.ltb_spec k 0) as [L|L]; [lia|].
  destruct (Z.le_ge_cases k (Z.of_nat (List.length xs))) as [C|C].
  - now rewrite Z.min_l by lia.
  - rewrite Z.min_r by lia. rewrite Nat2Z.id, firstn_all.
    symmetry. apply firstn_all2. lia.
Qed.

Lemma Qround_half_up_comp (x y : Q) :
  x == y -> Qround_half_up x = Qround_half_up y.
Proof. intros E. unfold Qround_half_up. now rewrite E. Qed.

Lemma Qround_half_up_bounds (lo hi : Z) (q : Q) :
  inject_Z lo <= q -> q <= inject_Z hi ->
  (lo <= Qround_half_up q <= hi)%Z.
Proof.
  intros Hlo Hhi. split.
  - rewrite <- (Qfloor_Z lo). unfold Qround_half_up.
    apply Qfloor_resp_le. lra.
  - rewrite <- (Qround_half_up_Z hi). unfold Qround_half_up.
    apply Qfloor_resp_le. lra.
Qed.

Lemma inject_Z_nonzero (z : Z) : z <> 0%Z -> ~ inject_Z z == 0.
Proof. intros Hz E. unfold Qeq in E. simpl in E. lia. Qed.

Lemma below_fraction (k m : Z) (c : nat) :
  (0 < k)%Z ->
  lt (ofNat c) (div (ofZ m) (ofZ k)) = (k * Z.of_nat c <? m)%Z.
Proof.
  intros Hk. unfold ofNat, ofZ.
  rewrite div_fin by (apply inject_Z_nonzero; lia). rewrite lt_fin.
  assert (Kq : 0 < inject_Z k) by (rewrite Zlt_Qlt in Hk; exact Hk).
  destruct (Z.ltb_spec (k * Z.of_nat c) m) as [L|L];
    destruct (Qle_bool (inject_Z m / inject_Z k) (inject_Z (Z.of_nat c)))
      eqn:E; try reflexivity; exfalso.
  - apply Qle_bool_iff in E.
    apply (Qmult_le_compat_r _ _ (inject_Z k)) in E; [|lra].
    rewrite (Qmult_comm (inject_Z m / inject_Z k)) in E.
    rewrite Qmult_div_r in E by lra.
    rewrite <- inject_Z_mult, <- Zle_Qle in E. lia.
  - assert (F : inject_Z m / inject_Z k <= inject_Z (Z.of_nat c)).
    { apply Qle_shift_div_r; [exact Kq|].
      rewrite <- inject_Z_mult, <- Zle_Qle. lia. }
    apply Qle_bool_iff in F. congruence.
Qed.

Lemma Ok_inj {A : Type} (a b : A) : Ok a = Ok b -> a = b.
Proof. intros E. now injection E. Qed.

Lemma Qle_bool_Qred_l (x y : Q) : Qle_bool (Qred x) y = Qle_bool x y.
Proof.
  apply eq_true_iff_eq. rewrite !Qle_bool_iff. now rewrite Qred_correct.
Qed.

End JSFacts.

(** ** The urgency scorer *)

Module UrgencyProofs.
Import JS JSFacts MealPlanning.
Local Open Scope Z_scope.

Section Urgency.
Context {rt : Runtime}.

Lemma calculateUrgency_integer (d : Z) :
  calculateUrgency (VNum (ofZ d)) =
  if d <=? 1 then 100 else if d <=? 2 then 80
  else if d <=? 3 then 60 else if d <=? 7 then 40 else 20.
Proof.
  unfold calculateUrgency. simpl ToNumber. rewrite !le_ofZ. reflexivity.
Qed.

(** C8.  On every integer [calculateUrgency] returns one of 100, 80, 60,
    40, 20: 100 up to 1 (zero and negative values included), 80 at 2, 60
    at 3, 40 from 4 to 7 and 20 above 7; and a later day never gets a
    higher urgency than an earlier one. *)
Theorem calculateUrgency_policy (d d' : Z) (H : d <= d') :
  let u := calculateUrgency (VNum (ofZ d)) in
  In u [100; 80; 60; 40; 20]
  /\ (d <= 1 -> u = 100)
  /\ (1 < d <= 2 -> u = 80)
  /\ (2 < d <= 3 -> u = 60)
  /\ (3 < d <= 7 -> u = 40)
  /\ (7 < d -> u = 20)
  /\ calculateUrgency (VNum (ofZ d')) <= u.
Proof.
  cbv zeta. rewrite !calculateUrgency_integer.
  destruct (Z.leb_spec d 1), (Z.leb_spec d 2), (Z.leb_spec d 3),
    (Z.leb_spec d 7); try lia;
  destruct (Z.leb_spec d' 1), (Z.leb_spec d' 2), (Z.leb_spec d' 3),
    (Z.leb_spec d' 7); try lia; simpl; intuition lia.
Qed.

End Urgency.

Lemma calculateUrgency_policy_witness :
  1 <= 5
  /\ calculateUrgency (rt := Reference.runtime) (VNum (ofZ 1)) = 100
  /\ calculateUrgency (rt := Reference.runtime) (VNum (ofZ 5))
     <= calculateUrgency (rt := Reference.runtime) (VNum (ofZ 1)).
Proof.
  assert (H : 1 <= 5) by lia.
  pose proof (calculateUrgency_policy (rt := Reference.runtime) 1 5 H) as P.
  cbv zeta in P. destruct P as (_ & P1 & _ & _ & _ & _ & P6).
  split; [exact H | split; [apply P1; lia | exact P6]].
Defined.

End UrgencyProofs.

(** ** The sustainability score *)

Module SDGScoreProofs.
Import JS JSFacts Analytics Samples.
Local Open Scope Z_scope.

Lemma countStatus_count_occ (s : string) (history : list LogEntry.t) :
  countStatus s history =
  Z.of_nat (count_occ string_dec (map LogEntry.status history) s).
Proof.
  unfold countStatus. f_equal.
  induction history as [|e history IH]; simpl; [reflexivity|].
  unfold has_status at 1.
  destruct (String.eqb_spec (LogEntry.status e) s) as [E|E];
    destruct (string_dec (LogEntry.status e) s); try contradiction;
    simpl; now rewrite IH.
Qed.

Lemma countStatus_bounds (s : string) (history : list LogEntry.t) :
  0 <= countStatus s history <= Z.of_nat (List.length history).
Proof.
  unfold countStatus. pose proof (filter_length_le (has_status s) history).
  lia.
Qed.

(** Rounding a quotient of integers half up, on the integers. *)
Lemma round_percentage (c t : Z) :
  0 < t ->
  Qround_half_up (inject_Z c / inject_Z t * 100) = (200 * c + t) / (2 * t).
Proof.
  intros Ht. unfold Qround_half_up. rewrite Zdiv_Qdiv.
  apply Qfloor_comp.
  rewrite inject_Z_plus, !inject_Z_mult.
  assert (~ (inject_Z t == 0)%Q).
  { intros E. unfold Qeq in E. simpl in E. lia. }
  field. assumption.
Qed.

Lemma round_percentage_bounds (c t : Z) :
  0 <= c <= t -> 0 < t ->
  0 <= Qround_half_up (inject_Z c / inject_Z t * 100) <= 100.
Proof.
  intros Hc Ht. rewrite round_percentage by assumption. split.
  - apply Z.div_pos; lia.
  - enough ((200 * c + t) / (2 * t) < 101) by lia.
    apply Z.div_lt_upper_bound; lia.
Qed.

Lemma calculateSDGScore_nonempty (history : list LogEntry.t) :
  history <> [] ->
  calculateSDGScore (Some history) =
  let c := countStatus "consumed" history in
  let t := Z.of_nat (List.length history) in
  {| sdgScore := Qround_half_up (inject_Z c / inject_Z t * 100);
     successRate := Qround_half_up (inject_Z c / inject_Z t * 100);
     wastedCount := countStatus "wasted" history;
     consumedCount := c;
     totalItems := t |}.
Proof. destruct history; [congruence | reflexivity]. Qed.

(** The score is an integer between 0 and 100 on every history. *)
Lemma sdgScore_in_range (history : option (list LogEntry.t)) :
  0 <= sdgScore (calculateSDGScore history) <= 100.
Proof.
  destruct history as [[|e history]|]; simpl sdgScore; try lia.
  apply round_percentage_bounds.
  - apply countStatus_bounds.
  - simpl List.length. lia.
Qed.

End SDGScoreProofs.

(** ** Waste and risk *)

Module WasteProofs.
Import JS JSFacts Analytics WasteSpec.

(** *** Sums with NaN *)

Lemma add_NaN_r (a : jsnum) : add a NaN = NaN.
Proof. now destruct a. Qed.

Lemma sum_from_NaN (xs : list jsnum) : fold_left add xs NaN = NaN.
Proof. induction xs as [|x xs IH]; simpl; [reflexivity | exact IH]. Qed.

Lemma sum_with_NaN (xs : list jsnum) (acc : jsnum) :
  In NaN xs -> fold_left add xs acc = NaN.
Proof.
  revert acc. induction xs as [|x xs IH]; intros acc Hin; [destruct Hin|].
  destruct Hin as [E|Hin]; simpl.
  - subst x. rewrite add_NaN_r. apply sum_from_NaN.
  - now apply IH.
Qed.

(** *** Rounding to hundredths *)

Lemma hundredths_comp (x y : Q) : x == y -> hundredths x = hundredths y.
Proof.
  intros E. unfold hundredths.
  assert (B : Qle_bool 0 x = Qle_bool 0 y).
  { apply eq_true_iff_eq. rewrite !Qle_bool_iff. now rewrite E. }
  rewrite B.
  assert (F : Qfloor (Qabs x * 100 + (1 # 2))
              = Qfloor (Qabs y * 100 + (1 # 2))).
  { apply Qfloor_comp. now rewrite E. }
  now rewrite F.
Qed.

Lemma round2_fin (q : Q) :
  round2 (fin q) = fin (inject_Z (hundredths q) / 100).
Proof.
  simpl. now rewrite (hundredths_comp (Qred q) q (Qred_correct q)).
Qed.

Lemma hundredths_close (q : Q) :
  Qabs (q - inject_Z (hundredths q) / 100) <= 1 # 200.
Proof.
  unfold hundredths.
  pose proof (Qfloor_le (Qabs q * 100 + (1 # 2))) as Lo.
  pose proof (Qlt_floor (Qabs q * 100 + (1 # 2))) as Hi.
  rewrite inject_Z_plus in Hi. change (inject_Z 1) with 1%Q in Hi.
  set (z := Qfloor (Qabs q * 100 + (1 # 2))) in *.
  apply Qabs_Qle_condition.
  destruct (Qle_bool 0 q) eqn:S.
  - apply Qle_bool_iff in S. rewrite (Qabs_pos q S) in Lo, Hi.
    revert Lo Hi. generalize (inject_Z z). clear z. intros n Lo Hi.
    setoid_replace (n / 100) with (n * (1 # 100)) by field.
    split; lra.
  - assert (S' : q <= 0).
    { destruct (Qlt_le_dec q 0) as [L|L]; [now apply Qlt_le_weak|].
      apply Qle_bool_iff in L. congruence. }
    rewrite (Qabs_neg q S') in Lo, Hi. rewrite inject_Z_opp.
    revert Lo Hi. generalize (inject_Z z). clear z. intros n Lo Hi.
    setoid_replace (- n / 100) with (- n * (1 # 100)) by field.
    split; lra.
Qed.

Section Waste.
Context {rt : Runtime}.

(** *** The sum over the wasted entries *)

Lemma plus_number (acc : jsnum) (v : jsval) :
  (forall s, v <> VStr s) -> plus (VNum acc) v = VNum (add acc (ToNumber v)).
Proof.
  destruct v; simpl; intros H; try reflexivity.
  exfalso. now apply (H s).
Qed.

Lemma sum_prices_numbers (entries : list LogEntry.t) (acc : jsnum) :
  (forall e s, In e entries -> LogEntry.price e <> VStr s) ->
  fold_left (fun sum item => plus sum (LogEntry.price item)) entries (VNum acc)
  = VNum (fold_left add
            (map (fun e => ToNumber (LogEntry.price e)) entries) acc).
Proof.
  revert acc. induction entries as [|e entries IH]; intros acc H;
    cbn [fold_left map].
  - reflexivity.
  - rewrite plus_number.
    + apply IH. intros e' s Hin. apply H. now right.
    + intros s. apply H. now left.
Qed.

Lemma sum_prices_stays_string (entries : list LogEntry.t) (s : string) :
  exists s',
    fold_left (fun sum item => plus sum (LogEntry.price item)) entries (VStr s)
    = VStr s'.
Proof.
  revert s. induction entries as [|e entries IH]; intros s; simpl.
  - now exists s.
  - apply IH.
Qed.

Lemma sum_prices_string (entries : list LogEntry.t) (acc : jsval)
    (e : LogEntry.t) (s : string) :
  In e entries -> LogEntry.price e = VStr s ->
  exists s',
    fold_left (fun sum item => plus sum (LogEntry.price item)) entries acc
    = VStr s'.
Proof.
  revert acc. induction entries as [|e' entries IH]; intros acc Hin Hs.
  - destruct Hin.
  - destruct Hin as [E|Hin]; simpl.
    + subst e'. rewrite Hs.
      assert (P : exists s', plus acc (VStr s) = VStr s')
        by (destruct acc; simpl; eauto).
      destruct P as [s' P]. rewrite P. apply sum_prices_stays_string.
    + now apply IH.
Qed.

(** *** The loop over the inventory *)

Lemma risk_loop (today : jsnum) (inventory : list InventoryItem.t)
    (value : jsnum) (items : list RiskItem) :
  fold_left (riskStep today) inventory (value, items) =
  (fold_left add (map valueOf (filter (atRisk today) inventory)) value,
   items ++ map (riskItemOf today) (filter (atRisk today) inventory)).
Proof.
  revert value items.
  induction inventory as [|item inventory IH]; intros value items;
    cbn [fold_left filter map].
  - now rewrite app_nil_r.
  - assert (S : riskStep today (value, items) item =
                if atRisk today item
                then (add value (valueOf item),
                      items ++ [riskItemOf today item])
                else (value, items)) by reflexivity.
    rewrite S. destruct (atRisk today item).
    + rewrite IH. cbn [map fold_left]. rewrite <- app_assoc. reflexivity.
    + apply IH.
Qed.

Lemma risk_loop_skips (today : jsnum) (item : InventoryItem.t)
    (before after : list InventoryItem.t) (st : jsnum * list RiskItem) :
  atRisk today item = false ->
  fold_left (riskStep today) (before ++ item :: after) st
  = fold_left (riskStep today) (before ++ after) st.
Proof.
  intros H. rewrite !fold_left_app. simpl. f_equal.
  unfold riskStep. unfold atRisk in H. now rewrite H.
Qed.

Lemma invalid_expiry_not_at_risk (today : jsnum) (item : InventoryItem.t) :
  new_Date (InventoryItem.expiry item) = NaN -> atRisk today item = false.
Proof.
  intros H. unfold atRisk, daysLeftOn. rewrite H. reflexivity.
Qed.

Lemma highRisk_integer (d : Z) :
  highRisk (ofZ d) = ((d <=? 2) && (0 <? d))%Z.
Proof. unfold highRisk. now rewrite le_ofZ, gt_ofZ. Qed.

Lemma daysLeftOn_valid (today : jsnum) (item : InventoryItem.t) (e t : Q) :
  new_Date (InventoryItem.expiry item) = fin e -> today = fin t ->
  daysLeftOn today item = ofZ (Qceiling ((e - t) / 86400000)).
Proof.
  intros He Ht. unfold daysLeftOn, day_ms, ofZ. rewrite He, Ht.
  rewrite sub_fin, div_fin, ceil_fin; [reflexivity | discriminate].
Qed.

Lemma calculateWasteMetrics_numbers (history : list LogEntry.t)
    (inventory : list InventoryItem.t) (todayString : option string) :
  pricesAddUp history ->
  let today := referenceDate todayString in
  let risky := filter (atRisk today) inventory in
  calculateWasteMetrics history inventory todayString =
  Ok {| totalWastedMoney := round2 (sumNumbers (wastedPrices history));
        riskValue := round2 (sumNumbers (map valueOf risky));
        riskItems := map (riskItemOf today) risky;
        riskItemNames := map risk_name (map (riskItemOf today) risky) |}.
Proof.
  intros H. cbv zeta. unfold calculateWasteMetrics.
  rewrite sum_prices_numbers.
  - fold (referenceDate todayString).
    rewrite risk_loop. reflexivity.
  - intros e s Hin. apply filter_In in Hin. destruct Hin as [Hin Hw].
    now apply (H e s).
Qed.

End Waste.

End WasteProofs.

(** ** Recommendations *)

Module RecommendationProofs.
Import JS JSFacts Analytics RecommendationSpec.

Lemma nonneg_add (a b : jsnum) : nonneg a -> nonneg b -> nonneg (add a b).
Proof.
  intros [->|(x & -> & Hx)] [->|(y & -> & Hy)]; try (left; reflexivity).
  right. exists (x + y). rewrite add_fin. split; [reflexivity | lra].
Qed.

Lemma nonneg_sum (xs : list jsnum) (acc : jsnum) :
  Forall nonneg xs -> nonneg acc -> nonneg (fold_left add xs acc).
Proof.
  revert acc. induction xs as [|x xs IH]; intros acc Hxs Hacc; simpl.
  - exact Hacc.
  - inversion Hxs; subst. apply IH; [assumption|]. now apply nonneg_add.
Qed.

Lemma nonneg_capped (a : jsnum) :
  nonneg a -> exists q, Math_min a (ofZ 30) = fin q /\ 0 <= q <= 30.
Proof.
  intros [->|(x & -> & Hx)].
  - exists 30. split; [reflexivity | lra].
  - exists (Qmin x 30). unfold ofZ. rewrite min_fin. split; [reflexivity|].
    split.
    + apply Q.min_glb; lra.
    + apply Q.le_min_r.
Qed.

Section Recommendations.
Context {rt : Runtime}.
Variable sdgMetrics : SDGMetrics.
Variable nutritionMetrics : NutritionMetrics.

Lemma candidates_generated :
  candidates sdgMetrics nutritionMetrics =
  (generated sdgMetrics nutritionMetrics,
   runningTotal sdgMetrics nutritionMetrics).
Proof.
  unfold candidates, generated, runningTotal, partialImpacts.
  unfold proposesWaste, proposesNutrition, proposesVegetables,
    proposesProteins, wasteGap, nutritionGap.
  destruct (gt (wastePotential sdgMetrics) (ofZ 0));
    destruct (gt (sub (ofZ 100) (nutritionScore nutritionMetrics)) (ofZ 15));
    destruct (vegetables (categories nutritionMetrics) <? 2)%nat;
    destruct (proteins (categories nutritionMetrics) <? 2)%nat;
    reflexivity.
Qed.

Lemma wasteGap_integer :
  wasteGap sdgMetrics =
  ofZ (Z.min (wastedCount sdgMetrics * 10) (100 - sdgScore sdgMetrics)).
Proof.
  unfold wasteGap, wastePotential. now rewrite mul_ofZ, sub_ofZ, min_ofZ.
Qed.

Lemma waste_impact_nonneg :
  proposesWaste sdgMetrics = true ->
  nonneg (mul (wasteGap sdgMetrics) (fin (25 # 100))).
Proof.
  unfold proposesWaste. rewrite wasteGap_integer, gt_ofZ. intros G.
  apply Z.ltb_lt in G. right. unfold ofZ. rewrite mul_fin.
  eexists. split; [reflexivity|].
  rewrite Zlt_Qlt in G. change (inject_Z 0) with 0 in G.
  apply Qmult_le_0_compat; [lra | discriminate].
Qed.

Lemma nutrition_impact_nonneg :
  proposesNutrition nutritionMetrics = true ->
  nonneg (mul (nutritionGap nutritionMetrics) (fin (15 # 100))).
Proof.
  unfold proposesNutrition.
  destruct (nutritionGap nutritionMetrics) as [q| | |]; intros G;
    try discriminate.
  - right. exists (q * (15 # 100)). split.
    + change (mul (Fin q) (fin (15 # 100)))
        with (fin (q * Qred (15 # 100))).
      apply fin_ext. now rewrite Qred_correct.
    + unfold gt in G. rewrite ofZ_Fin in G. cbn [lt] in G.
      apply negb_true_iff in G.
      assert (L : ~ q <= inject_Z 15)
        by (rewrite <- Qle_bool_iff; congruence).
      apply Qnot_le_lt in L. change (inject_Z 15) with 15 in L.
      apply Qmult_le_0_compat; [lra | discriminate].
  - left. reflexivity.
Qed.

Lemma runningTotal_nonneg : nonneg (runningTotal sdgMetrics nutritionMetrics).
Proof.
  unfold runningTotal. apply nonneg_sum.
  - unfold partialImpacts, when.
    apply Forall_app; split;
      [|apply Forall_app; split; [|apply Forall_app; split]].
    + destruct (proposesWaste sdgMetrics) eqn:C; constructor;
        [now apply waste_impact_nonneg | constructor].
    + destruct (proposesNutrition nutritionMetrics) eqn:C; constructor;
        [now apply nutrition_impact_nonneg | constructor].
    + destruct (proposesVegetables nutritionMetrics); constructor;
        [|constructor].
      right. exists 10. split; [reflexivity | lra].
    + destruct (proposesProteins nutritionMetrics); constructor;
        [|constructor].
      right. exists 5. split; [reflexivity | lra].
  - right. exists 0. split; [reflexivity | lra].
Qed.

(** The two numbers of the result are integers: the improvement lies
    between 0 and 30, the new score is the old one plus the improvement,
    cut at 100. *)
Lemma improvement_integer :
  let r := generateActionableRecommendations sdgMetrics nutritionMetrics in
  exists k : Z,
    (0 <= k <= 30)%Z
    /\ potentialImprovement r = ofZ k
    /\ estimatedNewScore r = ofZ (Z.min (sdgScore sdgMetrics + k) 100).
Proof.
  cbv zeta. unfold generateActionableRecommendations.
  rewrite candidates_generated. cbn [fst snd potentialImprovement
                                      estimatedNewScore].
  destruct (nonneg_capped _ runningTotal_nonneg) as (q & E & Hq).
  rewrite E, round_fin. exists (Qround_half_up q). split; [|split].
  - apply Qround_half_up_bounds;
      [change (inject_Z 0) with 0 | change (inject_Z 30) with 30]; lra.
  - reflexivity.
  - now rewrite add_ofZ, min_ofZ.
Qed.


End Recommendations.
End RecommendationProofs.

(** ** The nutrition score *)

Module NutritionProofs.
Import JS JSFacts Analytics NutritionSpec.

(** [firstCategory] gives the group that matches and has no matching
    group before it. *)
Lemma firstCategory_first (itemName : string) (g : Category) :
  firstCategory itemName = Some g <->
  matches g itemName = true
  /\ forall g', (rank g' < rank g)%nat -> matches g' itemName = false.
Proof.
  unfold firstCategory, matches. cbn [find priorityOrder].
  split.
  - intros F.
    destruct (someIncluded (keywordsOf Fruit) itemName) eqn:M1;
      [|destruct (someIncluded (keywordsOf Vegetable) itemName) eqn:M2;
        [|destruct (someIncluded (keywordsOf Protein) itemName) eqn:M3;
          [|destruct (someIncluded (keywordsOf Grain) itemName) eqn:M4;
            [|destruct (someIncluded (keywordsOf DairyFood) itemName)
                eqn:M5; [|discriminate]]]]];
      injection F as <-; (split; [assumption|]);
      intros [] L; simpl in L; try lia; assumption.
  - intros [M E].
    assert (B : forall g', (rank g' < rank g)%nat ->
                           someIncluded (keywordsOf g') itemName = false)
      by exact E.
    destruct g; simpl in B;
      rewrite ?(B Fruit), ?(B Vegetable), ?(B Protein), ?(B Grain)
        by (simpl; lia);
      now rewrite M.
Qed.

Lemma isIn_first (g : Category) (e : LogEntry.t) :
  isIn g e = true <->
  matches g (nameOf e) = true
  /\ forall g', (rank g' < rank g)%nat -> matches g' (nameOf e) = false.
Proof.
  rewrite <- firstCategory_first. unfold isIn.
  destruct (firstCategory (nameOf e)) as [g'|].
  - split.
    + intros S. f_equal. now destruct g, g'.
    + intros E. injection E as ->. now destruct g.
  - split; discriminate.
Qed.

Lemma countIn_cons (c : Category) (e : LogEntry.t)
    (entries : list LogEntry.t) :
  countIn c (e :: entries) =
  ((if isIn c e then 1 else 0) + countIn c entries)%nat.
Proof. unfold countIn. cbn [filter]. now destruct (isIn c e). Qed.

(** The loop over the consumed items counts each item in the first group
    that matches its name. *)
Lemma categorize_counts (entries : list LogEntry.t) (c : Categories) :
  fold_left categorize entries c =
  {| fruits := fruits c + countIn Fruit entries;
     vegetables := vegetables c + countIn Vegetable entries;
     proteins := proteins c + countIn Protein entries;
     grains := grains c + countIn Grain entries;
     dairy := dairy c + countIn DairyFood entries |}.
Proof.
  revert c. induction entries as [|e entries IH]; intros c.
  - destruct c. cbn. f_equal; lia.
  - cbn [fold_left]. rewrite IH, !countIn_cons.
    unfold categorize, isIn, firstCategory. fold (nameOf e).
    cbn [find priorityOrder keywordsOf].
    destruct (someIncluded fruitKeywords (nameOf e));
      [|destruct (someIncluded vegKeywords (nameOf e));
        [|destruct (someIncluded proteinKeywords (nameOf e));
          [|destruct (someIncluded grainKeywords (nameOf e));
            [|destruct (someIncluded dairyKeywords (nameOf e))]]]];
      cbn [fruits vegetables proteins grains dairy sameCategory];
      f_equal; lia.
Qed.

Lemma categorize_countsOf (entries : list LogEntry.t) :
  fold_left categorize entries noCounts = countsOf entries.
Proof. rewrite categorize_counts. reflexivity. Qed.

Lemma maxPerCategory_js (n : nat) :
  Math_ceil (div (ofNat n) (ofZ 5)) = ofZ (maxPerCategory n).
Proof.
  unfold ofNat, maxPerCategory.
  change (ofZ 5) with (fin (inject_Z 5)). unfold ofZ at 1.
  rewrite div_fin by (apply inject_Z_nonzero; lia). apply ceil_fin.
Qed.

Lemma maxPerCategory_pos (n : nat) :
  (0 < n)%nat -> (1 <= maxPerCategory n)%Z.
Proof.
  intros Hn. unfold maxPerCategory.
  pose proof (Qle_ceiling (inject_Z (Z.of_nat n) / 5)) as C.
  assert (P : 0 < inject_Z (Z.of_nat n) / 5).
  { apply Qlt_shift_div_l; [reflexivity|]. rewrite Qmult_0_l.
    change 0 with (inject_Z 0). rewrite <- Zlt_Qlt. lia. }
  assert (Z0 : inject_Z 0 < inject_Z (Qceiling (inject_Z (Z.of_nat n) / 5))).
  { change (inject_Z 0) with 0. lra. }
  rewrite <- Zlt_Qlt in Z0. lia.
Qed.

Lemma categoryScore_fin (m : Z) (count : nat) :
  m <> 0%Z -> categoryScore (ofZ m) count = fin (scoreOf m count).
Proof.
  intros Hm. unfold categoryScore, scoreOf, ofNat, ofZ.
  rewrite div_fin by now apply inject_Z_nonzero.
  now rewrite mul_fin, min_fin.
Qed.

Lemma scoreOf_bounds (m : Z) (count : nat) :
  (0 < m)%Z -> 0 <= scoreOf m count <= 100.
Proof.
  intros Hm. unfold scoreOf. split; [|apply Q.le_min_r].
  apply Q.min_glb; [|discriminate].
  apply Qmult_le_0_compat; [|discriminate].
  apply Qle_shift_div_l.
  - change 0 with (inject_Z 0). rewrite <- Zlt_Qlt. lia.
  - rewrite Qmult_0_l. change 0 with (inject_Z 0). rewrite <- Zle_Qle. lia.
Qed.

Lemma scoreOfAll_bounds (m : Z) (c : Categories) :
  (0 < m)%Z -> (0 <= scoreOfAll m c <= 100)%Z.
Proof.
  intros Hm. unfold scoreOfAll.
  pose proof (scoreOf_bounds m (fruits c) Hm).
  pose proof (scoreOf_bounds m (vegetables c) Hm).
  pose proof (scoreOf_bounds m (proteins c) Hm).
  pose proof (scoreOf_bounds m (grains c) Hm).
  pose proof (scoreOf_bounds m (dairy c) Hm).
  revert H H0 H1 H2 H3.
  generalize (scoreOf m (fruits c)), (scoreOf m (vegetables c)),
    (scoreOf m (proteins c)), (scoreOf m (grains c)), (scoreOf m (dairy c)).
  intros a b c' d e Ha Hb Hc Hd He.
  apply Qround_half_up_bounds.
  - change (inject_Z 0) with 0.
    setoid_replace ((a + b + c' + d + e) / 5)
      with ((a + b + c' + d + e) * (1 # 5)) by field. lra.
  - change (inject_Z 100) with 100.
    setoid_replace ((a + b + c' + d + e) / 5)
      with ((a + b + c' + d + e) * (1 # 5)) by field. lra.
Qed.

Lemma nutritionScore_fold (m : Z) (c : Categories) :
  m <> 0%Z ->
  Math_round
    (fold_left
       (fun nutritionScore count =>
          add nutritionScore (div (categoryScore (ofZ m) count) (ofZ 5)))
       (categoryValues c) (ofZ 0))
  = ofZ (scoreOfAll m c).
Proof.
  intros Hm. unfold categoryValues. cbn [fold_left].
  rewrite !categoryScore_fin by assumption.
  change (ofZ 5) with (fin (inject_Z 5)).
  change (ofZ 0) with (fin (inject_Z 0)).
  rewrite !div_fin by (apply inject_Z_nonzero; lia).
  rewrite !add_fin, round_fin. f_equal. unfold scoreOfAll.
  apply Qround_half_up_comp.
  change (inject_Z 5) with 5. change (inject_Z 0) with 0. field.
Qed.

(** What the function returns when something was consumed, in terms of
    the counts per group. *)
Lemma calculateNutritionScore_consumed (history : list LogEntry.t) :
  consumedOf history <> [] ->
  calculateNutritionScore (Some history) =
  let consumed := consumedOf history in
  let m := maxPerCategory (List.length consumed) in
  {| nutritionScore := ofZ (scoreOfAll m (countsOf consumed));
     categories := countsOf consumed;
     totalConsumed := List.length consumed;
     suggestions := suggestionsFor m (countsOf consumed) |}.
Proof.
  intros Hc. destruct history as [|e history]; [now elim Hc|].
  unfold calculateNutritionScore. fold (consumedOf (e :: history)).
  cbv zeta. fold noCounts.
  set (consumed := consumedOf (e :: history)) in *.
  rewrite categorize_countsOf, maxPerCategory_js.
  assert (M : (1 <= maxPerCategory (List.length consumed))%Z).
  { apply maxPerCategory_pos. destruct consumed; [congruence | simpl; lia]. }
  rewrite nutritionScore_fold by lia.
  rewrite !below_fraction by lia.
  reflexivity.
Qed.

(** Without a consumed entry in a history that is not empty, the score
    is not a number. *)
Lemma nutrition_of_wasted_only (history : list LogEntry.t) :
  history <> [] -> consumedOf history = [] ->
  nutritionScore (calculateNutritionScore (Some history)) = NaN.
Proof.
  intros Hh Hc. destruct history as [|e history]; [now elim Hh|].
  unfold calculateNutritionScore. fold (consumedOf (e :: history)).
  rewrite Hc. reflexivity.
Qed.

(** With nothing logged, or with something consumed, the nutrition score
    is an integer between 0 and 100. *)
Lemma nutritionScore_in_range (history : option (list LogEntry.t)) :
  (forall h, history = Some h -> h <> [] -> consumedOf h <> []) ->
  exists z : Z,
    nutritionScore (calculateNutritionScore history) = ofZ z
    /\ (0 <= z <= 100)%Z.
Proof.
  destruct history as [[|e h]|]; intros Hc;
    try (exists 50%Z; split; [reflexivity | lia]).
  assert (C : consumedOf (e :: h) <> [])
    by (apply Hc; [reflexivity | discriminate]).
  rewrite (calculateNutritionScore_consumed (e :: h) C). cbv zeta.
  eexists. split; [reflexivity|].
  apply scoreOfAll_bounds.
  enough (1 <= maxPerCategory (List.length (consumedOf (e :: h))))%Z by lia.
  apply maxPerCategory_pos.
  destruct (consumedOf (e :: h)); [congruence | simpl; lia].
Qed.

(** C1.  The score is not always within 0 and 100: for a history with one
    wasted entry and nothing consumed, [maxPerCategory] is 0, every
    category score is 0 / 0, and [nutritionScore] is NaN, which is no
    number between 0 and 100; the other two scores of that history are
    0 and 18. *)
Theorem nutritionScore_can_be_NaN :
  let sdgMetrics := calculateSDGScore (Some Samples.onlyWaste) in
  let nutritionMetrics := calculateNutritionScore (Some Samples.onlyWaste) in
  nutritionScore nutritionMetrics = NaN
  /\ (forall q : Q, nutritionScore nutritionMetrics <> Fin q)
  /\ le (ofZ 0) (nutritionScore nutritionMetrics) = false
  /\ le (nutritionScore nutritionMetrics) (ofZ 100) = false
  /\ sdgScore sdgMetrics = 0%Z
  /\ estimatedNewScore
       (generateActionableRecommendations (rt := Reference.runtime)
          sdgMetrics nutritionMetrics) = ofZ 18.
Proof.
  cbv zeta. repeat split; try reflexivity.
  intros q. rewrite nutrition_of_wasted_only;
    [discriminate | discriminate | reflexivity].
Qed.

End NutritionProofs.

(** ** Weekly insights *)

Module InsightProofs.
Import JS JSFacts Analytics InsightSpec.
Local Open Scope Z_scope.

Lemma ceil_half (n : nat) :
  Qceiling (inject_Z (Z.of_nat n) / 2) = Z.of_nat ((n + 1) / 2).
Proof.
  unfold Qceiling.
  assert (E : (- (inject_Z (Z.of_nat n) / 2) ==
               inject_Z (- Z.of_nat n) / inject_Z 2)%Q).
  { rewrite inject_Z_opp. change (inject_Z 2) with 2%Q. field. }
  rewrite (Qfloor_comp _ _ E), <- Zdiv_Qdiv.
  rewrite Nat2Z.inj_div, Nat2Z.inj_add. change (Z.of_nat 1) with 1.
  change (Z.of_nat 2) with 2.
  generalize (Z.of_nat n). intros z. Z.div_mod_to_equations. lia.
Qed.

Lemma baseline_wasted (entries : list LogEntry.t) :
  wastedCount (calculateSDGScore (Some entries))
  = countStatus "wasted" entries.
Proof. destruct entries; reflexivity. Qed.

Section Insights.
Context {rt : Runtime}.


End Insights.
End InsightProofs.

(** ** Recipe matching *)

Module MatchProofs.
Import JS JSFacts MealPlanning MatchSpec.

(** *** Substrings *)

Lemma prefix_app (k s : string) :
  prefix k s = true <-> exists b, s = (k ++ b)%string.
Proof.
  revert s. induction k as [|c k IH]; intros s.
  - split; [intros _; now exists s | intros _; now destruct s].
  - destruct s as [|d s]; simpl.
    + split; [discriminate | intros [b E]; discriminate].
    + destruct (ascii_dec c d) as [->|N].
      * rewrite IH. split; intros [b E]; exists b; [now rewrite E|].
        now injection E.
      * split; [discriminate|]. intros [b E]. simpl in E.
        injection E as E1 E2. congruence.
Qed.

Lemma includes_unfold (s k : string) :
  includes s k =
  if prefix k s then true
  else match s with
       | EmptyString => false
       | String _ s' => includes s' k
       end.
Proof. destruct s; reflexivity. Qed.

Lemma includes_occursIn (s k : string) :
  includes s k = true <-> occursIn k s.
Proof.
  split.
  - induction s as [|c s IH]; rewrite includes_unfold;
      destruct (prefix k _) eqn:P; intros H; try discriminate.
    + apply prefix_app in P. destruct P as [b E]. now exists EmptyString, b.
    + apply prefix_app in P. destruct P as [b E]. now exists EmptyString, b.
    + destruct (IH H) as (a & b & E). exists (String c a), b.
      simpl. now rewrite E.
  - intros (a & b & E). subst s. induction a as [|c a IH].
    + rewrite includes_unfold.
      assert (P : prefix k (EmptyString ++ k ++ b) = true)
        by (apply prefix_app; now exists b).
      now rewrite P.
    + rewrite includes_unfold.
      destruct (prefix k (String c a ++ k ++ b)); [reflexivity | exact IH].
Qed.

(** *** The match of one recipe *)

Lemma lowerNames (inventory : list InventoryItem.t) (names : list string) :
  map InventoryItem.name inventory = map Some names ->
  mapM lowerName inventory = Ok (map toLowerCase names).
Proof.
  revert names. induction inventory as [|item inventory IH];
    intros [|n names] E; try discriminate; [reflexivity|].
  simpl in E. injection E as En E. simpl. unfold lowerName at 1.
  rewrite En. simpl. now rewrite (IH names E).
Qed.

Lemma inInventory_held (names : list string) (ing : string) :
  inInventory (map toLowerCase names) ing = true <-> held names ing.
Proof.
  unfold inInventory, held. rewrite existsb_exists. split.
  - intros (inv & Hin & Hinc). apply in_map_iff in Hin.
    destruct Hin as (n & <- & Hn). exists n. split; [exact Hn|].
    now apply includes_occursIn.
  - intros (n & Hn & Hocc). exists (toLowerCase n). split.
    + now apply in_map.
    + now apply includes_occursIn.
Qed.

Lemma filter_partition {A : Type} (f : A -> bool) (xs : list A) :
  Permutation (filter f xs ++ filter (fun x => negb (f x)) xs) xs.
Proof.
  induction xs as [|x xs IH]; simpl; [constructor|].
  destruct (f x); simpl.
  - now constructor.
  - rewrite <- Permutation_middle. now constructor.
Qed.

Section Match.
Context {rt : Runtime}.

Lemma scoreRecipeMatch_named (recipe : Recipe.t)
    (inventory : list InventoryItem.t) (names : list string) :
  map InventoryItem.name inventory = map Some names ->
  scoreRecipeMatch recipe inventory =
  let has := inInventory (map toLowerCase names) in
  let matched := filter has (Recipe.ingredients recipe) in
  Ok {| recipe := Recipe.name recipe;
        matchScore :=
          Math_round
            (mul (div (ofNat (List.length matched))
                      (ofNat (List.length (Recipe.ingredients recipe))))
                 (ofZ 100));
        matchedIngredients := matched;
        missingIngredients :=
          filter (fun ing => negb (has ing)) (Recipe.ingredients recipe);
        spread := recipe |}.
Proof.
  intros E. unfold scoreRecipeMatch. now rewrite (lowerNames _ _ E).
Qed.

Lemma matchScore_integer (m t : nat) :
  (0 < t)%nat ->
  Math_round (mul (div (ofNat m) (ofNat t)) (ofZ 100)) =
  ofZ ((200 * Z.of_nat m + Z.of_nat t) / (2 * Z.of_nat t)).
Proof.
  intros Ht. unfold ofNat. unfold ofZ at 1 2 3.
  rewrite div_fin by (apply inject_Z_nonzero; lia).
  rewrite mul_fin, round_fin. f_equal.
  apply SDGScoreProofs.round_percentage. lia.
Qed.

End Match.

End MatchProofs.

(** ** Meal plans *)

Module MealPlanProofs.
Import JS JSFacts MealPlanning MatchSpec MatchProofs.

(** *** Sorting keeps the elements *)

Lemma In_insert_by {A : Type} (cmp : A -> A -> jsnum) (x y : A)
    (xs : list A) :
  In x (insert_by cmp y xs) <-> x = y \/ In x xs.
Proof.
  induction xs as [|z xs IH]; cbn [insert_by].
  - split; [intros [->|[]]; now left | intros [->|[]]; now left].
  - destruct (gt (cmp y z) (ofZ 0)); cbn [In].
    + rewrite IH. tauto.
    + split; [intros [->|H]; auto | intros [->|H]; auto].
Qed.

Lemma In_sort_by {A : Type} (cmp : A -> A -> jsnum) (x : A) (xs : list A) :
  In x (sort_by cmp xs) <-> In x xs.
Proof.
  unfold sort_by. induction xs as [|y xs IH]; cbn [fold_right In]; [tauto|].
  rewrite In_insert_by, IH.
  split; [intros [->|H]; auto | intros [->|H]; auto].
Qed.

Lemma slice0_length {A : Type} (k : Z) (xs : list A) :
  (List.length (slice0 k xs) <= List.length xs)%nat.
Proof. unfold slice0. rewrite length_firstn. apply Nat.le_min_r. Qed.

(** *** Loops that can throw *)

Lemma foldM_ok {A S : Type} (f : S -> A -> result S) (xs : list A) (s : S) :
  (forall s a, In a xs -> exists s', f s a = Ok s') ->
  exists s', foldM f xs s = Ok s'.
Proof.
  revert s. induction xs as [|x xs IH]; intros s H; simpl.
  - now exists s.
  - destruct (H s x (or_introl eq_refl)) as [s1 E]. rewrite E. simpl.
    apply IH. intros s2 a Hin. apply H. now right.
Qed.

Lemma foldM_Ok_each {A S : Type} (f : S -> A -> result S) (xs : list A)
    (s s' : S) :
  foldM f xs s = Ok s' ->
  forall a, In a xs -> exists s1 s2, f s1 a = Ok s2.
Proof.
  revert s. induction xs as [|x xs IH]; intros s H a Hin; [destruct Hin|].
  simpl in H. destruct (f s x) as [s1|e] eqn:E; [|discriminate].
  destruct Hin as [<-|Hin]; [now exists s, s1|].
  now apply (IH s1).
Qed.

Lemma onlyTypeError_bind {A B : Type} (m : result A) (k : A -> result B) :
  onlyTypeError m -> (forall a, onlyTypeError (k a)) ->
  onlyTypeError (bind m k).
Proof. destruct m as [a|e]; simpl; auto. Qed.

Lemma onlyTypeError_mapM {A B : Type} (f : A -> result B) (xs : list A) :
  (forall a, onlyTypeError (f a)) -> onlyTypeError (mapM f xs).
Proof.
  intros H. induction xs as [|x xs IH]; simpl; [exact I|].
  apply onlyTypeError_bind; [apply H|]. intros y.
  apply onlyTypeError_bind; [exact IH|]. intros ys. exact I.
Qed.

Lemma onlyTypeError_foldM {A S : Type} (f : S -> A -> result S)
    (xs : list A) (s : S) :
  (forall s a, onlyTypeError (f s a)) -> onlyTypeError (foldM f xs s).
Proof.
  intros H. revert s. induction xs as [|x xs IH]; intros s; simpl;
    [exact I|].
  apply onlyTypeError_bind; [apply H | intros s'; apply IH].
Qed.

Lemma onlyTypeError_Throw {A : Type} (m : result A) (e : js_error) :
  onlyTypeError m -> m = Throw e -> e = TypeError.
Proof. intros H ->. destruct e; [reflexivity | destruct H]. Qed.

(** *** The days of the week *)

Lemma weekdays_upto (n : nat) :
  (n <= 7)%nat ->
  map (nth_error weekdays) (seq 0 n) = map Some (firstn n weekdays).
Proof.
  intros Hn. do 8 (destruct n as [|n]; [reflexivity|]). lia.
Qed.

Section Plan.
Context {rt : Runtime}.

Lemma wellNamed_names (inventory : list InventoryItem.t) :
  wellNamed inventory = true ->
  exists names, map InventoryItem.name inventory = map Some names.
Proof.
  induction inventory as [|item inventory IH]; simpl; intros H.
  - now exists [].
  - apply andb_true_iff in H. destruct H as [Hi H].
    destruct (IH H) as [names E].
    destruct (InventoryItem.name item) as [n|]; [|discriminate].
    exists (n :: names). simpl. now rewrite E.
Qed.

Lemma scoreRecipeMatch_ok (recipe : Recipe.t)
    (inventory : list InventoryItem.t) :
  wellNamed inventory = true ->
  exists r, scoreRecipeMatch recipe inventory = Ok r.
Proof.
  intros H. destruct (wellNamed_names inventory H) as [names E].
  rewrite (scoreRecipeMatch_named recipe inventory names E). eauto.
Qed.

Lemma considerRecipe_ok (inventory : list InventoryItem.t)
    (item : InventoryItem.t) (focus : string) (meals : list Meal)
    (recipe : Recipe.t) :
  wellNamed inventory = true ->
  exists meals', considerRecipe inventory item focus meals recipe = Ok meals'.
Proof.
  intros H. unfold considerRecipe.
  destruct (scoreRecipeMatch_ok recipe inventory H) as [r E]. rewrite E.
  cbn [bind]. destruct (ge (matchScore r) (ofZ 50)); eexists; reflexivity.
Qed.

Lemma considerItem_ok (inventory : list InventoryItem.t) (meals : list Meal)
    (item : InventoryItem.t) :
  wellNamed inventory = true -> In item inventory ->
  exists meals', considerItem inventory meals item = Ok meals'.
Proof.
  intros H Hin. unfold considerItem.
  assert (Hitem := H). unfold wellNamed in Hitem.
  rewrite forallb_forall in Hitem. specialize (Hitem item Hin).
  destruct (InventoryItem.name item) as [n|]; [|discriminate].
  apply negb_true_iff in Hitem. unfold recipesFor. rewrite Hitem.
  destruct (ownProperty (toLowerCase n) recipeDatabase); cbn [bind];
    apply foldM_ok; intros s a _; now apply considerRecipe_ok.
Qed.

Lemma considerItem_nameless (inventory : list InventoryItem.t)
    (meals : list Meal) (item : InventoryItem.t) :
  InventoryItem.name item = None ->
  considerItem inventory meals item = Throw TypeError.
Proof. intros E. unfold considerItem. now rewrite E. Qed.

Lemma scoreRecipeMatch_onlyTypeError (recipe : Recipe.t)
    (inventory : list InventoryItem.t) :
  onlyTypeError (scoreRecipeMatch recipe inventory).
Proof.
  unfold scoreRecipeMatch. apply onlyTypeError_bind; [|intros; exact I].
  apply onlyTypeError_mapM. intros item. unfold lowerName.
  now destruct (InventoryItem.name item).
Qed.

Lemma considerItem_onlyTypeError (inventory : list InventoryItem.t)
    (meals : list Meal) (item : InventoryItem.t) :
  onlyTypeError (considerItem inventory meals item).
Proof.
  unfold considerItem. destruct (InventoryItem.name item) as [n|];
    [|exact I].
  apply onlyTypeError_bind.
  - unfold recipesFor.
    destruct (ownProperty (toLowerCase n) recipeDatabase); [exact I|].
    now destruct (array_includes inheritedKeys (toLowerCase n)).
  - intros recipes. apply onlyTypeError_foldM. intros s recipe.
    unfold considerRecipe. apply onlyTypeError_bind.
    + apply scoreRecipeMatch_onlyTypeError.
    + intros r. now destruct (ge (matchScore r) (ofZ 50)).
Qed.

Lemma generateMealPlan_ok (inventory : list InventoryItem.t)
    (preferences : list string) :
  wellNamed inventory = true ->
  exists p, generateMealPlan inventory preferences = Ok p.
Proof.
  intros H. unfold generateMealPlan.
  destruct (foldM_ok (considerItem inventory) (sort_by byExpiry inventory) [])
    as [meals E].
  - intros s a Hin. apply considerItem_ok; [exact H|].
    now apply In_sort_by in Hin.
  - rewrite E. simpl. eauto.
Qed.

Lemma generateMealPlan_onlyTypeError (inventory : list InventoryItem.t)
    (preferences : list string) :
  onlyTypeError (generateMealPlan inventory preferences).
Proof.
  unfold generateMealPlan. apply onlyTypeError_bind; [|intros; exact I].
  apply onlyTypeError_foldM. intros s a. apply considerItem_onlyTypeError.
Qed.

(** An item without a name makes the planner throw a [TypeError]. *)
Lemma generateMealPlan_nameless (inventory : list InventoryItem.t)
    (preferences : list string) (item : InventoryItem.t) :
  In item inventory -> InventoryItem.name item = None ->
  generateMealPlan inventory preferences = Throw TypeError.
Proof.
  intros Hin Hname.
  destruct (generateMealPlan inventory preferences) as [p|e] eqn:E.
  - exfalso. unfold generateMealPlan in E.
    destruct (foldM (considerItem inventory) (sort_by byExpiry inventory) [])
      as [meals|e] eqn:F; [|discriminate].
    destruct (foldM_Ok_each _ _ _ _ F item) as (s1 & s2 & C).
    + now apply In_sort_by.
    + rewrite (considerItem_nameless inventory s1 item Hname) in C.
      discriminate.
  - f_equal. apply (onlyTypeError_Throw (generateMealPlan inventory preferences));
      [apply generateMealPlan_onlyTypeError | exact E].
Qed.

Lemma generateMealPlan_top5 (inventory : list InventoryItem.t)
    (preferences : list string) (p : MealPlan) :
  generateMealPlan inventory preferences = Ok p ->
  (List.length (mealPlan p) <= 5)%nat.
Proof.
  unfold generateMealPlan.
  destruct (foldM (considerItem inventory) (sort_by byExpiry inventory) [])
    as [meals|e]; [|discriminate].
  simpl. intros E. injection E as <-. cbn [mealPlan].
  rewrite slice0_nonneg by lia. apply firstn_le_length.
Qed.

Lemma days_of_plan (f : Meal -> nat -> DayPlan) (meals : list Meal)
    (index : nat) :
  (forall meal i, day (f meal i) = nth_error weekdays i) ->
  map day (mapi_from index f meals)
  = map (nth_error weekdays) (seq index (List.length meals)).
Proof.
  intros Hf. revert index.
  induction meals as [|meal meals IH]; intros index; simpl; [reflexivity|].
  now rewrite Hf, IH.
Qed.

(** C10.  [generateWeeklyMealPlan] returns a plan for every inventory
    whose items are named, and whatever [mealCount] is (7 when it is left
    out) the plan has at most five meals, on the first days of the week
    from Monday on, because [generateMealPlan] keeps five recommendations
    at most: the week is never covered. *)
Theorem generateWeeklyMealPlan_at_most_five
    (inventory : list InventoryItem.t) (mealCount : option Z) :
  (wellNamed inventory = true ->
   exists r, generateWeeklyMealPlan inventory mealCount = Ok r)
  /\ (forall r,
         generateWeeklyMealPlan inventory mealCount = Ok r ->
         (totalMeals r <= 5)%nat
         /\ (totalMeals r < List.length weekdays)%nat
         /\ List.length (weeklyPlan r) = totalMeals r
         /\ map day (weeklyPlan r)
            = map Some (firstn (totalMeals r) weekdays))
  /\ (forall preferences p,
         generateMealPlan inventory preferences = Ok p ->
         (List.length (mealPlan p) <= 5)%nat).
Proof.
  split; [|split].
  - intros H. unfold generateWeeklyMealPlan.
    destruct (generateMealPlan_ok inventory [] H) as [p E]. rewrite E.
    cbn [bind]. eexists. reflexivity.
  - intros r. unfold generateWeeklyMealPlan.
    destruct (generateMealPlan inventory []) as [p|e] eqn:E; [|discriminate].
    cbn [bind]. intros R. injection R as <-.
    cbn [totalMeals weeklyPlan].
    pose proof (generateMealPlan_top5 inventory [] p E) as T.
    set (selected :=
           slice0 (match mealCount with Some n => n | None => 7%Z end)
                  (mealPlan p)) in *.
    assert (L : (List.length selected <= 5)%nat).
    { pose proof (slice0_length
                    (match mealCount with Some n => n | None => 7%Z end)
                    (mealPlan p)). fold selected in H. lia. }
    split; [exact L|]. split; [simpl; lia|].
    assert (D : map day
                  (mapi_from 0
                     (fun (meal : Meal) (index : nat) =>
                        {| day := nth_error weekdays index;
                           meal := recipe (scored meal);
                           day_time := Recipe.time (spread (scored meal));
                           day_difficulty :=
                             Recipe.difficulty (spread (scored meal));
                           day_focusItem := focusItem meal |})
                     selected)
                = map (nth_error weekdays) (seq 0 (List.length selected)))
      by (apply days_of_plan; reflexivity).
    split.
    + rewrite <- (length_map day), D, length_map. apply length_seq.
    + rewrite D. apply weekdays_upto. lia.
  - intros preferences p. apply generateMealPlan_top5.
Qed.

End Plan.

Lemma generateWeeklyMealPlan_at_most_five_witness :
  wellNamed Samples.pantry = true
  /\ exists r,
       generateWeeklyMealPlan (rt := Reference.runtime) Samples.pantry None
       = Ok r
       /\ (totalMeals r <= 5)%nat
       /\ map day (weeklyPlan r) = map Some (firstn (totalMeals r) weekdays).
Proof.
  assert (H : wellNamed Samples.pantry = true) by reflexivity.
  split; [exact H|].
  destruct (generateWeeklyMealPlan_at_most_five (rt := Reference.runtime)
              Samples.pantry None) as (Hex & Hall & _).
  destruct (Hex H) as [r Hr]. exists r. split; [exact Hr|].
  destruct (Hall r Hr) as (H5 & _ & _ & Hd). split; assumption.
Defined.

(** For the sample pantry six recipes reach a match of 50; the plan of
    the week keeps five of them, Monday to Friday. *)
Example pantry_week :
  match generateMealPlan (rt := Reference.runtime) Samples.pantry [],
        generateWeeklyMealPlan (rt := Reference.runtime) Samples.pantry None
  with
  | Ok p, Ok r =>
      totalRecommendations p = 6%nat
      /\ totalMeals r = 5%nat
      /\ map day (weeklyPlan r) =
         [Some "Monday"; Some "Tuesday"; Some "Wednesday"; Some "Thursday";
          Some "Friday"]
      /\ map meal (weeklyPlan r) =
         ["Yogurt Parfait"; "Yogurt Smoothie"; "Tzatziki Sauce";
          "Carrot Stir Fry"; "Raw Carrot Salad"]
  | _, _ => False
  end.
Proof. vm_compute. repeat split. Qed.

End MealPlanProofs.

(** ** Malformed input *)

Module InputProofs.
Import JS JSFacts Analytics MealPlanning WasteSpec WasteProofs MatchSpec
  MealPlanProofs.

(** The claim C9 as it is stated fails: a wasted entry without a price is
    not rejected.  The call returns, no [InvalidInputError] is thrown,
    and the missing price has turned the total into NaN. *)
Lemma missing_price_is_not_rejected :
  calculateWasteMetrics (rt := Reference.runtime) Samples.unpriced [] None
  = Ok {| totalWastedMoney := NaN; riskValue := ofZ 0;
          riskItems := []; riskItemNames := [] |}
  /\ ~ (exists field,
           calculateWasteMetrics (rt := Reference.runtime)
             Samples.unpriced [] None
           = Throw (InvalidInputError field)).
Proof.
  split; [reflexivity|]. intros [field E]. discriminate E.
Qed.

Section Input.
Context {rt : Runtime}.

Lemma calculateWasteMetrics_onlyTypeError (history : list LogEntry.t)
    (inventory : list InventoryItem.t) (todayString : option string) :
  onlyTypeError (calculateWasteMetrics history inventory todayString).
Proof.
  unfold calculateWasteMetrics.
  apply onlyTypeError_bind.
  - destruct (fold_left _ _ _); exact I.
  - intros total. apply onlyTypeError_bind; [exact I | intros; exact I].
Qed.

Lemma calculateWasteMetrics_string_price (history : list LogEntry.t)
    (inventory : list InventoryItem.t) (todayString : option string)
    (e : LogEntry.t) (s : string) :
  In e history -> has_status "wasted" e = true ->
  LogEntry.price e = VStr s ->
  calculateWasteMetrics history inventory todayString = Throw TypeError.
Proof.
  intros Hin Hw Hs. unfold calculateWasteMetrics.
  destruct (sum_prices_string (filter (has_status "wasted") history)
              (VNum (ofZ 0)) e s) as [s' E]; [|exact Hs|].
  - apply filter_In. now split.
  - rewrite E. reflexivity.
Qed.

Lemma calculateWasteMetrics_skips (history : list LogEntry.t)
    (before after : list InventoryItem.t) (item : InventoryItem.t)
    (todayString : option string) :
  new_Date (InventoryItem.expiry item) = NaN ->
  calculateWasteMetrics history (before ++ item :: after) todayString
  = calculateWasteMetrics history (before ++ after) todayString.
Proof.
  intros H. unfold calculateWasteMetrics.
  rewrite risk_loop_skips; [reflexivity|].
  now apply invalid_expiry_not_at_risk.
Qed.

(** C9, amended.  Nothing validates the input and no [InvalidInputError]
    is ever thrown.  In [calculateWasteMetrics] a wasted entry whose
    price is a string makes the call fail with a [TypeError]; when no
    such price is a string, a wasted entry without a price makes
    [totalWastedMoney] NaN; an item whose expiry is no date is passed
    over as if it were not in the inventory.  In [generateMealPlan] an
    item without a name makes the call fail with a [TypeError]. *)
Theorem malformed_input_is_not_validated (history : list LogEntry.t)
    (inventory : list InventoryItem.t) (todayString : option string)
    (preferences : list string) :
  (forall field,
      calculateWasteMetrics history inventory todayString
      <> Throw (InvalidInputError field))
  /\ (forall field,
         generateMealPlan inventory preferences
         <> Throw (InvalidInputError field))
  /\ (forall e s,
         In e history -> has_status "wasted" e = true ->
         LogEntry.price e = VStr s ->
         calculateWasteMetrics history inventory todayString
         = Throw TypeError)
  /\ (forall e,
         pricesAddUp history ->
         In e history -> has_status "wasted" e = true ->
         LogEntry.price e = VUndef ->
         exists r,
           calculateWasteMetrics history inventory todayString = Ok r
           /\ totalWastedMoney r = NaN)
  /\ (forall before item after,
         inventory = before ++ item :: after ->
         new_Date (InventoryItem.expiry item) = NaN ->
         calculateWasteMetrics history inventory todayString
         = calculateWasteMetrics history (before ++ after) todayString)
  /\ (forall item,
         In item inventory -> InventoryItem.name item = None ->
         generateMealPlan inventory preferences = Throw TypeError).
Proof.
  split; [|split; [|split; [|split; [|split]]]].
  - intros field E.
    pose proof (calculateWasteMetrics_onlyTypeError history inventory
                  todayString) as O.
    rewrite E in O. exact O.
  - intros field E.
    pose proof (generateMealPlan_onlyTypeError inventory preferences) as O.
    rewrite E in O. exact O.
  - intros e s. apply calculateWasteMetrics_string_price.
  - intros e Hp Hin Hw Hu.
    rewrite (calculateWasteMetrics_numbers history inventory todayString Hp).
    cbv zeta. eexists. split; [reflexivity|].
    cbn [totalWastedMoney]. unfold sumNumbers.
    rewrite sum_with_NaN; [reflexivity|].
    unfold wastedPrices. apply in_map_iff. exists e. split.
    + now rewrite Hu.
    + apply filter_In. now split.
  - intros before item after -> Hd. now apply calculateWasteMetrics_skips.
  - intros item. apply generateMealPlan_nameless.
Qed.

End Input.

Lemma malformed_input_is_not_validated_witness :
  calculateWasteMetrics (rt := Reference.runtime) Samples.textPriced [] None
  = Throw TypeError
  /\ (exists r,
         calculateWasteMetrics (rt := Reference.runtime)
           Samples.unpriced [] None = Ok r
         /\ totalWastedMoney r = NaN)
  /\ calculateWasteMetrics (rt := Reference.runtime) Samples.oneWasted
       ([] ++ Samples.expiringOn "Yogurt" "tomorrow" :: []) Samples.today
     = calculateWasteMetrics (rt := Reference.runtime) Samples.oneWasted
         ([] ++ []) Samples.today
  /\ generateMealPlan (rt := Reference.runtime) [Samples.nameless] []
     = Throw TypeError.
Proof.
  split; [|split; [|split]].
  - destruct (malformed_input_is_not_validated (rt := Reference.runtime)
                Samples.textPriced [] None [])
      as (_ & _ & P & _).
    apply (P (LogEntry.make (Some "Milk") None (VStr "cheap") "wasted")
             "cheap"); [now left | reflexivity | reflexivity].
  - destruct (malformed_input_is_not_validated (rt := Reference.runtime)
                Samples.unpriced [] None [])
      as (_ & _ & _ & P & _).
    apply (P (LogEntry.make (Some "Milk") None VUndef "wasted"));
      [|now left | reflexivity | reflexivity].
    intros e s [<-|[]] _. discriminate.
  - destruct (malformed_input_is_not_validated (rt := Reference.runtime)
                Samples.oneWasted
                ([] ++ Samples.expiringOn "Yogurt" "tomorrow" :: [])
                Samples.today [])
      as (_ & _ & _ & _ & P & _).
    apply (P [] (Samples.expiringOn "Yogurt" "tomorrow") []); reflexivity.
  - destruct (malformed_input_is_not_validated (rt := Reference.runtime)
                [] [Samples.nameless] None [])
      as (_ & _ & _ & _ & _ & P).
    apply (P Samples.nameless); [now left | reflexivity].
Defined.

End InputProofs.

(** ** The scores of one history *)

Module ScoreProofs.
Import JS JSFacts Analytics NutritionSpec.
Local Open Scope Z_scope.

Section Scores.
Context {rt : Runtime}.

(** Whatever the nutrition metrics are, the estimated new score of a
    history is an integer between 0 and 100. *)
Lemma estimatedNewScore_in_range (history : option (list LogEntry.t))
    (nutritionMetrics : NutritionMetrics) :
  exists z,
    estimatedNewScore
      (generateActionableRecommendations (calculateSDGScore history)
         nutritionMetrics) = ofZ z
    /\ 0 <= z <= 100.
Proof.
  destruct (RecommendationProofs.improvement_integer
              (calculateSDGScore history) nutritionMetrics)
    as (k & Hk & _ & He).
  cbv zeta in He. rewrite He. eexists. split; [reflexivity|].
  pose proof (SDGScoreProofs.sdgScore_in_range history). lia.
Qed.

(** The three scores of the complete profile lie between 0 and 100 as
    soon as the history has a consumed entry. *)
Lemma profile_scores_in_range (history : list LogEntry.t)
    (inventory : list InventoryItem.t) (todayString : option string)
    (profile : SDGProfile) :
  consumedOf history <> [] ->
  generateCompleteSDGProfile history inventory todayString = Ok profile ->
  0 <= personalSDGScore profile <= 100
  /\ (exists z, nutritionScore (nutrition profile) = ofZ z /\ 0 <= z <= 100)
  /\ (exists z,
         estimatedNewScore (profile_recommendations profile) = ofZ z
         /\ 0 <= z <= 100).
Proof.
  intros Hc. unfold generateCompleteSDGProfile.
  destruct (calculateWasteMetrics history inventory todayString);
    [|discriminate].
  cbn [bind]. intros E.
  assert (P : personalSDGScore profile
              = sdgScore (calculateSDGScore (Some history))
              /\ nutrition profile = calculateNutritionScore (Some history)
              /\ profile_recommendations profile
                 = generateActionableRecommendations
                     (calculateSDGScore (Some history))
                     (calculateNutritionScore (Some history))).
  { apply Ok_inj in E. rewrite <- E. repeat split. }
  destruct P as (-> & -> & ->).
  split; [apply SDGScoreProofs.sdgScore_in_range|]. split.
  - apply NutritionProofs.nutritionScore_in_range.
    intros h Eh _. injection Eh as <-. exact Hc.
  - apply estimatedNewScore_in_range.
Qed.

End Scores.
End ScoreProofs.

(** ** Looking recipes up *)

Module LookupProofs.
Import JS JSFacts MealPlanning RecipeQueries PlanSpec MatchSpec MatchProofs.

Lemma firstNamed_find (mealName : string) (categories : list (list Recipe.t)) :
  firstNamed mealName categories
  = find (named mealName) (List.concat categories).
Proof.
  induction categories as [|rs rest IH]; [reflexivity|].
  cbn [firstNamed List.concat]. rewrite IH.
  induction rs as [|r rs IHrs]; [reflexivity|].
  cbn [find app]. destruct (named mealName r); [reflexivity | exact IHrs].
Qed.

(** In a list whose keys are all different, [find] by key gives the
    element that has the key. *)
Lemma find_by_key {A : Type} (key : A -> string) (xs : list A) (x : A) :
  NoDup (map key xs) -> In x xs ->
  find (fun y => String.eqb (key y) (key x)) xs = Some x.
Proof.
  induction xs as [|y xs IH]; intros N Hin; [destruct Hin|].
  cbn [find]. cbn [map] in N. inversion N as [|k ks Hk N']; subst.
  destruct Hin as [->|Hin].
  - now rewrite String.eqb_refl.
  - destruct (String.eqb_spec (key y) (key x)) as [E|E].
    + exfalso. apply Hk. rewrite E. now apply in_map.
    + now apply IH.
Qed.

Lemma recipe_names_differ :
  NoDup (map (fun r => toLowerCase (Recipe.name r)) allRecipes).
Proof.
  cbv [allRecipes recipeDatabase List.concat map snd app Recipe.name].
  repeat (constructor; [cbn; intuition discriminate|]). constructor.
Qed.



(** X2.  Every recipe of the database is found under its own name,
    however the letters of the name are cased: the names are all
    different. *)
Theorem getRecipeDetails_round_trip (recipe : Recipe.t) (mealName : string)
    (Hin : In recipe allRecipes)
    (Hname : toLowerCase mealName = toLowerCase (Recipe.name recipe)) :
  getRecipeDetails mealName
  = {| success := true; details_recipe := Some recipe; message := None |}.
Proof.
  unfold getRecipeDetails. rewrite firstNamed_find.
  change (List.concat categoryLists) with allRecipes.
  unfold named. rewrite Hname.
  rewrite (find_by_key (fun r => toLowerCase (Recipe.name r)) allRecipes
             recipe recipe_names_differ Hin).
  reflexivity.
Qed.

Lemma getRecipeDetails_round_trip_witness :
  let recipe :=
    Recipe.make "Apple Crisp" ["apples"; "oats"; "butter"; "cinnamon"]
      "30 min" "Medium" "Bake sliced apples with oat topping" in
  In recipe allRecipes
  /\ toLowerCase "apple CRISP" = toLowerCase (Recipe.name recipe)
  /\ details_recipe (getRecipeDetails "apple CRISP") = Some recipe.
Proof.
  cbv zeta.
  assert (Hin : In (Recipe.make "Apple Crisp"
                      ["apples"; "oats"; "butter"; "cinnamon"]
                      "30 min" "Medium" "Bake sliced apples with oat topping")
                   allRecipes).
  { cbv [allRecipes recipeDatabase List.concat map snd app].
    do 8 right. left. reflexivity. }
  split; [exact Hin|]. split; [reflexivity|].
  now rewrite (getRecipeDetails_round_trip _ "apple CRISP" Hin eq_refl).
Defined.

(** *** By ingredient *)

Lemma push_matching {A : Type} (f : A -> bool) (xs acc : list A) :
  fold_left (fun acc x => if f x then acc ++ [x] else acc) xs acc
  = acc ++ filter f xs.
Proof.
  revert acc. induction xs as [|x xs IH]; intros acc; cbn [fold_left filter].
  - now rewrite app_nil_r.
  - rewrite IH. destruct (f x); [|reflexivity].
    now rewrite <- app_assoc.
Qed.

Lemma push_matching_nested {A : Type} (f : A -> bool) (xss : list (list A))
    (acc : list A) :
  fold_left
    (fun acc xs => fold_left (fun acc x => if f x then acc ++ [x] else acc)
                             xs acc)
    xss acc
  = acc ++ filter f (List.concat xss).
Proof.
  revert acc. induction xss as [|xs xss IH]; intros acc;
    cbn [fold_left List.concat].
  - now rewrite app_nil_r.
  - rewrite IH, push_matching, filter_app, app_assoc. reflexivity.
Qed.

Lemma usesIngredient_occurs (query : string) (recipe : Recipe.t) :
  usesIngredient query recipe = true <->
  exists ing,
    In ing (Recipe.ingredients recipe)
    /\ occursIn (toLowerCase query) (toLowerCase ing).
Proof.
  unfold usesIngredient. rewrite existsb_exists.
  split; intros (ing & Hin & H); exists ing; (split; [exact Hin|]);
    now apply includes_occursIn.
Qed.

Lemma includes_empty (s : string) : includes s "" = true.
Proof. rewrite includes_unfold. now destruct s. Qed.



End LookupProofs.

(** ** What a meal plan is made of *)

Module PlanProofs.
Import JS JSFacts MealPlanning RecipeQueries PlanSpec MatchSpec MatchProofs
  MealPlanProofs.

Lemma foldM_invariant {A S : Type} (f : S -> A -> result S) (I : S -> Prop)
    (xs : list A) (s s' : S) :
  (forall s a s', In a xs -> I s -> f s a = Ok s' -> I s') ->
  I s -> foldM f xs s = Ok s' -> I s'.
Proof.
  revert s. induction xs as [|x xs IH]; intros s Hf Hs H.
  - simpl in H. injection H as <-. exact Hs.
  - simpl in H. destruct (f s x) as [s1|e] eqn:E; [|discriminate].
    cbn [bind] in H. apply (IH s1); [|now apply (Hf s x s1); [left|..]|exact H].
    intros s2 a s3 Hin. apply Hf. now right.
Qed.

Lemma length_insert_by {A : Type} (cmp : A -> A -> jsnum) (x : A)
    (xs : list A) :
  List.length (insert_by cmp x xs) = S (List.length xs).
Proof.
  induction xs as [|y xs IH]; cbn [insert_by]; [reflexivity|].
  destruct (gt (cmp x y) (ofZ 0)); cbn [List.length]; now rewrite ?IH.
Qed.

Lemma length_sort_by {A : Type} (cmp : A -> A -> jsnum) (xs : list A) :
  List.length (sort_by cmp xs) = List.length xs.
Proof.
  unfold sort_by. induction xs as [|x xs IH]; cbn [fold_right];
    [reflexivity|].
  rewrite length_insert_by. cbn [List.length]. now rewrite IH.
Qed.

Lemma Forall_sort_by {A : Type} (cmp : A -> A -> jsnum) (P : A -> Prop)
    (xs : list A) :
  Forall P xs -> Forall P (sort_by cmp xs).
Proof.
  rewrite !Forall_forall. intros H x Hin. apply H.
  now apply In_sort_by in Hin.
Qed.

Lemma Forall_slice0 {A : Type} (P : A -> Prop) (k : Z) (xs : list A) :
  Forall P xs -> Forall P (slice0 k xs).
Proof.
  rewrite !Forall_forall. intros H x Hin. apply H. unfold slice0 in Hin.
  revert Hin. generalize (Z.to_nat
                            (if (k <? 0)%Z
                             then Z.max (Z.of_nat (List.length xs) + k) 0
                             else Z.min k (Z.of_nat (List.length xs)))).
  intros n Hin. rewrite <- (firstn_skipn n xs). apply in_or_app. now left.
Qed.

Lemma filter_all {A : Type} (f : A -> bool) (xs : list A) :
  Forall (fun x => f x = true) xs -> filter f xs = xs.
Proof.
  induction 1 as [|x xs Hx _ IH]; cbn [filter]; [reflexivity|].
  now rewrite Hx, IH.
Qed.

(** *** The database *)

Lemma ownProperty_listed (key : string) (listed : list Recipe.t)
    (recipe : Recipe.t) :
  ownProperty key recipeDatabase = Some listed -> In recipe listed ->
  In recipe allRecipes.
Proof.
  unfold allRecipes. generalize recipeDatabase.
  induction l as [|[k v] db IH]; cbn [ownProperty]; [discriminate|].
  intros H Hin. cbn [map snd List.concat]. apply in_or_app.
  destruct (String.eqb k key).
  - injection H as ->. now left.
  - right. now apply IH.
Qed.

Lemma ownProperty_short (key : string) (listed : list Recipe.t) :
  ownProperty key recipeDatabase = Some listed ->
  (List.length listed <= 3)%nat.
Proof.
  unfold recipeDatabase. cbn [ownProperty].
  repeat (destruct (String.eqb _ key);
          [intros H; injection H as <-; simpl; lia|]).
  discriminate.
Qed.

Lemma inherited_not_own (key : string) :
  array_includes inheritedKeys key = true ->
  ownProperty key recipeDatabase = None.
Proof.
  unfold array_includes, inheritedKeys. cbn [existsb].
  rewrite !orb_true_iff.
  intros [H|[H|H]]; [| |discriminate]; apply String.eqb_eq in H; subst key;
    reflexivity.
Qed.

Lemma recipes_are_short (recipe : Recipe.t) :
  In recipe allRecipes ->
  (1 <= List.length (Recipe.ingredients recipe) <= 5)%nat.
Proof.
  assert (F : forallb
                (fun r =>
                   (1 <=? List.length (Recipe.ingredients r))%nat
                   && (List.length (Recipe.ingredients r) <=? 5)%nat)
                allRecipes = true) by reflexivity.
  rewrite forallb_forall in F. intros Hin. specialize (F recipe Hin).
  apply andb_true_iff in F. destruct F as [F1 F2].
  apply Nat.leb_le in F1, F2. now split.
Qed.

Lemma no_meat_no_dairy (recipe : Recipe.t) :
  In recipe allRecipes ->
  array_includes (Recipe.ingredients recipe) "meat" = false
  /\ array_includes (Recipe.ingredients recipe) "dairy" = false.
Proof.
  assert (F : forallb
                (fun r =>
                   negb (array_includes (Recipe.ingredients r) "meat")
                   && negb (array_includes (Recipe.ingredients r) "dairy"))
                allRecipes = true) by reflexivity.
  rewrite forallb_forall in F. intros Hin. specialize (F recipe Hin).
  apply andb_true_iff in F. destruct F as [F1 F2].
  now rewrite negb_true_iff in F1, F2.
Qed.

(** *** Order *)

Lemma positive_difference_one_way (a b : jsnum) :
  gt (sub a b) (ofZ 0) = true -> gt (sub b a) (ofZ 0) = false.
Proof.
  unfold gt. rewrite ofZ_Fin.
  destruct a as [x| | |], b as [y| | |]; try reflexivity; try discriminate.
  change (sub (Fin x) (Fin y)) with (fin (x + Qred (- y))).
  change (sub (Fin y) (Fin x)) with (fin (y + Qred (- x))).
  unfold fin. cbn [lt]. rewrite !negb_true_iff, !negb_false_iff.
  rewrite !Qle_bool_Qred_l. intros H.
  apply Qle_bool_iff. change (inject_Z 0) with 0.
  assert (L : ~ x + Qred (- y) <= 0).
  { rewrite <- Qle_bool_iff. change 0 with (inject_Z 0). congruence. }
  apply Qnot_le_lt in L. rewrite Qred_correct in *. lra.
Qed.

Lemma byUrgencyThenMatch_one_way (a b : Meal) :
  gt (byUrgencyThenMatch a b) (ofZ 0) = true ->
  gt (byUrgencyThenMatch b a) (ofZ 0) = false.
Proof.
  unfold byUrgencyThenMatch.
  destruct (Z.eqb_spec (urgency a) (urgency b)) as [E|E]; cbn [negb].
  - rewrite E, Z.eqb_refl. cbn [negb]. apply positive_difference_one_way.
  - destruct (Z.eqb_spec (urgency b) (urgency a)) as [E'|E'];
      [congruence|]. cbn [negb].
    rewrite !gt_ofZ, Z.ltb_lt, Z.ltb_ge. lia.
Qed.

Lemma HdRel_insert_by {A : Type} (cmp : A -> A -> jsnum) (R : A -> A -> Prop)
    (x y : A) (ys : list A) :
  HdRel R y ys -> R y x -> HdRel R y (insert_by cmp x ys).
Proof.
  intros H Hx. destruct ys as [|z ys]; cbn [insert_by]; [now constructor|].
  inversion H; subst. destruct (gt (cmp x z) (ofZ 0)); now constructor.
Qed.

Lemma insert_by_sorted {A : Type} (cmp : A -> A -> jsnum) (x : A)
    (xs : list A) :
  (forall a b, gt (cmp a b) (ofZ 0) = true -> gt (cmp b a) (ofZ 0) = false) ->
  Sorted (fun a b => gt (cmp a b) (ofZ 0) = false) xs ->
  Sorted (fun a b => gt (cmp a b) (ofZ 0) = false) (insert_by cmp x xs).
Proof.
  intros Asym. induction 1 as [|y ys Hs IH Hd]; cbn [insert_by].
  - repeat constructor.
  - destruct (gt (cmp x y) (ofZ 0)) eqn:G.
    + constructor; [exact IH|]. apply HdRel_insert_by; [exact Hd|].
      now apply Asym.
    + constructor; [now constructor | now constructor].
Qed.

Lemma sort_by_sorted {A : Type} (cmp : A -> A -> jsnum) (xs : list A) :
  (forall a b, gt (cmp a b) (ofZ 0) = true -> gt (cmp b a) (ofZ 0) = false) ->
  Sorted (fun a b => gt (cmp a b) (ofZ 0) = false) (sort_by cmp xs).
Proof.
  intros Asym. unfold sort_by.
  induction xs as [|x xs IH]; cbn [fold_right]; [constructor|].
  now apply insert_by_sorted.
Qed.

Lemma le_jsnum_trans (a b c : jsnum) :
  le a b = true -> le b c = true -> le a c = true.
Proof.
  destruct a as [x| | |], b as [y| | |], c as [z| | |]; cbn [le];
    try reflexivity; try discriminate.
  rewrite !Qle_bool_iff. apply Qle_trans.
Qed.

Lemma precedes_trans (a b c : Meal) :
  precedes a b -> precedes b c -> precedes a c.
Proof.
  unfold precedes. intros [H1|[E1 L1]] [H2|[E2 L2]].
  - left. lia.
  - left. lia.
  - left. lia.
  - right. split; [congruence|]. now apply (le_jsnum_trans _ _ _ L2 L1).
Qed.

Lemma StronglySorted_firstn {A : Type} (R : A -> A -> Prop) (n : nat)
    (xs : list A) :
  StronglySorted R xs -> StronglySorted R (firstn n xs).
Proof.
  intros H. revert n. induction H as [|x xs Hs IH Hf]; intros [|n];
    cbn [firstn]; try constructor.
  - apply IH.
  - rewrite Forall_forall in *. intros y Hy. apply Hf.
    rewrite <- (firstn_skipn n xs). apply in_or_app. now left.
Qed.

Section Plan.
Context {rt : Runtime}.

(** *** The score of one recipe *)

Lemma lowerNames_names (inventory : list InventoryItem.t)
    (lowered : list string) :
  mapM lowerName inventory = Ok lowered ->
  exists names, map InventoryItem.name inventory = map Some names.
Proof.
  revert lowered. induction inventory as [|item inventory IH];
    intros lowered H.
  - now exists [].
  - cbn [mapM] in H. unfold lowerName at 1 in H.
    destruct (InventoryItem.name item) as [n|] eqn:E; [|discriminate].
    cbn [bind] in H.
    destruct (mapM lowerName inventory) as [l|e] eqn:M; [|discriminate].
    destruct (IH l eq_refl) as [names Hn].
    exists (n :: names). cbn [map]. now rewrite E, Hn.
Qed.

Lemma scoreRecipeMatch_Ok_names (recipe : Recipe.t)
    (inventory : list InventoryItem.t) (r : ScoredRecipe) :
  scoreRecipeMatch recipe inventory = Ok r ->
  exists names, map InventoryItem.name inventory = map Some names.
Proof.
  unfold scoreRecipeMatch.
  destruct (mapM lowerName inventory) as [l|e] eqn:M; [|discriminate].
  intros _. now apply (lowerNames_names inventory l).
Qed.

Lemma scoreRecipeMatch_nameless (recipe : Recipe.t)
    (inventory : list InventoryItem.t) (item : InventoryItem.t) :
  In item inventory -> InventoryItem.name item = None ->
  scoreRecipeMatch recipe inventory = Throw TypeError.
Proof.
  intros Hin Hn.
  destruct (scoreRecipeMatch recipe inventory) as [r|e] eqn:E.
  - exfalso. destruct (scoreRecipeMatch_Ok_names _ _ _ E) as [names N].
    apply (in_map InventoryItem.name) in Hin. rewrite N, Hn in Hin.
    apply in_map_iff in Hin. destruct Hin as (n & D & _). discriminate.
  - f_equal. apply (onlyTypeError_Throw (scoreRecipeMatch recipe inventory));
      [apply scoreRecipeMatch_onlyTypeError | exact E].
Qed.

(** The score is an integer between 0 and 100 when the recipe has an
    ingredient, and NaN when it has none. *)
Lemma matchScore_value (recipe : Recipe.t)
    (inventory : list InventoryItem.t) (r : ScoredRecipe) :
  scoreRecipeMatch recipe inventory = Ok r ->
  spread r = recipe
  /\ MealPlanning.recipe r = Recipe.name recipe
  /\ (Recipe.ingredients recipe = [] -> matchScore r = NaN)
  /\ (Recipe.ingredients recipe <> [] ->
      exists z, matchScore r = ofZ z /\ (0 <= z <= 100)%Z).
Proof.
  intros H. destruct (scoreRecipeMatch_Ok_names _ _ _ H) as [names N].
  rewrite (scoreRecipeMatch_named recipe inventory names N) in H.
  cbv zeta in H. apply Ok_inj in H. subst r.
  cbn [spread MealPlanning.recipe matchScore].
  split; [reflexivity|]. split; [reflexivity|]. split.
  - intros E. rewrite E. reflexivity.
  - intros E.
    set (matched := filter (inInventory (map toLowerCase names))
                           (Recipe.ingredients recipe)).
    assert (T : (0 < List.length (Recipe.ingredients recipe))%nat)
      by (destruct (Recipe.ingredients recipe); [congruence | simpl; lia]).
    rewrite (matchScore_integer _ _ T). eexists. split; [reflexivity|].
    rewrite <- SDGScoreProofs.round_percentage by lia.
    apply SDGScoreProofs.round_percentage_bounds; [|lia].
    pose proof (filter_length_le (inInventory (map toLowerCase names))
                  (Recipe.ingredients recipe)).
    fold matched in H. lia.
Qed.

Lemma missing_not_held (recipe : Recipe.t)
    (inventory : list InventoryItem.t) (names : list string)
    (r : ScoredRecipe) (ing : string) :
  map InventoryItem.name inventory = map Some names ->
  scoreRecipeMatch recipe inventory = Ok r ->
  In ing (missingIngredients r) ->
  In ing (Recipe.ingredients recipe) /\ ~ held names ing.
Proof.
  intros N H Hin.
  rewrite (scoreRecipeMatch_named recipe inventory names N) in H.
  cbv zeta in H. apply Ok_inj in H. subst r.
  cbn [missingIngredients] in Hin. apply filter_In in Hin.
  destruct Hin as [Hin Hneg]. split; [exact Hin|].
  intros Hheld. apply inInventory_held in Hheld. rewrite Hheld in Hneg.
  discriminate.
Qed.

(** *** The two loops *)

Lemma considerRecipe_built (inventory : list InventoryItem.t)
    (item : InventoryItem.t) (n : string) (listed : list Recipe.t)
    (meals meals' : list Meal) (recipe : Recipe.t) :
  In item inventory -> InventoryItem.name item = Some n ->
  ownProperty (toLowerCase n) recipeDatabase = Some listed ->
  In recipe listed ->
  Forall (builtFrom inventory) meals ->
  considerRecipe inventory item n meals recipe = Ok meals' ->
  Forall (builtFrom inventory) meals'
  /\ (List.length meals' <= S (List.length meals))%nat.
Proof.
  intros Hitem Hname Hown Hrec Hmeals. unfold considerRecipe.
  destruct (scoreRecipeMatch recipe inventory) as [r|e] eqn:E;
    [|discriminate].
  cbn [bind]. destruct (matchScore_value _ _ _ E) as (Hs & _).
  destruct (ge (matchScore r) (ofZ 50)) eqn:G; intros H; apply Ok_inj in H;
    subst meals'; [|split; [assumption | lia]].
  split; [|rewrite length_app; simpl; lia].
  apply Forall_app. split; [assumption|]. constructor; [|constructor].
  exists item, n, listed. cbn [scored urgency focusItem]. rewrite Hs.
  repeat split; assumption.
Qed.

Lemma recipes_built (inventory : list InventoryItem.t)
    (item : InventoryItem.t) (n : string) (listed rs : list Recipe.t)
    (meals meals' : list Meal) :
  In item inventory -> InventoryItem.name item = Some n ->
  ownProperty (toLowerCase n) recipeDatabase = Some listed ->
  (forall recipe, In recipe rs -> In recipe listed) ->
  Forall (builtFrom inventory) meals ->
  foldM (considerRecipe inventory item n) rs meals = Ok meals' ->
  Forall (builtFrom inventory) meals'
  /\ (List.length meals' <= List.length meals + List.length rs)%nat.
Proof.
  intros Hitem Hname Hown. revert meals.
  induction rs as [|recipe rs IH]; intros meals Sub Hmeals H.
  - simpl in H. apply Ok_inj in H. subst meals'. split; [assumption|lia].
  - cbn [foldM] in H.
    destruct (considerRecipe inventory item n meals recipe) as [m1|e] eqn:C;
      [|discriminate].
    cbn [bind] in H.
    destruct (considerRecipe_built inventory item n listed meals m1 recipe)
      as [B1 L1]; try assumption; [apply Sub; now left|].
    destruct (IH m1) as [B L]; try assumption.
    + intros r Hr. apply Sub. now right.
    + split; [exact B | cbn [List.length]; lia].
Qed.

Lemma considerItem_built (inventory : list InventoryItem.t)
    (meals meals' : list Meal) (item : InventoryItem.t) :
  In item inventory ->
  Forall (builtFrom inventory) meals ->
  considerItem inventory meals item = Ok meals' ->
  Forall (builtFrom inventory) meals'
  /\ (List.length meals' <= List.length meals + 3)%nat.
Proof.
  intros Hitem Hmeals. unfold considerItem.
  destruct (InventoryItem.name item) as [n|] eqn:Hname; [|discriminate].
  unfold recipesFor.
  destruct (ownProperty (toLowerCase n) recipeDatabase) as [listed|] eqn:Hown.
  - cbn [bind]. intros H.
    pose proof (ownProperty_short _ _ Hown) as Short.
    destruct (recipes_built inventory item n listed listed meals meals')
      as [B L]; try assumption; [auto|].
    split; [exact B | lia].
  - destruct (array_includes inheritedKeys (toLowerCase n)); [discriminate|].
    cbn [bind foldM]. intros H. apply Ok_inj in H. subst meals'.
    split; [assumption | lia].
Qed.

Lemma considerItem_inherited (inventory : list InventoryItem.t)
    (meals : list Meal) (item : InventoryItem.t) :
  readsInherited item = true ->
  considerItem inventory meals item = Throw TypeError.
Proof.
  unfold readsInherited, considerItem.
  destruct (InventoryItem.name item) as [n|]; [|discriminate].
  intros H. unfold recipesFor. rewrite (inherited_not_own _ H), H.
  reflexivity.
Qed.

(** The meals before sorting. *)
Lemma recommended_built (inventory items : list InventoryItem.t)
    (meals meals' : list Meal) :
  (forall item, In item items -> In item inventory) ->
  Forall (builtFrom inventory) meals ->
  foldM (considerItem inventory) items meals = Ok meals' ->
  Forall (builtFrom inventory) meals'
  /\ (List.length meals' <= List.length meals + 3 * List.length items)%nat.
Proof.
  revert meals. induction items as [|item items IH]; intros meals Sub B H.
  - simpl in H. apply Ok_inj in H. subst meals'. split; [assumption|lia].
  - cbn [foldM] in H.
    destruct (considerItem inventory meals item) as [m1|e] eqn:C;
      [|discriminate].
    cbn [bind] in H.
    destruct (considerItem_built inventory meals m1 item) as [B1 L1];
      try assumption; [apply Sub; now left|].
    destruct (IH m1) as [B2 L2]; try assumption.
    + intros i Hi. apply Sub. now right.
    + split; [exact B2 | cbn [List.length]; lia].
Qed.

(** The shape of a plan that is returned. *)
Lemma generateMealPlan_Ok (inventory : list InventoryItem.t)
    (preferences : list string) (p : MealPlan) :
  generateMealPlan inventory preferences = Ok p ->
  exists meals,
    foldM (considerItem inventory) (sort_by byExpiry inventory) [] = Ok meals
    /\ Forall (builtFrom inventory) meals
    /\ (List.length meals <= 3 * List.length inventory)%nat
    /\ p = {| totalRecommendations :=
                List.length (filter (fitsPreferences preferences)
                               (sort_by byUrgencyThenMatch meals));
              mealPlan :=
                slice0 5 (filter (fitsPreferences preferences)
                            (sort_by byUrgencyThenMatch meals));
              summary :=
                ("Found "
                 ++ NumberToString
                      (ofNat
                         (List.length
                            (filter (fitsPreferences preferences)
                               (sort_by byUrgencyThenMatch meals))))
                 ++ " recipes to use your expiring items")%string |}.
Proof.
  unfold generateMealPlan.
  destruct (foldM (considerItem inventory) (sort_by byExpiry inventory) [])
    as [meals|e] eqn:F; [|discriminate].
  cbn [bind]. intros H. apply Ok_inj in H. exists meals.
  destruct (recommended_built inventory (sort_by byExpiry inventory) [] meals)
    as [B L]; [|constructor|exact F|].
  - intros item Hin. now apply In_sort_by in Hin.
  - rewrite length_sort_by in L. cbn [List.length] in L.
    repeat split; [exact B | lia | now symmetry].
Qed.

Lemma built_fits (inventory : list InventoryItem.t)
    (preferences : list string) (meal : Meal) :
  builtFrom inventory meal -> fitsPreferences preferences meal = true.
Proof.
  intros (item & n & listed & _ & _ & Hown & Hrec & _).
  destruct (no_meat_no_dairy _ (ownProperty_listed _ _ _ Hown Hrec))
    as [M D].
  unfold fitsPreferences. rewrite M, D.
  destruct (List.length preferences =? 0)%nat; [reflexivity|].
  now rewrite !andb_false_r.
Qed.

Lemma built_score (inventory : list InventoryItem.t) (meal : Meal) :
  builtFrom inventory meal ->
  exists z, matchScore (scored meal) = ofZ z /\ (50 <= z <= 100)%Z.
Proof.
  intros (item & n & listed & _ & _ & _ & _ & Hs & Hge & _).
  destruct (matchScore_value _ _ _ Hs) as (_ & _ & Hnan & Hint).
  destruct (Recipe.ingredients (spread (scored meal))) eqn:E.
  - rewrite (Hnan eq_refl) in Hge. discriminate.
  - destruct Hint as (z & Hz & Hb); [discriminate|].
    exists z. split; [exact Hz|]. rewrite Hz in Hge.
    unfold ge in Hge. rewrite le_ofZ in Hge. apply Z.leb_le in Hge. lia.
Qed.

Lemma plan_shape (inventory : list InventoryItem.t)
    (preferences : list string) (p : MealPlan) :
  generateMealPlan inventory preferences = Ok p ->
  exists meals,
    Forall (builtFrom inventory) meals
    /\ (List.length meals <= 3 * List.length inventory)%nat
    /\ totalRecommendations p = List.length meals
    /\ mealPlan p = firstn 5 (sort_by byUrgencyThenMatch meals).
Proof.
  intros H. destruct (generateMealPlan_Ok _ _ _ H) as (meals & _ & B & L & ->).
  exists meals. cbn [totalRecommendations mealPlan].
  assert (F : filter (fitsPreferences preferences)
                (sort_by byUrgencyThenMatch meals)
              = sort_by byUrgencyThenMatch meals).
  { apply filter_all. apply Forall_sort_by.
    rewrite Forall_forall in *. intros meal Hin.
    now apply (built_fits inventory), B. }
  rewrite F, length_sort_by, slice0_nonneg by lia.
  repeat split; assumption.
Qed.

Lemma plan_built (inventory : list InventoryItem.t)
    (preferences : list string) (p : MealPlan) (meal : Meal) :
  generateMealPlan inventory preferences = Ok p ->
  In meal (mealPlan p) -> builtFrom inventory meal.
Proof.
  intros H Hin. destruct (plan_shape _ _ _ H) as (meals & B & _ & _ & E).
  rewrite E in Hin. rewrite Forall_forall in B. apply B.
  apply (In_sort_by byUrgencyThenMatch).
  rewrite <- (firstn_skipn 5 (sort_by byUrgencyThenMatch meals)).
  apply in_or_app. now left.
Qed.

(** X4.  Every meal of a plan was recommended for an item of the
    inventory: [focusItem] is the name of that item, [urgency] is
    [calculateUrgency] of its stored [daysLeft], and the recipe is one
    the database lists under the lower-cased name of the item. *)
Theorem plan_meals_come_from_inventory (inventory : list InventoryItem.t)
    (preferences : list string) (p : MealPlan) (meal : Meal)
    (H : generateMealPlan inventory preferences = Ok p)
    (Hin : In meal (mealPlan p)) :
  exists item listed,
    In item inventory
    /\ InventoryItem.name item = Some (focusItem meal)
    /\ urgency meal = calculateUrgency (InventoryItem.daysLeft item)
    /\ ownProperty (toLowerCase (focusItem meal)) recipeDatabase
       = Some listed
    /\ In (spread (scored meal)) listed
    /\ recipe (scored meal) = Recipe.name (spread (scored meal))
    /\ scoreRecipeMatch (spread (scored meal)) inventory = Ok (scored meal).
Proof.
  destruct (plan_built _ _ _ _ H Hin)
    as (item & n & listed & Hi & Hn & Ho & Hr & Hs & _ & Hu & Hf).
  exists item, listed. rewrite Hf.
  destruct (matchScore_value _ _ _ Hs) as (_ & Hname & _).
  repeat split; assumption.
Qed.

(** X5.  Every meal of a plan has a match score that is an integer from
    50 to 100, and at least half of the ingredients of its recipe are
    matched by the inventory. *)
Theorem plan_meals_match_half (inventory : list InventoryItem.t)
    (preferences : list string) (p : MealPlan) (meal : Meal)
    (H : generateMealPlan inventory preferences = Ok p)
    (Hin : In meal (mealPlan p)) :
  exists z : Z,
    matchScore (scored meal) = ofZ z /\ (50 <= z <= 100)%Z
    /\ (List.length (Recipe.ingredients (spread (scored meal)))
        <= 2 * List.length (matchedIngredients (scored meal)))%nat.
Proof.
  pose proof (plan_built _ _ _ _ H Hin) as B.
  destruct (built_score _ _ B) as (z & Hz & Hb).
  exists z. split; [exact Hz|]. split; [exact Hb|].
  destruct B as (item & n & listed & _ & _ & Ho & Hr & Hs & _).
  pose proof (recipes_are_short _ (ownProperty_listed _ _ _ Ho Hr)) as Short.
  destruct (scoreRecipeMatch_Ok_names _ _ _ Hs) as [names N].
  pose proof Hs as Hs'.
  rewrite (scoreRecipeMatch_named _ inventory names N) in Hs'.
  cbv zeta in Hs'. apply Ok_inj in Hs'.
  set (ings := Recipe.ingredients (spread (scored meal))) in *.
  set (matched := filter (inInventory (map toLowerCase names)) ings) in *.
  assert (Em : matchedIngredients (scored meal) = matched)
    by (rewrite <- Hs'; reflexivity).
  assert (Es : matchScore (scored meal)
               = Math_round (mul (div (ofNat (List.length matched))
                                      (ofNat (List.length ings)))
                                 (ofZ 100)))
    by (rewrite <- Hs' at 1; reflexivity).
  rewrite Em. destruct (Nat.eq_dec (List.length ings) 0) as [E0|E0]; [lia|].
  rewrite matchScore_integer in Es by lia. rewrite Hz in Es.
  apply ofZ_inj in Es.
  pose proof (Z.mul_div_le (200 * Z.of_nat (List.length matched)
                            + Z.of_nat (List.length ings))
                (2 * Z.of_nat (List.length ings))) as D.
  rewrite <- Es in D. nia.
Qed.

(** X6.  The dietary preferences change nothing: no recipe of the
    database lists "meat" or "dairy" as an ingredient, which is all the
    filter looks for, so the plan is the one made without preferences. *)
Theorem preferences_change_nothing (inventory : list InventoryItem.t)
    (preferences : list string) :
  generateMealPlan inventory preferences = generateMealPlan inventory [].
Proof.
  unfold generateMealPlan.
  destruct (foldM (considerItem inventory) (sort_by byExpiry inventory) [])
    as [meals|e] eqn:F; [|reflexivity].
  cbn [bind].
  destruct (recommended_built inventory (sort_by byExpiry inventory) [] meals)
    as [B _]; [|constructor|exact F|].
  { intros item Hin. now apply In_sort_by in Hin. }
  assert (Fits : forall prefs,
             filter (fitsPreferences prefs)
               (sort_by byUrgencyThenMatch meals)
             = sort_by byUrgencyThenMatch meals).
  { intros prefs. apply filter_all, Forall_sort_by.
    rewrite Forall_forall in *. intros meal Hin.
    now apply (built_fits inventory), B. }
  now rewrite !Fits.
Qed.

(** X7.  A plan is ordered: no meal comes before one of higher urgency,
    nor, at equal urgency, before one with a higher match score. *)
Theorem plan_is_ordered (inventory : list InventoryItem.t)
    (preferences : list string) (p : MealPlan)
    (H : generateMealPlan inventory preferences = Ok p) :
  StronglySorted precedes (mealPlan p).
Proof.
  destruct (plan_shape _ _ _ H) as (meals & B & _ & _ & ->).
  apply StronglySorted_firstn.
  apply Sorted_StronglySorted; [intros a b c; apply precedes_trans|].
  pose proof (sort_by_sorted byUrgencyThenMatch meals
                byUrgencyThenMatch_one_way) as S.
  assert (Bs : Forall (builtFrom inventory)
                 (sort_by byUrgencyThenMatch meals))
    by now apply Forall_sort_by.
  revert S Bs. generalize (sort_by byUrgencyThenMatch meals) as sorted.
  intros sorted S. induction S as [|a l Hs IH Hd]; intros Bs;
    [constructor|].
  inversion Bs as [|? ? Ba Bl]; subst.
  constructor; [now apply IH|].
  destruct Hd as [|b l Hab]; constructor.
  inversion Bl as [|? ? Bb _]; subst.
  destruct (built_score _ _ Ba) as (za & Ha & _).
  destruct (built_score _ _ Bb) as (zb & Hb & _).
  unfold byUrgencyThenMatch in Hab. unfold precedes. rewrite Ha, Hb in *.
  destruct (Z.eqb_spec (urgency a) (urgency b)) as [E|E]; cbn [negb] in Hab.
  - right. split; [exact E|]. rewrite sub_ofZ, gt_ofZ in Hab.
    rewrite le_ofZ. apply Z.leb_le. apply Z.ltb_ge in Hab. lia.
  - left. rewrite gt_ofZ in Hab. apply Z.ltb_ge in Hab. lia.
Qed.

(** X8.  The plan keeps the first five recommendations and counts all
    of them; there are at most three for each item of the inventory, and
    none for an empty inventory. *)
Theorem plan_counts (inventory : list InventoryItem.t)
    (preferences : list string) (p : MealPlan)
    (H : generateMealPlan inventory preferences = Ok p) :
  List.length (mealPlan p) = Nat.min 5 (totalRecommendations p)
  /\ (totalRecommendations p <= 3 * List.length inventory)%nat
  /\ (inventory = [] -> totalRecommendations p = 0%nat /\ mealPlan p = []).
Proof.
  destruct (plan_shape _ _ _ H) as (meals & _ & L & T & E).
  rewrite E, T, length_firstn, length_sort_by.
  split; [reflexivity|]. split; [exact L|].
  intros ->. cbn [List.length] in L.
  destruct meals; [split; reflexivity | simpl in L; lia].
Qed.

Lemma wellNamed_false (inventory : list InventoryItem.t) :
  wellNamed inventory = false ->
  exists item,
    In item inventory
    /\ (InventoryItem.name item = None \/ readsInherited item = true).
Proof.
  unfold wellNamed. induction inventory as [|item inventory IH];
    cbn [forallb]; [discriminate|].
  intros H. apply andb_false_iff in H. destruct H as [H|H].
  - exists item. split; [now left|]. unfold readsInherited.
    destruct (InventoryItem.name item); [|now left].
    right. now apply negb_false_iff in H.
  - destruct (IH H) as (bad & Hin & Hbad). exists bad. split; [now right|].
    exact Hbad.
Qed.

Lemma generateMealPlan_bad_item (inventory : list InventoryItem.t)
    (preferences : list string) (item : InventoryItem.t) :
  In item inventory ->
  InventoryItem.name item = None \/ readsInherited item = true ->
  generateMealPlan inventory preferences = Throw TypeError.
Proof.
  intros Hin Hbad.
  destruct (generateMealPlan inventory preferences) as [p|e] eqn:E.
  - exfalso. unfold generateMealPlan in E.
    destruct (foldM (considerItem inventory) (sort_by byExpiry inventory) [])
      as [meals|e] eqn:F; [|discriminate].
    destruct (foldM_Ok_each _ _ _ _ F item) as (s1 & s2 & C).
    + now apply In_sort_by.
    + destruct Hbad as [Hn|Hi].
      * rewrite (considerItem_nameless inventory s1 item Hn) in C.
        discriminate.
      * rewrite (considerItem_inherited inventory s1 item Hi) in C.
        discriminate.
  - f_equal.
    apply (onlyTypeError_Throw (generateMealPlan inventory preferences));
      [apply generateMealPlan_onlyTypeError | exact E].
Qed.

(** X9.  [generateMealPlan] and [generateWeeklyMealPlan] fail exactly
    when some item of the inventory has no name or a name that, in lower
    case, is "constructor" or "__proto__"; the failure is a [TypeError]
    and it does not depend on the other arguments. *)
Theorem plan_fails_exactly_when (inventory : list InventoryItem.t)
    (preferences : list string) (mealCount : option Z) :
  let bad :=
    exists item,
      In item inventory
      /\ (InventoryItem.name item = None
          \/ exists n, InventoryItem.name item = Some n
                       /\ (toLowerCase n = "constructor"
                           \/ toLowerCase n = "__proto__")) in
  (generateMealPlan inventory preferences = Throw TypeError <-> bad)
  /\ ((exists p, generateMealPlan inventory preferences = Ok p) <-> ~ bad)
  /\ (generateWeeklyMealPlan inventory mealCount = Throw TypeError <-> bad)
  /\ ((exists r, generateWeeklyMealPlan inventory mealCount = Ok r)
      <-> ~ bad).
Proof.
  cbv zeta.
  set (bad := exists item, In item inventory /\ _).
  assert (Inh : forall item,
             readsInherited item = true <->
             exists n, InventoryItem.name item = Some n
                       /\ (toLowerCase n = "constructor"
                           \/ toLowerCase n = "__proto__")).
  { intros item. unfold readsInherited.
    destruct (InventoryItem.name item) as [n|].
    - unfold array_includes, inheritedKeys. cbn [existsb].
      rewrite !orb_true_iff, !String.eqb_eq. split.
      + intros [E|[E|E]]; [| |discriminate]; exists n; auto.
      + intros (n' & E & D). injection E as <-. tauto.
    - split; [discriminate | intros (n & E & _); discriminate]. }
  assert (Bad : bad <-> wellNamed inventory = false).
  { split.
    - intros (item & Hin & Hb).
      destruct (wellNamed inventory) eqn:W; [|reflexivity]. exfalso.
      unfold wellNamed in W. rewrite forallb_forall in W.
      specialize (W item Hin). destruct Hb as [Hn|Hi].
      + now rewrite Hn in W.
      + apply Inh in Hi. unfold readsInherited in Hi.
        destruct (InventoryItem.name item); [|discriminate].
        rewrite Hi in W. discriminate.
    - intros W. destruct (wellNamed_false _ W) as (item & Hin & Hb).
      exists item. split; [exact Hin|]. destruct Hb as [Hn|Hi]; [now left|].
      right. now apply Inh. }
  assert (Plan : forall prefs,
             (generateMealPlan inventory prefs = Throw TypeError <-> bad)
             /\ ((exists p, generateMealPlan inventory prefs = Ok p)
                 <-> ~ bad)).
  { intros prefs. destruct (wellNamed inventory) eqn:W.
    - destruct (generateMealPlan_ok inventory prefs W) as [p Hp].
      assert (NB : ~ bad) by (rewrite Bad; discriminate).
      split; split; try tauto.
      + rewrite Hp. discriminate.
      + intros _. now exists p.
    - assert (B : bad) by now apply Bad.
      destruct (wellNamed_false _ W) as (item & Hin & Hb).
      pose proof (generateMealPlan_bad_item inventory prefs item Hin Hb)
        as T.
      split; split; try tauto.
      intros [p Hp]. rewrite T in Hp. discriminate. }
  split; [apply Plan|]. split; [apply Plan|].
  unfold generateWeeklyMealPlan.
  destruct (Plan []) as [PT PO].
  destruct (generateMealPlan inventory []) as [p|e] eqn:E; cbn [bind].
  - assert (NB : ~ bad) by (apply PO; now exists p).
    split; split; try tauto; [discriminate|].
    intros _. eexists. reflexivity.
  - assert (e = TypeError).
    { apply (onlyTypeError_Throw (generateMealPlan inventory []));
        [apply generateMealPlan_onlyTypeError | exact E]. }
    subst e. assert (B : bad) by now apply PT.
    split; split; try tauto. intros [r Hr]. discriminate.
Qed.

(** *** The week and its shopping list *)

Lemma generateWeeklyMealPlan_Ok (inventory : list InventoryItem.t)
    (mealCount : option Z) (r : WeeklyMealPlan) :
  generateWeeklyMealPlan inventory mealCount = Ok r ->
  exists p selected,
    generateMealPlan inventory [] = Ok p
    /\ selected
       = slice0 (match mealCount with Some n => n | None => 7%Z end)
                (mealPlan p)
    /\ weeklyPlan r
       = mapi_from 0
           (fun meal index =>
              {| day := nth_error weekdays index;
                 meal := recipe (scored meal);
                 day_time := Recipe.time (spread (scored meal));
                 day_difficulty := Recipe.difficulty (spread (scored meal));
                 day_focusItem := focusItem meal |})
           selected
    /\ shoppingList r
       = map (fun entry => {| shop_item := fst entry;
                              shop_quantity := snd entry |})
           (fold_left
              (fun shoppingList meal =>
                 fold_left (fun sl ingredient => countIngredient ingredient sl)
                           (missingIngredients (scored meal)) shoppingList)
              selected [])
    /\ totalMeals r = List.length selected.
Proof.
  unfold generateWeeklyMealPlan.
  destruct (generateMealPlan inventory []) as [p|e]; [|discriminate].
  cbn [bind]. intros H. apply Ok_inj in H. subst r.
  exists p. eexists. split; [reflexivity|]. split; [reflexivity|].
  cbn [weeklyPlan shoppingList totalMeals]. repeat split.
Qed.

Lemma selected_built (inventory : list InventoryItem.t) (p : MealPlan)
    (k : Z) (meal : Meal) :
  generateMealPlan inventory [] = Ok p ->
  In meal (slice0 k (mealPlan p)) -> builtFrom inventory meal.
Proof.
  intros H Hin. apply (plan_built inventory [] p meal H).
  assert (F : Forall (fun m => In m (mealPlan p)) (slice0 k (mealPlan p))).
  { apply Forall_slice0. now apply Forall_forall. }
  rewrite Forall_forall in F. now apply F.
Qed.

Lemma built_resolves (inventory : list InventoryItem.t) (meal : Meal) :
  builtFrom inventory meal ->
  In (spread (scored meal)) allRecipes
  /\ getRecipeDetails (recipe (scored meal))
     = {| success := true; details_recipe := Some (spread (scored meal));
          message := None |}.
Proof.
  intros (item & n & listed & _ & _ & Ho & Hr & Hs & _).
  pose proof (ownProperty_listed _ _ _ Ho Hr) as Hin.
  split; [exact Hin|].
  destruct (matchScore_value _ _ _ Hs) as (_ & Hname & _).
  rewrite Hname. unfold getRecipeDetails.
  rewrite LookupProofs.firstNamed_find.
  change (List.concat categoryLists) with allRecipes. unfold named.
  rewrite (LookupProofs.find_by_key (fun r => toLowerCase (Recipe.name r))
             allRecipes _ LookupProofs.recipe_names_differ Hin).
  reflexivity.
Qed.

Lemma In_mapi_from {A B : Type} (f : A -> nat -> B) (xs : list A) (i : nat)
    (y : B) :
  In y (mapi_from i f xs) -> exists x j, In x xs /\ y = f x j.
Proof.
  revert i. induction xs as [|x xs IH]; intros i H; [destruct H|].
  cbn [mapi_from] in H. destruct H as [<-|H].
  - exists x, i. split; [now left | reflexivity].
  - destruct (IH _ H) as (x' & j & Hin & E). exists x', j.
    split; [now right | exact E].
Qed.

(** X10.  Whatever a plan proposes can be looked up: for every meal of
    a plan, and for every day of a weekly plan, [getRecipeDetails] finds
    under the name of the meal the very recipe that was scored, so the
    time and the difficulty shown for the day are those of that recipe,
    and the focus item of the day is an item of the inventory. *)
Theorem planned_meals_resolve (inventory : list InventoryItem.t)
    (preferences : list string) (mealCount : option Z) :
  (forall p meal,
      generateMealPlan inventory preferences = Ok p ->
      In meal (mealPlan p) ->
      getRecipeDetails (recipe (scored meal))
      = {| success := true; details_recipe := Some (spread (scored meal));
           message := None |})
  /\ (forall r d,
         generateWeeklyMealPlan inventory mealCount = Ok r ->
         In d (weeklyPlan r) ->
         exists found item,
           getRecipeDetails (meal d)
           = {| success := true; details_recipe := Some found;
                message := None |}
           /\ day_time d = Recipe.time found
           /\ day_difficulty d = Recipe.difficulty found
           /\ In item inventory
           /\ InventoryItem.name item = Some (day_focusItem d)).
Proof.
  split.
  - intros p meal H Hin.
    now apply (built_resolves inventory), (plan_built _ _ _ _ H Hin).
  - intros r d H Hin.
    destruct (generateWeeklyMealPlan_Ok _ _ _ H)
      as (p & selected & Hp & -> & Hw & _ & _).
    rewrite Hw in Hin. apply In_mapi_from in Hin.
    destruct Hin as (meal & j & Hin & ->).
    cbn [MealPlanning.meal day_time day_difficulty day_focusItem].
    pose proof (selected_built _ _ _ _ Hp Hin) as B.
    destruct (built_resolves _ _ B) as [_ R].
    destruct B as (item & n & listed & Hi & Hn & _ & _ & _ & _ & _ & Hf).
    exists (spread (scored meal)), item. rewrite Hf.
    repeat split; assumption.
Qed.

Lemma keys_countIngredient (ingredient : string)
    (shoppingList : list (string * Z)) :
  map fst (countIngredient ingredient shoppingList)
  = if existsb (String.eqb ingredient) (map fst shoppingList)
    then map fst shoppingList
    else map fst shoppingList ++ [ingredient].
Proof.
  induction shoppingList as [|[k n] rest IH];
    cbn [countIngredient map fst existsb app]; [reflexivity|].
  rewrite (String.eqb_sym ingredient k).
  destruct (String.eqb k ingredient); cbn [orb map fst]; [reflexivity|].
  rewrite IH. now destruct (existsb _ _).
Qed.

Lemma keys_countIngredient_In (ingredient k : string)
    (shoppingList : list (string * Z)) :
  In k (map fst (countIngredient ingredient shoppingList))
  <-> In k (map fst shoppingList) \/ k = ingredient.
Proof.
  rewrite keys_countIngredient.
  destruct (existsb _ _) eqn:E.
  - apply existsb_exists in E. destruct E as (x & Hx & Ex).
    apply String.eqb_eq in Ex. subst x.
    split; [now left | intros [H| ->]; assumption].
  - rewrite in_app_iff. cbn [In]. intuition congruence.
Qed.

Lemma keys_countIngredient_NoDup (ingredient : string)
    (shoppingList : list (string * Z)) :
  NoDup (map fst shoppingList) ->
  NoDup (map fst (countIngredient ingredient shoppingList)).
Proof.
  intros N. rewrite keys_countIngredient.
  destruct (existsb _ _) eqn:E; [exact N|].
  apply NoDup_app; [exact N | repeat constructor; intros [] |].
  intros x Hx [<-|[]].
  assert (T : existsb (String.eqb ingredient) (map fst shoppingList) = true).
  { apply existsb_exists. exists ingredient. split; [exact Hx|].
    apply String.eqb_refl. }
  congruence.
Qed.

Lemma quantityOf_countIngredient (ingredient k : string)
    (shoppingList : list (string * Z)) :
  quantityOf k (countIngredient ingredient shoppingList)
  = (quantityOf k shoppingList
     + if String.eqb ingredient k then 1 else 0)%Z.
Proof.
  induction shoppingList as [|[k' n] rest IH];
    cbn [countIngredient quantityOf].
  - rewrite (String.eqb_sym ingredient k). now destruct (String.eqb k ingredient).
  - destruct (String.eqb_spec k' ingredient) as [E|E]; cbn [quantityOf].
    + subst k'. destruct (String.eqb ingredient k); lia.
    + destruct (String.eqb_spec k' k) as [E'|E'].
      * subst k'. destruct (String.eqb_spec ingredient k); [congruence|lia].
      * exact IH.
Qed.

Lemma quantityOf_In (k : string) (n : Z) (shoppingList : list (string * Z)) :
  NoDup (map fst shoppingList) -> In (k, n) shoppingList ->
  quantityOf k shoppingList = n.
Proof.
  induction shoppingList as [|[k' n'] rest IH]; intros N Hin;
    [destruct Hin|].
  cbn [map fst] in N. inversion N as [|? ? Hk N']; subst.
  cbn [quantityOf]. destruct Hin as [E|Hin].
  - injection E as -> ->. now rewrite String.eqb_refl.
  - destruct (String.eqb_spec k' k) as [->|_].
    + exfalso. apply Hk. change k with (fst (k, n)). now apply in_map.
    + now apply IH.
Qed.

Lemma count_ingredients (ingredients : list string)
    (shoppingList : list (string * Z)) :
  let counted :=
    fold_left (fun sl ingredient => countIngredient ingredient sl)
              ingredients shoppingList in
  (NoDup (map fst shoppingList) -> NoDup (map fst counted))
  /\ (forall k, In k (map fst counted)
                <-> In k (map fst shoppingList) \/ In k ingredients)
  /\ (forall k, quantityOf k counted
                = (quantityOf k shoppingList
                   + Z.of_nat (count_occ string_dec ingredients k))%Z).
Proof.
  cbv zeta. revert shoppingList.
  induction ingredients as [|i ingredients IH]; intros shoppingList;
    cbn [fold_left].
  - split; [tauto|]. split; [intros k; cbn [In]; tauto|].
    intros k. cbn [count_occ]. lia.
  - destruct (IH (countIngredient i shoppingList)) as (N & K & Q).
    split; [|split].
    + intros H. now apply N, keys_countIngredient_NoDup.
    + intros k. rewrite K, keys_countIngredient_In. cbn [In].
      intuition congruence.
    + intros k. rewrite Q, quantityOf_countIngredient. cbn [count_occ].
      destruct (string_dec i k) as [E|E].
      * subst i. rewrite String.eqb_refl. lia.
      * apply String.eqb_neq in E. rewrite E. lia.
Qed.

Lemma count_needed (meals : list Meal) (shoppingList : list (string * Z)) :
  let counted :=
    fold_left
      (fun shoppingList meal =>
         fold_left (fun sl ingredient => countIngredient ingredient sl)
                   (missingIngredients (scored meal)) shoppingList)
      meals shoppingList in
  (NoDup (map fst shoppingList) -> NoDup (map fst counted))
  /\ (forall k, In k (map fst counted)
                <-> In k (map fst shoppingList) \/ In k (needed meals))
  /\ (forall k, quantityOf k counted
                = (quantityOf k shoppingList
                   + Z.of_nat (count_occ string_dec (needed meals) k))%Z).
Proof.
  cbv zeta. revert shoppingList.
  induction meals as [|meal meals IH]; intros shoppingList;
    cbn [fold_left]; unfold needed; cbn [map List.concat].
  - split; [tauto|]. split; [intros k; cbn [In]; tauto|].
    intros k. cbn [count_occ]. lia.
  - fold (needed meals).
    destruct (count_ingredients (missingIngredients (scored meal))
                shoppingList) as (N1 & K1 & Q1).
    cbv zeta in N1, K1, Q1.
    destruct (IH (fold_left
                    (fun sl ingredient => countIngredient ingredient sl)
                    (missingIngredients (scored meal)) shoppingList))
      as (N & K & Q).
    split; [|split].
    + intros H. now apply N, N1.
    + intros k. rewrite K, K1, in_app_iff. tauto.
    + intros k. rewrite Q, Q1, count_occ_app. lia.
Qed.

(** X11.  The shopping list of a weekly plan names every ingredient that
    a selected meal lacks, each once; its quantity is the number of times
    the selected meals lack it.  Nothing else is on the list, and no item
    of the inventory has a name that contains a listed ingredient. *)
Theorem shopping_list_counts_missing (inventory : list InventoryItem.t)
    (mealCount : option Z) (r : WeeklyMealPlan)
    (H : generateWeeklyMealPlan inventory mealCount = Ok r) :
  exists p names,
    generateMealPlan inventory [] = Ok p
    /\ map InventoryItem.name inventory = map Some names
    /\ let selected :=
         slice0 (match mealCount with Some n => n | None => 7%Z end)
                (mealPlan p) in
       NoDup (map shop_item (shoppingList r))
       /\ (forall ing, In ing (map shop_item (shoppingList r))
                       <-> In ing (needed selected))
       /\ (forall e, In e (shoppingList r) ->
             shop_quantity e
             = Z.of_nat (count_occ string_dec (needed selected) (shop_item e))
             /\ (1 <= shop_quantity e)%Z
             /\ ~ held names (shop_item e)).
Proof.
  destruct (generateWeeklyMealPlan_Ok _ _ _ H)
    as (p & selected & Hp & Hsel & _ & Hs & _).
  assert (Hn : exists names,
             map InventoryItem.name inventory = map Some names).
  { destruct (wellNamed inventory) eqn:W; [now apply wellNamed_names|].
    destruct (wellNamed_false _ W) as (item & Hin & Hb).
    rewrite (generateMealPlan_bad_item inventory [] item Hin Hb) in Hp.
    discriminate. }
  destruct Hn as [names Hn]. exists p, names.
  split; [exact Hp|]. split; [exact Hn|]. cbv zeta. rewrite <- Hsel.
  destruct (count_needed selected []) as (N & K & Q). cbv zeta in N, K, Q.
  set (counted := fold_left _ selected []) in *.
  assert (Keys : map shop_item (shoppingList r) = map fst counted).
  { rewrite Hs, map_map. reflexivity. }
  assert (Missing : forall ing, In ing (needed selected) ->
                                ~ held names ing).
  { intros ing Hin. unfold needed in Hin. apply in_concat in Hin.
    destruct Hin as (l & Hl & Hing). apply in_map_iff in Hl.
    destruct Hl as (meal & <- & Hmeal). rewrite Hsel in Hmeal.
    destruct (selected_built _ _ _ _ Hp Hmeal)
      as (item & n & listed & _ & _ & _ & _ & Hscore & _).
    now apply (missing_not_held _ _ names _ ing Hn Hscore). }
  rewrite Keys. split; [apply N; constructor|]. split.
  - intros ing. rewrite K. cbn [map In]. tauto.
  - intros e He. rewrite Hs in He. apply in_map_iff in He.
    destruct He as ([k n] & <- & Hkn). cbn [shop_item shop_quantity fst snd].
    pose proof (quantityOf_In k n counted (N (NoDup_nil _)) Hkn) as E.
    rewrite Q in E. cbn [quantityOf] in E.
    assert (Hk : In k (needed selected)).
    { destruct (proj1 (K k)) as [[]|Hk]; [|exact Hk].
      change k with (fst (k, n)). now apply in_map. }
    split; [lia|]. split.
    + pose proof (proj1 (count_occ_In string_dec (needed selected) k) Hk).
      lia.
    + now apply Missing.
Qed.

(** *** Scoring at the edges *)

Lemma names_or_nameless (inventory : list InventoryItem.t) :
  (exists names, map InventoryItem.name inventory = map Some names)
  \/ (exists item, In item inventory /\ InventoryItem.name item = None).
Proof.
  induction inventory as [|item inventory [[names E]|(bad & Hin & Hb)]].
  - left. now exists [].
  - destruct (InventoryItem.name item) as [n|] eqn:N.
    + left. exists (n :: names). cbn [map]. now rewrite N, E.
    + right. exists item. split; [now left | exact N].
  - right. exists bad. split; [now right | exact Hb].
Qed.

(** X12.  [scoreRecipeMatch] fails exactly when an item of the inventory
    has no name, with a [TypeError].  When it returns, a recipe without
    ingredients has the score NaN; any other recipe has an integer score
    from 0 to 100, which is 100 when nothing is missing and 0 when nothing
    is matched, and the matched and missing ingredients together are as
    many as the recipe lists. *)
Theorem scoreRecipeMatch_edge_cases (recipe : Recipe.t)
    (inventory : list InventoryItem.t) :
  (scoreRecipeMatch recipe inventory = Throw TypeError
   <-> exists item, In item inventory /\ InventoryItem.name item = None)
  /\ (forall e, scoreRecipeMatch recipe inventory = Throw e -> e = TypeError)
  /\ (forall r, scoreRecipeMatch recipe inventory = Ok r ->
        (List.length (matchedIngredients r)
         + List.length (missingIngredients r)
         = List.length (Recipe.ingredients recipe))%nat
        /\ (Recipe.ingredients recipe = [] -> matchScore r = NaN)
        /\ (Recipe.ingredients recipe <> [] ->
            (exists z, matchScore r = ofZ z /\ (0 <= z <= 100)%Z)
            /\ (missingIngredients r = [] -> matchScore r = ofZ 100)
            /\ (matchedIngredients r = [] -> matchScore r = ofZ 0))).
Proof.
  split; [|split].
  - split.
    + intros T. destruct (names_or_nameless inventory) as [[names N]|B];
        [|exact B].
      rewrite (scoreRecipeMatch_named recipe inventory names N) in T.
      discriminate.
    + intros (item & Hin & Hn). now apply (scoreRecipeMatch_nameless _ _ item).
  - intros e E.
    apply (onlyTypeError_Throw (scoreRecipeMatch recipe inventory));
      [apply scoreRecipeMatch_onlyTypeError | exact E].
  - intros r H. destruct (matchScore_value _ _ _ H) as (_ & _ & Hnan & Hint).
    destruct (scoreRecipeMatch_Ok_names _ _ _ H) as [names N].
    rewrite (scoreRecipeMatch_named recipe inventory names N) in H.
    cbv zeta in H. apply Ok_inj in H.
    set (ings := Recipe.ingredients recipe) in *.
    set (has := inInventory (map toLowerCase names)) in *.
    assert (Em : matchedIngredients r = filter has ings)
      by (rewrite <- H; reflexivity).
    assert (Ei : missingIngredients r
                 = filter (fun ing => negb (has ing)) ings)
      by (rewrite <- H; reflexivity).
    assert (Es : matchScore r
                 = Math_round
                     (mul (div (ofNat (List.length (filter has ings)))
                               (ofNat (List.length ings)))
                          (ofZ 100)))
      by (rewrite <- H at 1; reflexivity).
    assert (L : (List.length (filter has ings)
                 + List.length (filter (fun ing => negb (has ing)) ings)
                 = List.length ings)%nat).
    { rewrite <- length_app.
      apply Permutation_length, filter_partition. }
    split; [now rewrite Em, Ei|]. split; [exact Hnan|].
    intros Hne. split; [now apply Hint|].
    assert (T : (0 < List.length ings)%nat)
      by (destruct ings; [congruence | simpl; lia]).
    rewrite Es, (matchScore_integer _ _ T). split.
    + intros M. rewrite Ei in M. rewrite M in L. cbn [List.length] in L.
      f_equal. rewrite Nat.add_0_r in L. rewrite L.
      symmetry. apply (Z.div_unique _ _ _ (Z.of_nat (List.length ings))); lia.
    + intros M. rewrite Em in M. rewrite M. cbn [List.length].
      f_equal. apply Z.div_small. lia.
Qed.

(** *** Urgency of any value *)

(** X21.  [calculateUrgency] returns one of 100, 80, 60, 40 and 20 for
    every value, not only for integers.  A value that is no number, such
    as a missing [daysLeft], gets the lowest urgency 20.  The urgency
    never rises when the number of days does, and it is 100 exactly for
    the values that are at most 1. *)
Theorem calculateUrgency_any_value (a b : jsval) :
  In (calculateUrgency a) [100; 80; 60; 40; 20]%Z
  /\ (ToNumber a = NaN -> calculateUrgency a = 20%Z)
  /\ calculateUrgency VUndef = 20%Z
  /\ (le (ToNumber a) (ToNumber b) = true ->
      (calculateUrgency b <= calculateUrgency a)%Z)
  /\ (calculateUrgency a = 100%Z <-> le (ToNumber a) (ofZ 1) = true).
Proof.
  split; [|split; [|split; [reflexivity|]]].
  - unfold calculateUrgency.
    destruct (le (ToNumber a) (ofZ 1)), (le (ToNumber a) (ofZ 2)),
      (le (ToNumber a) (ofZ 3)), (le (ToNumber a) (ofZ 7));
      cbn [In]; tauto.
  - intros E. unfold calculateUrgency. now rewrite E.
  - unfold calculateUrgency.
    generalize (ToNumber a) as x. generalize (ToNumber b) as y. intros y x.
    pose proof (le_jsnum_trans x y (ofZ 1)) as T1.
    pose proof (le_jsnum_trans x y (ofZ 2)) as T2.
    pose proof (le_jsnum_trans x y (ofZ 3)) as T3.
    pose proof (le_jsnum_trans x y (ofZ 7)) as T7.
    split.
    + intros L. specialize (T1 L). specialize (T2 L). specialize (T3 L).
      specialize (T7 L).
      destruct (le y (ofZ 1)); [rewrite (T1 eq_refl); lia|].
      destruct (le y (ofZ 2));
        [rewrite (T2 eq_refl); destruct (le x (ofZ 1)); lia|].
      destruct (le y (ofZ 3));
        [rewrite (T3 eq_refl);
         destruct (le x (ofZ 1)), (le x (ofZ 2)); lia|].
      destruct (le y (ofZ 7));
        [rewrite (T7 eq_refl);
         destruct (le x (ofZ 1)), (le x (ofZ 2)), (le x (ofZ 3)); lia|].
      destruct (le x (ofZ 1)), (le x (ofZ 2)), (le x (ofZ 3)),
        (le x (ofZ 7)); lia.
    + destruct (le x (ofZ 1)), (le x (ofZ 2)), (le x (ofZ 3)),
        (le x (ofZ 7)); split; intros D; try reflexivity;
        discriminate D.
Qed.

(** *** The meal count *)

Lemma firstn_length_firstn {A : Type} (n : nat) (xs : list A) :
  firstn (List.length (firstn n xs)) xs = firstn n xs.
Proof.
  rewrite length_firstn.
  destruct (Nat.le_ge_cases n (List.length xs)) as [L|L].
  - now rewrite Nat.min_l.
  - rewrite Nat.min_r by exact L.
    now rewrite firstn_all, firstn_all2.
Qed.

Lemma map_mapi_from {A B C : Type} (g : B -> C) (h : A -> C)
    (f : A -> nat -> B) (xs : list A) (i : nat) :
  (forall x j, g (f x j) = h x) ->
  map g (mapi_from i f xs) = map h xs.
Proof.
  intros E. revert i. induction xs as [|x xs IH]; intros i;
    cbn [mapi_from map]; [reflexivity|].
  now rewrite E, IH.
Qed.

(** X22.  The weekly plan is the beginning of the meal plan made without
    preferences, in the same order.  With a meal count [k] from 0 on it
    has [k] meals or all of them when there are fewer, so none for 0;
    with a negative [k] it leaves out the last [-k] meals.  Without
    meals the shopping list is empty. *)
Theorem weekly_plan_follows_meal_plan (inventory : list InventoryItem.t)
    (mealCount : option Z) (r : WeeklyMealPlan)
    (H : generateWeeklyMealPlan inventory mealCount = Ok r) :
  exists p,
    generateMealPlan inventory [] = Ok p
    /\ let k := match mealCount with Some n => n | None => 7%Z end in
       let planned := firstn (totalMeals r) (mealPlan p) in
       map meal (weeklyPlan r) = map (fun m => recipe (scored m)) planned
       /\ map day_focusItem (weeklyPlan r) = map focusItem planned
       /\ ((0 <= k)%Z ->
           totalMeals r = Nat.min (Z.to_nat k) (List.length (mealPlan p)))
       /\ ((k < 0)%Z ->
           totalMeals r
           = (List.length (mealPlan p) - Z.to_nat (- k))%nat)
       /\ (totalMeals r = 0%nat -> weeklyPlan r = [] /\ shoppingList r = []).
Proof.
  destruct (generateWeeklyMealPlan_Ok _ _ _ H)
    as (p & selected & Hp & Hsel & Hw & Hs & Ht).
  exists p. split; [exact Hp|]. cbv zeta.
  set (k := match mealCount with Some n => n | None => 7%Z end) in *.
  assert (P : firstn (totalMeals r) (mealPlan p) = selected).
  { rewrite Ht, Hsel. unfold slice0. apply firstn_length_firstn. }
  rewrite P, Hw. split; [|split; [|split; [|split]]].
  - now apply map_mapi_from.
  - now apply map_mapi_from.
  - intros K. rewrite Ht, Hsel, slice0_nonneg by exact K.
    apply length_firstn.
  - intros K. rewrite Ht, Hsel. unfold slice0. rewrite length_firstn.
    destruct (Z.ltb_spec k 0); lia.
  - intros Z0. rewrite Ht in Z0. rewrite Hs.
    destruct selected; [split; reflexivity | discriminate Z0].
Qed.

(** *** More stock *)

Lemma filter_length_mono {A : Type} (f g : A -> bool) (xs : list A) :
  (forall x, f x = true -> g x = true) ->
  (List.length (filter f xs) <= List.length (filter g xs))%nat.
Proof.
  intros I. induction xs as [|x xs IH]; cbn [filter]; [lia|].
  destruct (f x) eqn:F.
  - rewrite (I x F). cbn [List.length]. lia.
  - destruct (g x); cbn [List.length]; lia.
Qed.

Lemma names_incl (inventory larger : list InventoryItem.t)
    (names names' : list string) :
  (forall item, In item inventory -> In item larger) ->
  map InventoryItem.name inventory = map Some names ->
  map InventoryItem.name larger = map Some names' ->
  forall n, In n names -> In n names'.
Proof.
  intros I N N' n Hn.
  assert (S : In (Some n) (map InventoryItem.name inventory))
    by (rewrite N; now apply in_map).
  apply in_map_iff in S. destruct S as (item & E & Hin).
  assert (S' : In (Some n) (map InventoryItem.name larger))
    by (rewrite <- E; apply in_map; now apply I).
  rewrite N' in S'. apply in_map_iff in S'.
  destruct S' as (n' & E' & Hin'). now injection E' as ->.
Qed.

(** X23.  More stock never lowers a match: when every item of one
    inventory is in another, each ingredient matched by the first is
    matched by the second, each ingredient the second lacks the first
    lacks too, and for a recipe with ingredients the match score for
    the second is at least the score for the first. *)
Theorem more_stock_never_lowers_match (recipe : Recipe.t)
    (inventory larger : list InventoryItem.t) (r r' : ScoredRecipe)
    (Hsub : forall item, In item inventory -> In item larger)
    (H : scoreRecipeMatch recipe inventory = Ok r)
    (H' : scoreRecipeMatch recipe larger = Ok r') :
  (forall ing, In ing (matchedIngredients r) -> In ing (matchedIngredients r'))
  /\ (forall ing,
         In ing (missingIngredients r') -> In ing (missingIngredients r))
  /\ (List.length (matchedIngredients r)
      <= List.length (matchedIngredients r'))%nat
  /\ (Recipe.ingredients recipe <> [] ->
      le (matchScore r) (matchScore r') = true).
Proof.
  destruct (scoreRecipeMatch_Ok_names _ _ _ H) as [names N].
  destruct (scoreRecipeMatch_Ok_names _ _ _ H') as [names' N'].
  pose proof (names_incl _ _ _ _ Hsub N N') as I.
  rewrite (scoreRecipeMatch_named recipe inventory names N) in H.
  rewrite (scoreRecipeMatch_named recipe larger names' N') in H'.
  cbv zeta in H, H'. apply Ok_inj in H. apply Ok_inj in H'.
  rewrite <- H, <- H'.
  cbn [matchedIngredients missingIngredients matchScore].
  set (ings := Recipe.ingredients recipe).
  assert (M : forall ing,
             inInventory (map toLowerCase names) ing = true ->
             inInventory (map toLowerCase names') ing = true).
  { intros ing. rewrite !inInventory_held.
    intros (n & Hn & Ho). exists n. split; [now apply I | exact Ho]. }
  pose proof (filter_length_mono _ _ ings M) as L.
  split; [|split; [|split]].
  - intros ing. rewrite !filter_In. intros [Hin Hm]. split; [exact Hin|].
    now apply M.
  - intros ing. rewrite !filter_In. intros [Hin Hm]. split; [exact Hin|].
    destruct (inInventory (map toLowerCase names) ing) eqn:E;
      [|reflexivity].
    rewrite (M ing E) in Hm. discriminate Hm.
  - exact L.
  - intros Hne.
    assert (T : (0 < List.length ings)%nat)
      by (destruct ings; [congruence | simpl; lia]).
    rewrite !(matchScore_integer _ _ T), le_ofZ. apply Z.leb_le.
    apply Z.div_le_mono; lia.
Qed.

(** *** The focus item *)

Lemma ownProperty_keys (key : string) (listed : list Recipe.t) :
  ownProperty key recipeDatabase = Some listed ->
  In key ["yogurt"; "carrots"; "rice"; "apples"]
  /\ forall recipe, In recipe listed -> In key (Recipe.ingredients recipe).
Proof.
  assert (K : forallb
                (fun entry =>
                   forallb
                     (fun recipe =>
                        array_includes (Recipe.ingredients recipe)
                                       (fst entry))
                     (snd entry))
                recipeDatabase = true) by reflexivity.
  assert (G : forall db,
             forallb
               (fun entry =>
                  forallb
                    (fun recipe =>
                       array_includes (Recipe.ingredients recipe)
                                      (fst entry))
                    (snd entry))
               db = true ->
             ownProperty key db = Some listed ->
             In key (map fst db)
             /\ forall recipe, In recipe listed ->
                               In key (Recipe.ingredients recipe)).
  { induction db as [|[k v] db IH]; cbn [forallb ownProperty map fst snd];
      [discriminate|].
    intros F. apply andb_true_iff in F. destruct F as [Fv Fdb].
    destruct (String.eqb_spec k key) as [->|_].
    - intros E. injection E as <-. split; [now left|].
      intros recipe Hin. rewrite forallb_forall in Fv.
      specialize (Fv recipe Hin). unfold array_includes in Fv.
      apply existsb_exists in Fv. destruct Fv as (ing & Hing & E).
      apply String.eqb_eq in E. now subst ing.
    - intros E. destruct (IH Fdb E) as [I1 I2]. split; [now right|exact I2]. }
  intros E. exact (G recipeDatabase K E).
Qed.

Lemma occursIn_itself (s : string) : occursIn s s.
Proof.
  exists "", "". cbn [append].
  induction s as [|c s IH]; [reflexivity|]. cbn [append]. now f_equal.
Qed.

(** X24.  Only the items named yogurt, carrots, rice or apples, letter
    case aside, bring meals into a plan: the focus item of every meal
    has one of these names, and is itself one of the matched ingredients
    of the meal.  An inventory without such an item gets an empty
    plan. *)
Theorem plan_meals_use_their_focus_item (inventory : list InventoryItem.t)
    (preferences : list string) (p : MealPlan)
    (H : generateMealPlan inventory preferences = Ok p) :
  let keys := ["yogurt"; "carrots"; "rice"; "apples"] in
  (forall meal,
      In meal (mealPlan p) ->
      In (toLowerCase (focusItem meal)) keys
      /\ In (toLowerCase (focusItem meal)) (matchedIngredients (scored meal)))
  /\ ((forall item n,
          In item inventory -> InventoryItem.name item = Some n ->
          ~ In (toLowerCase n) keys) ->
      totalRecommendations p = 0%nat /\ mealPlan p = []).
Proof.
  cbv zeta.
  assert (B : forall meal,
             builtFrom inventory meal ->
             In (toLowerCase (focusItem meal))
                ["yogurt"; "carrots"; "rice"; "apples"]
             /\ In (toLowerCase (focusItem meal))
                   (matchedIngredients (scored meal))
             /\ exists item,
                  In item inventory
                  /\ InventoryItem.name item = Some (focusItem meal)).
  { intros meal (item & n & listed & Hi & Hn & Ho & Hr & Hs & _ & _ & Hf).
    rewrite Hf. destruct (ownProperty_keys _ _ Ho) as [K I].
    split; [exact K|]. split; [|now exists item].
    destruct (scoreRecipeMatch_Ok_names _ _ _ Hs) as [names N].
    pose proof Hs as Hs'.
    rewrite (scoreRecipeMatch_named _ inventory names N) in Hs'.
    cbv zeta in Hs'. apply Ok_inj in Hs'. rewrite <- Hs'.
    cbn [matchedIngredients]. apply filter_In. split; [now apply I|].
    apply inInventory_held. exists n. split.
    - assert (S : In (Some n) (map InventoryItem.name inventory))
        by (rewrite <- Hn; now apply in_map).
      rewrite N in S. apply in_map_iff in S.
      destruct S as (n' & E & Hin). now injection E as ->.
    - assert (L : toLowerCase (toLowerCase n) = toLowerCase n).
      { cbn [In] in K.
        destruct K as [<-|[<-|[<-|[<-|[]]]]]; reflexivity. }
      rewrite L. apply occursIn_itself. }
  split.
  - intros meal Hin. destruct (B meal (plan_built _ _ _ _ H Hin)) as (K & M & _).
    now split.
  - intros None.
    destruct (plan_shape _ _ _ H) as (meals & Bm & _ & T & E).
    destruct meals as [|meal meals]; [rewrite T, E; split; reflexivity|].
    exfalso. inversion Bm as [|? ? Bmeal _]; subst.
    destruct (B meal Bmeal) as (K & _ & item & Hi & Hn).
    exact (None item (focusItem meal) Hi Hn K).
Qed.

End Plan.

(** *** The sample pantry *)

Lemma pantry_plan :
  exists p meal rest,
    generateMealPlan (rt := Reference.runtime) Samples.pantry [] = Ok p
    /\ mealPlan p = meal :: rest.
Proof. vm_compute. do 3 eexists. split; reflexivity. Qed.

Lemma pantry_weekly_plan :
  exists r day rest,
    generateWeeklyMealPlan (rt := Reference.runtime) Samples.pantry None = Ok r
    /\ weeklyPlan r = day :: rest.
Proof. vm_compute. do 3 eexists. split; reflexivity. Qed.

Lemma plan_meals_come_from_inventory_witness :
  exists p meal,
    generateMealPlan (rt := Reference.runtime) Samples.pantry [] = Ok p
    /\ In meal (mealPlan p)
    /\ exists item,
         In item Samples.pantry
         /\ InventoryItem.name item = Some (focusItem meal)
         /\ urgency meal
            = calculateUrgency (rt := Reference.runtime)
                (InventoryItem.daysLeft item).
Proof.
  destruct pantry_plan as (p & meal & rest & Hp & Hm).
  assert (Hin : In meal (mealPlan p)) by (rewrite Hm; now left).
  exists p, meal. split; [exact Hp|]. split; [exact Hin|].
  destruct (plan_meals_come_from_inventory _ _ _ _ Hp Hin)
    as (item & listed & H1 & H2 & H3 & _).
  exists item. repeat split; assumption.
Defined.

Lemma plan_meals_match_half_witness :
  exists p meal,
    generateMealPlan (rt := Reference.runtime) Samples.pantry [] = Ok p
    /\ In meal (mealPlan p)
    /\ exists z : Z, matchScore (scored meal) = ofZ z /\ (50 <= z <= 100)%Z.
Proof.
  destruct pantry_plan as (p & meal & rest & Hp & Hm).
  assert (Hin : In meal (mealPlan p)) by (rewrite Hm; now left).
  exists p, meal. split; [exact Hp|]. split; [exact Hin|].
  destruct (plan_meals_match_half _ _ _ _ Hp Hin) as (z & Hz & Hb & _).
  exists z. split; assumption.
Defined.

Lemma plan_is_ordered_witness :
  exists p,
    generateMealPlan (rt := Reference.runtime) Samples.pantry [] = Ok p
    /\ StronglySorted precedes (mealPlan p).
Proof.
  destruct pantry_plan as (p & meal & rest & Hp & Hm).
  exists p. split; [exact Hp|]. exact (plan_is_ordered _ _ _ Hp).
Defined.

Lemma plan_counts_witness :
  exists p,
    generateMealPlan (rt := Reference.runtime) Samples.pantry [] = Ok p
    /\ List.length (mealPlan p) = Nat.min 5 (totalRecommendations p)
    /\ (totalRecommendations p <= 3 * List.length Samples.pantry)%nat.
Proof.
  destruct pantry_plan as (p & meal & rest & Hp & Hm).
  exists p. split; [exact Hp|].
  destruct (plan_counts _ _ _ Hp) as (H1 & H2 & _). split; assumption.
Defined.

Lemma plan_fails_exactly_when_witness :
  generateMealPlan (rt := Reference.runtime)
    (Samples.nameless :: Samples.pantry) ["Vegan"] = Throw TypeError
  /\ generateWeeklyMealPlan (rt := Reference.runtime)
       (Samples.nameless :: Samples.pantry) (Some 3%Z) = Throw TypeError.
Proof.
  pose proof (plan_fails_exactly_when (rt := Reference.runtime)
                (Samples.nameless :: Samples.pantry) ["Vegan"] (Some 3%Z))
    as W.
  cbv zeta in W. destruct W as ([_ T] & _ & [_ T'] & _).
  assert (B : exists item,
             In item (Samples.nameless :: Samples.pantry)
             /\ (InventoryItem.name item = None
                 \/ exists n, InventoryItem.name item = Some n
                              /\ (toLowerCase n = "constructor"
                                  \/ toLowerCase n = "__proto__"))).
  { exists Samples.nameless. split; [now left|]. left. reflexivity. }
  split; [exact (T B) | exact (T' B)].
Defined.

Lemma planned_meals_resolve_witness :
  exists p meal,
    generateMealPlan (rt := Reference.runtime) Samples.pantry [] = Ok p
    /\ In meal (mealPlan p)
    /\ success (getRecipeDetails (recipe (scored meal))) = true.
Proof.
  destruct pantry_plan as (p & meal & rest & Hp & Hm).
  assert (Hin : In meal (mealPlan p)) by (rewrite Hm; now left).
  exists p, meal. split; [exact Hp|]. split; [exact Hin|].
  destruct (planned_meals_resolve (rt := Reference.runtime)
              Samples.pantry [] None) as [R _].
  now rewrite (R p meal Hp Hin).
Defined.

Lemma shopping_list_counts_missing_witness :
  exists r,
    generateWeeklyMealPlan (rt := Reference.runtime) Samples.pantry None = Ok r
    /\ NoDup (map shop_item (shoppingList r))
    /\ forall e, In e (shoppingList r) -> (1 <= shop_quantity e)%Z.
Proof.
  destruct pantry_weekly_plan as (r & d & rest & Hr & _).
  exists r. split; [exact Hr|].
  destruct (shopping_list_counts_missing _ _ _ Hr)
    as (p & names & _ & _ & N & _ & Q).
  split; [exact N|]. intros e He. now destruct (Q e He) as (_ & L & _).
Defined.

Lemma scoreRecipeMatch_edge_cases_witness :
  scoreRecipeMatch Samples.friedRice [Samples.nameless] = Throw TypeError.
Proof.
  destruct (scoreRecipeMatch_edge_cases Samples.friedRice [Samples.nameless])
    as ([_ T] & _).
  apply T. exists Samples.nameless. split; [now left | reflexivity].
Defined.

Lemma calculateUrgency_any_value_witness :
  (calculateUrgency (rt := Reference.runtime) (VNum (fin 2.5))
   <= calculateUrgency (rt := Reference.runtime) (VStr "1"))%Z
  /\ calculateUrgency (rt := Reference.runtime) (VStr "soon") = 20%Z.
Proof.
  destruct (calculateUrgency_any_value (rt := Reference.runtime)
              (VStr "1") (VNum (fin 2.5))) as (_ & _ & _ & M & _).
  destruct (calculateUrgency_any_value (rt := Reference.runtime)
              (VStr "soon") VUndef) as (_ & N & _).
  split; [apply M | apply N]; reflexivity.
Defined.

Lemma weekly_plan_follows_meal_plan_witness :
  exists r p,
    generateWeeklyMealPlan (rt := Reference.runtime) Samples.pantry None = Ok r
    /\ generateMealPlan (rt := Reference.runtime) Samples.pantry [] = Ok p
    /\ map meal (weeklyPlan r)
       = map (fun m => recipe (scored m))
           (firstn (totalMeals r) (mealPlan p)).
Proof.
  destruct pantry_weekly_plan as (r & d & rest & Hr & _).
  destruct (weekly_plan_follows_meal_plan _ _ _ Hr) as (p & Hp & M & _).
  exists r, p. split; [exact Hr|]. split; [exact Hp | exact M].
Defined.

Lemma more_stock_never_lowers_match_witness :
  exists r r',
    scoreRecipeMatch Samples.friedRice [Samples.stocked "rice" 3] = Ok r
    /\ scoreRecipeMatch Samples.friedRice Samples.riceAndEggs = Ok r'
    /\ le (matchScore r) (matchScore r') = true.
Proof.
  assert (E : exists r r',
             scoreRecipeMatch Samples.friedRice [Samples.stocked "rice" 3]
             = Ok r
             /\ scoreRecipeMatch Samples.friedRice Samples.riceAndEggs
                = Ok r')
    by (vm_compute; do 2 eexists; split; reflexivity).
  destruct E as (r & r' & Hr & Hr'). exists r, r'.
  split; [exact Hr|]. split; [exact Hr'|].
  assert (S : forall item,
             In item [Samples.stocked "rice" 3] ->
             In item Samples.riceAndEggs)
    by (intros item [<-|[]]; now left).
  destruct (more_stock_never_lowers_match _ _ _ _ _ S Hr Hr')
    as (_ & _ & _ & L).
  apply L. discriminate.
Defined.

Lemma plan_meals_use_their_focus_item_witness :
  exists p meal,
    generateMealPlan (rt := Reference.runtime) Samples.pantry [] = Ok p
    /\ In meal (mealPlan p)
    /\ In (toLowerCase (focusItem meal)) (matchedIngredients (scored meal)).
Proof.
  destruct pantry_plan as (p & meal & rest & Hp & Hm).
  assert (Hin : In meal (mealPlan p)) by (rewrite Hm; now left).
  exists p, meal. split; [exact Hp|]. split; [exact Hin|].
  destruct (plan_meals_use_their_focus_item _ _ _ Hp) as [U _].
  now destruct (U meal Hin).
Defined.

End PlanProofs.

(** ** The scores of a history and the profile *)

Module ProfileProofs.
Import JS JSFacts Analytics WasteSpec NutritionSpec InsightSpec MatchSpec
  SDGScoreProofs WasteProofs NutritionProofs InsightProofs MealPlanProofs.
Local Open Scope Z_scope.

(** *** Counting by status *)

Lemma wasted_and_consumed (history : list LogEntry.t) :
  countStatus "wasted" history + countStatus "consumed" history
  <= Z.of_nat (List.length history).
Proof.
  unfold countStatus. induction history as [|e history IH];
    cbn [filter List.length]; [lia|].
  destruct (has_status "wasted" e) eqn:W, (has_status "consumed" e) eqn:C;
    cbn [List.length]; try lia.
  unfold has_status in W, C. apply String.eqb_eq in W, C.
  rewrite W in C. discriminate C.
Qed.

Lemma filter_perm {A : Type} (f : A -> bool) (xs ys : list A) :
  Permutation xs ys -> Permutation (filter f xs) (filter f ys).
Proof.
  induction 1 as [|x xs ys _ IH|x y xs|xs ys zs _ IH1 _ IH2]; cbn [filter].
  - constructor.
  - destruct (f x); [now constructor | exact IH].
  - destruct (f x), (f y); try apply Permutation_refl. apply perm_swap.
  - now apply (perm_trans IH1).
Qed.

Lemma countStatus_perm (s : string) (xs ys : list LogEntry.t) :
  Permutation xs ys -> countStatus s xs = countStatus s ys.
Proof.
  intros P. unfold countStatus. f_equal.
  now apply Permutation_length, filter_perm.
Qed.

Lemma countStatus_split (s : string) (k : nat) (history : list LogEntry.t) :
  countStatus s history
  = countStatus s (firstn k history) + countStatus s (skipn k history).
Proof.
  unfold countStatus. rewrite <- (firstn_skipn k history) at 1.
  rewrite filter_app, length_app. lia.
Qed.

Lemma countStatus_pos (s : string) (history : list LogEntry.t) :
  0 < countStatus s history
  <-> exists e, In e history /\ LogEntry.status e = s.
Proof.
  unfold countStatus. split.
  - intros H. destruct (filter (has_status s) history) as [|e l] eqn:F;
      [simpl in H; lia|].
    assert (Hin : In e (filter (has_status s) history))
      by (rewrite F; now left).
    apply filter_In in Hin. destruct Hin as [Hin Hs].
    exists e. split; [exact Hin|]. now apply String.eqb_eq.
  - intros (e & Hin & Hs).
    assert (F : In e (filter (has_status s) history)).
    { apply filter_In. split; [exact Hin|]. now apply String.eqb_eq. }
    destruct (filter (has_status s) history); [destruct F | simpl; lia].
Qed.

Lemma baseline_consumed (entries : list LogEntry.t) :
  consumedCount (calculateSDGScore (Some entries))
  = countStatus "consumed" entries.
Proof. destruct entries; reflexivity. Qed.

Lemma baseline_total (entries : list LogEntry.t) :
  totalItems (calculateSDGScore (Some entries))
  = Z.of_nat (List.length entries).
Proof. destruct entries; reflexivity. Qed.

(** X13.  The score of [calculateSDGScore] lies between 0 and 100 for
    every history.  The wasted and the consumed entries together are no
    more than all entries.  A history with an entry scores 100 when all
    of it was consumed and 0 when none was, and its success rate is its
    score; a history without entries scores 50 with the success rate 0. *)
Theorem sdgScore_bounds_and_extremes (history : option (list LogEntry.t)) :
  let m := calculateSDGScore history in
  0 <= sdgScore m <= 100
  /\ 0 <= wastedCount m /\ 0 <= consumedCount m
  /\ wastedCount m + consumedCount m <= totalItems m
  /\ (0 < totalItems m -> sdgScore m = successRate m)
  /\ (0 < totalItems m -> consumedCount m = totalItems m -> sdgScore m = 100)
  /\ (0 < totalItems m -> consumedCount m = 0 -> sdgScore m = 0)
  /\ (totalItems m = 0 -> sdgScore m = 50 /\ successRate m = 0).
Proof.
  cbv zeta. split; [apply sdgScore_in_range|].
  destruct history as [[|e h]|];
    try (cbn; repeat split; intros; lia).
  rewrite (calculateSDGScore_nonempty (e :: h)) by discriminate.
  cbv zeta. cbn [sdgScore successRate wastedCount consumedCount totalItems].
  pose proof (countStatus_bounds "wasted" (e :: h)) as Bw.
  pose proof (countStatus_bounds "consumed" (e :: h)) as Bc.
  pose proof (wasted_and_consumed (e :: h)) as S.
  assert (T : 0 < Z.of_nat (List.length (e :: h))) by (simpl; lia).
  revert Bw Bc S T.
  generalize (countStatus "wasted" (e :: h)) as w.
  generalize (countStatus "consumed" (e :: h)) as c.
  generalize (Z.of_nat (List.length (e :: h))) as t.
  intros t c w Bw Bc S T.
  rewrite round_percentage by exact T.
  split; [lia|]. split; [lia|]. split; [lia|]. split; [reflexivity|].
  split; [|split].
  - intros _ ->. symmetry. apply (Z.div_unique _ _ _ t); lia.
  - intros _ ->. apply Z.div_small. lia.
  - lia.
Qed.

Lemma countsOf_perm (xs ys : list LogEntry.t) :
  Permutation xs ys -> countsOf xs = countsOf ys.
Proof.
  intros P. unfold countsOf, countIn.
  f_equal; now apply Permutation_length, filter_perm.
Qed.

(** X14.  The scores do not depend on the order of the history: two
    histories with the same entries give the same SDG metrics and the
    same nutrition metrics. *)
Theorem scores_ignore_order (history reordered : list LogEntry.t)
    (H : Permutation history reordered) :
  calculateSDGScore (Some history) = calculateSDGScore (Some reordered)
  /\ calculateNutritionScore (Some history)
     = calculateNutritionScore (Some reordered).
Proof.
  destruct history as [|e h], reordered as [|e' h'].
  - split; reflexivity.
  - now apply Permutation_nil_cons in H.
  - apply Permutation_sym in H. now apply Permutation_nil_cons in H.
  - split.
    + rewrite !calculateSDGScore_nonempty by discriminate. cbv zeta.
      now rewrite (countStatus_perm "wasted" _ _ H),
        (countStatus_perm "consumed" _ _ H), (Permutation_length H).
    + unfold calculateNutritionScore.
      fold (consumedOf (e :: h)). fold (consumedOf (e' :: h')).
      cbv zeta. fold noCounts. rewrite !categorize_countsOf.
      assert (P : Permutation (consumedOf (e :: h)) (consumedOf (e' :: h')))
        by now apply filter_perm.
      now rewrite (countsOf_perm _ _ P), (Permutation_length P).
Qed.

Lemma scores_ignore_order_witness :
  calculateSDGScore (Some (rev Samples.threeAndThree))
  = calculateSDGScore (Some Samples.threeAndThree)
  /\ calculateNutritionScore (Some (rev Samples.threeAndThree))
     = calculateNutritionScore (Some Samples.threeAndThree).
Proof.
  apply (scores_ignore_order (rev Samples.threeAndThree)
           Samples.threeAndThree).
  apply Permutation_sym, Permutation_rev.
Defined.

(** *** Nutrition *)

Lemma countsOf_total (entries : list LogEntry.t) :
  (fruits (countsOf entries) + vegetables (countsOf entries)
   + proteins (countsOf entries) + grains (countsOf entries)
   + dairy (countsOf entries) <= List.length entries)%nat.
Proof.
  unfold countsOf. cbn [fruits vegetables proteins grains dairy].
  induction entries as [|e entries IH]; [unfold countIn; simpl; lia|].
  rewrite !countIn_cons. unfold isIn.
  destruct (firstCategory (nameOf e)) as [[]|];
    cbn [sameCategory List.length]; lia.
Qed.

Lemma nutrition_counts (history : list LogEntry.t) :
  categories (calculateNutritionScore (Some history))
  = countsOf (consumedOf history)
  /\ totalConsumed (calculateNutritionScore (Some history))
     = List.length (consumedOf history).
Proof.
  destruct history as [|e h]; [split; reflexivity|].
  unfold calculateNutritionScore. fold (consumedOf (e :: h)).
  cbv zeta. fold noCounts. rewrite categorize_countsOf.
  split; reflexivity.
Qed.

Lemma suggestions_some (history : option (list LogEntry.t)) :
  suggestions (calculateNutritionScore history) <> []
  /\ (List.length (suggestions (calculateNutritionScore history)) <= 5)%nat.
Proof.
  destruct history as [[|e h]|];
    try (split; [discriminate | simpl; lia]).
  unfold calculateNutritionScore. cbv zeta. cbn [suggestions].
  repeat match goal with
         | |- context [pushIf ?c _] => destruct c; cbn [pushIf]
         end;
    cbn [app List.length]; split; try discriminate; lia.
Qed.

(** X15.  In the result of [calculateNutritionScore] the five counts
    together are at most [totalConsumed], which is the number of consumed
    entries of the history.  There is always at least one suggestion and
    never more than five, so the first suggestion, which a recommendation
    quotes, exists.  With an empty history, or with a consumed entry, the
    score is an integer from 0 to 100. *)
Theorem nutrition_counts_and_suggestions (history : list LogEntry.t) :
  let m := calculateNutritionScore (Some history) in
  let c := categories m in
  (fruits c + vegetables c + proteins c + grains c + dairy c
   <= totalConsumed m)%nat
  /\ Z.of_nat (totalConsumed m) = countStatus "consumed" history
  /\ (totalConsumed m <= List.length history)%nat
  /\ (1 <= List.length (suggestions m) <= 5)%nat
  /\ In (firstSuggestion (suggestions m)) (suggestions m)
  /\ (history = [] \/ (exists e, In e history /\ LogEntry.status e = "consumed")
      -> exists z, nutritionScore m = ofZ z /\ 0 <= z <= 100).
Proof.
  cbv zeta. destruct (nutrition_counts history) as [-> ->].
  destruct (suggestions_some (Some history)) as [Sn Sl].
  split; [apply countsOf_total|]. split; [reflexivity|].
  split; [apply filter_length_le|]. split; [|split].
  - destruct (suggestions (calculateNutritionScore (Some history)));
      [congruence | simpl in *; lia].
  - destruct (suggestions (calculateNutritionScore (Some history)));
      [congruence | now left].
  - intros Hc. apply nutritionScore_in_range.
    intros h Eh Hne. injection Eh as <-.
    destruct Hc as [->|Hc]; [congruence|].
    apply countStatus_pos in Hc. unfold countStatus in Hc.
    unfold consumedOf. destruct (filter _ history); [simpl in Hc; lia|].
    discriminate.
Qed.

Section Profile.
Context {rt : Runtime}.

(** *** The insights of the profile *)

Lemma insights_of_whole_history (history : list LogEntry.t) :
  let r := generateWeeklyInsights history (calculateSDGScore (Some history)) in
  let laterHalf := skipn ((List.length history + 1) / 2) history in
  wasteReduction r = - countStatus "wasted" laterHalf
  /\ weeklyChange r
     = sdgScore (calculateSDGScore (Some history))
       - sdgScore (calculateSDGScore (Some (earlierHalf history)))
  /\ existsb (prefix "✅") (insights r) = false
  /\ existsb isWasteLine (insights r)
     = (0 <? countStatus "wasted" laterHalf)
  /\ existsb isConsumptionLine (insights r)
     = (0 <? countStatus "consumed" laterHalf).
Proof.
  cbv zeta. unfold generateWeeklyInsights, earlierHalf.
  rewrite ceil_half, slice0_nonneg by lia. rewrite Nat2Z.id.
  set (k := ((List.length history + 1) / 2)%nat).
  rewrite baseline_wasted, !baseline_consumed.
  cbn [weeklyChange wasteReduction insights].
  rewrite (countStatus_split "wasted" k history),
    (countStatus_split "consumed" k history).
  pose proof (countStatus_bounds "wasted" (skipn k history)) as Bw.
  pose proof (countStatus_bounds "consumed" (skipn k history)) as Bc.
  revert Bw Bc.
  generalize (countStatus "wasted" (skipn k history)) as w'.
  generalize (countStatus "consumed" (skipn k history)) as c'.
  generalize (countStatus "wasted" (firstn k history)) as w.
  generalize (countStatus "consumed" (firstn k history)) as c.
  generalize (sdgScore (calculateSDGScore (Some (firstn k history)))) as s.
  generalize (sdgScore (calculateSDGScore (Some history))) as s'.
  intros s' s c w c' w' Bw Bc. rewrite !Z.gtb_ltb.
  split; [lia|]. split; [reflexivity|].
  destruct (Z.ltb_spec 0 (w - (w + w'))) as [L|_]; [lia|].
  destruct (Z.ltb_spec (w - (w + w')) 0), (Z.ltb_spec 0 w'); try lia;
    destruct (Z.ltb_spec c (c + c')), (Z.ltb_spec 0 c'); try lia;
    destruct (0 <? s' - s), (s' - s <? 0); repeat split.
Qed.

Lemma profile_parts (history : list LogEntry.t)
    (inventory : list InventoryItem.t) (todayString : option string)
    (profile : SDGProfile) :
  generateCompleteSDGProfile history inventory todayString = Ok profile ->
  calculateWasteMetrics history inventory todayString = Ok (waste profile)
  /\ metrics profile = calculateSDGScore (Some history)
  /\ nutrition profile = calculateNutritionScore (Some history)
  /\ weeklyInsights profile
     = generateWeeklyInsights history (calculateSDGScore (Some history))
  /\ profile_recommendations profile
     = generateActionableRecommendations (calculateSDGScore (Some history))
         (calculateNutritionScore (Some history))
  /\ personalSDGScore profile = sdgScore (calculateSDGScore (Some history))
  /\ waste_successRate profile
     = successRate (calculateSDGScore (Some history))
  /\ scoreInterpretation profile
     = interpretSDGScore (sdgScore (calculateSDGScore (Some history))).
Proof.
  unfold generateCompleteSDGProfile.
  destruct (calculateWasteMetrics history inventory todayString) as [w|e];
    [|discriminate].
  cbn [bind]. intros E. apply Ok_inj in E. rewrite <- E. repeat split.
Qed.


(** *** The estimated score *)

(** X17.  For the metrics of any history, whatever the nutrition metrics
    are, the estimated new score is an integer that is never below the
    current score, at most 30 above it, and at most 100; the potential
    improvement is an integer from 0 to 30. *)
Theorem estimated_score_never_lower (history : option (list LogEntry.t))
    (nutritionMetrics : NutritionMetrics) :
  let m := calculateSDGScore history in
  let r := generateActionableRecommendations m nutritionMetrics in
  exists k e : Z,
    potentialImprovement r = ofZ k
    /\ estimatedNewScore r = ofZ e
    /\ 0 <= k <= 30
    /\ e = Z.min (sdgScore m + k) 100
    /\ sdgScore m <= e <= 100
    /\ e <= sdgScore m + 30
    /\ (sdgScore m = 100 -> e = 100).
Proof.
  cbv zeta.
  destruct (RecommendationProofs.improvement_integer
              (calculateSDGScore history) nutritionMetrics)
    as (k & Hk & Hp & He).
  cbv zeta in Hp, He.
  pose proof (sdgScore_in_range history) as B.
  exists k, (Z.min (sdgScore (calculateSDGScore history) + k) 100).
  repeat split; try assumption; lia.
Qed.

(** *** When the waste metrics fail *)

Lemma string_price_or_not (history : list LogEntry.t) :
  pricesAddUp history
  \/ exists e s,
       In e history /\ has_status "wasted" e = true
       /\ LogEntry.price e = VStr s.
Proof.
  induction history as [|e history [P|(e' & s & Hin & Hw & Hp)]].
  - left. intros e s [].
  - destruct (has_status "wasted" e) eqn:W.
    + destruct (LogEntry.price e) as [|x|s] eqn:Pr.
      * left. intros e0 s0 [<-|Hin] Hw Hp; [congruence|].
        exact (P e0 s0 Hin Hw Hp).
      * left. intros e0 s0 [<-|Hin] Hw Hp; [congruence|].
        exact (P e0 s0 Hin Hw Hp).
      * right. exists e, s. split; [now left|]. now split.
    + left. intros e0 s0 [<-|Hin] Hw Hp; [congruence|].
      exact (P e0 s0 Hin Hw Hp).
  - right. exists e', s. split; [now right|]. now split.
Qed.

(** X18.  [calculateWasteMetrics] fails exactly when a wasted entry of
    the history has a string for a price, and then with a [TypeError];
    the inventory and the date play no part in that.
    [generateCompleteSDGProfile] fails in exactly the same cases. *)
Theorem waste_metrics_fail_exactly_when (history : list LogEntry.t)
    (inventory : list InventoryItem.t) (todayString : option string) :
  let stringPrice :=
    exists e s,
      In e history /\ has_status "wasted" e = true
      /\ LogEntry.price e = VStr s in
  (calculateWasteMetrics history inventory todayString = Throw TypeError
   <-> stringPrice)
  /\ ((exists r, calculateWasteMetrics history inventory todayString = Ok r)
      <-> ~ stringPrice)
  /\ (generateCompleteSDGProfile history inventory todayString
      = Throw TypeError <-> stringPrice)
  /\ ((exists profile,
          generateCompleteSDGProfile history inventory todayString
          = Ok profile)
      <-> ~ stringPrice).
Proof.
  cbv zeta.
  set (stringPrice := exists e s, In e history /\ _).
  assert (W : (calculateWasteMetrics history inventory todayString
               = Throw TypeError /\ stringPrice)
              \/ ((exists r, calculateWasteMetrics history inventory
                               todayString = Ok r) /\ ~ stringPrice)).
  { destruct (string_price_or_not history) as [P|S].
    - right. split.
      + rewrite (calculateWasteMetrics_numbers _ _ _ P). cbv zeta. eauto.
      + intros (e & s & Hin & Hw & Hp). exact (P e s Hin Hw Hp).
    - left. split; [|exact S]. destruct S as (e & s & Hin & Hw & Hp).
      now apply (InputProofs.calculateWasteMetrics_string_price _ _ _ e s). }
  unfold generateCompleteSDGProfile.
  destruct W as [[T S]|[[r R] N]].
  - rewrite T. cbn [bind].
    repeat split; try tauto; try (intros [x X]; discriminate X).
  - rewrite R. cbn [bind].
    repeat split; try tauto; try discriminate; intros _; eauto.
Qed.

(** *** The items at risk *)

Lemma highRisk_days (x : jsnum) :
  highRisk (Math_ceil x) = true ->
  Math_ceil x = ofZ 1 \/ Math_ceil x = ofZ 2.
Proof.
  destruct x as [q| | |]; cbn [Math_ceil];
    [|intros D; discriminate D ..].
  rewrite highRisk_integer, andb_true_iff, Z.leb_le, Z.ltb_lt.
  intros [L G].
  assert (C : Qceiling q = 1 \/ Qceiling q = 2) by lia.
  destruct C as [->| ->]; [now left | now right].
Qed.

Lemma no_date_no_risk (item : InventoryItem.t) : atRisk NaN item = false.
Proof.
  unfold atRisk, daysLeftOn.
  now destruct (new_Date (InventoryItem.expiry item)).
Qed.

Lemma calculateWasteMetrics_Ok (history : list LogEntry.t)
    (inventory : list InventoryItem.t) (todayString : option string)
    (r : WasteMetrics) :
  calculateWasteMetrics history inventory todayString = Ok r ->
  let today := referenceDate todayString in
  let risky := filter (atRisk today) inventory in
  riskItems r = map (riskItemOf today) risky
  /\ riskItemNames r = map risk_name (riskItems r)
  /\ riskValue r = round2 (sumNumbers (map valueOf risky)).
Proof.
  intros H. cbv zeta. unfold calculateWasteMetrics in H.
  fold (referenceDate todayString) in H. rewrite risk_loop in H.
  destruct (toFixed2 _) as [total|e] in H; [|discriminate].
  cbn [bind toFixed2 fst snd app] in H. apply Ok_inj in H. rewrite <- H.
  repeat split.
Qed.

(** X19.  Whenever [calculateWasteMetrics] returns, its risk items are
    the items of the inventory at risk, in the order of the inventory,
    no more than the inventory has; the days left of every risk item are
    1 or 2; [riskItemNames] are their names.  When the reference date is
    no date, no item is at risk and the risk value is 0. *)
Theorem risk_items_expire_within_two_days (history : list LogEntry.t)
    (inventory : list InventoryItem.t) (todayString : option string)
    (r : WasteMetrics)
    (H : calculateWasteMetrics history inventory todayString = Ok r) :
  let today := referenceDate todayString in
  riskItems r = map (riskItemOf today) (filter (atRisk today) inventory)
  /\ riskItemNames r = map risk_name (riskItems r)
  /\ (List.length (riskItems r) <= List.length inventory)%nat
  /\ (forall item, In item (riskItems r) ->
        risk_daysLeft item = ofZ 1 \/ risk_daysLeft item = ofZ 2)
  /\ (today = NaN -> riskItems r = [] /\ riskValue r = ofZ 0).
Proof.
  cbv zeta. destruct (calculateWasteMetrics_Ok _ _ _ _ H) as (I & N & V).
  cbv zeta in I, N, V. split; [exact I|]. split; [exact N|].
  rewrite I, V. split; [|split].
  - rewrite length_map. apply filter_length_le.
  - intros ri Hin. apply in_map_iff in Hin.
    destruct Hin as (item & <- & Hitem). apply filter_In in Hitem.
    destruct Hitem as [_ R]. cbn [risk_daysLeft riskItemOf].
    now apply highRisk_days.
  - intros ->.
    assert (F : forall items, filter (atRisk NaN) items = []).
    { induction items as [|item items IH]; [reflexivity|].
      cbn [filter]. now rewrite no_date_no_risk. }
    rewrite F. split; reflexivity.
Qed.

(** *** The profile as a whole *)

(** X20.  In a complete profile the parts agree: the consumed entries
    counted for nutrition are those counted for the score, the score of
    the insights is the personal score, and for a history with an entry
    the personal score is the success rate.  For an empty history the
    personal score is 50 while the success rate is 0, the nutrition
    score is 50 and the only insight is that the score is stable. *)
Theorem profile_is_consistent (history : list LogEntry.t)
    (inventory : list InventoryItem.t) (todayString : option string)
    (profile : SDGProfile)
    (H : generateCompleteSDGProfile history inventory todayString
         = Ok profile) :
  Z.of_nat (totalConsumed (nutrition profile))
  = consumedCount (metrics profile)
  /\ totalItems (metrics profile) = Z.of_nat (List.length history)
  /\ currentScore (weeklyInsights profile) = personalSDGScore profile
  /\ scoreInterpretation profile
     = interpretSDGScore (personalSDGScore profile)
  /\ 0 <= personalSDGScore profile <= 100
  /\ (history <> [] -> personalSDGScore profile = waste_successRate profile)
  /\ (history = [] ->
      personalSDGScore profile = 50
      /\ waste_successRate profile = 0
      /\ nutritionScore (nutrition profile) = ofZ 50
      /\ weeklyChange (weeklyInsights profile) = 0
      /\ insights (weeklyInsights profile) = [stableLine]
      /\ totalWastedMoney (waste profile) = ofZ 0).
Proof.
  destruct (profile_parts _ _ _ _ H)
    as (W & -> & -> & -> & _ & -> & -> & ->).
  destruct (nutrition_counts history) as [_ ->].
  rewrite baseline_consumed, baseline_total.
  split; [reflexivity|]. split; [reflexivity|]. split; [reflexivity|].
  split; [reflexivity|]. split; [apply sdgScore_in_range|]. split.
  - intros Hne. destruct history; [congruence | reflexivity].
  - intros ->. repeat split.
    unfold calculateWasteMetrics in W. cbn [filter fold_left toFixed2 bind] in W.
    apply Ok_inj in W. rewrite <- W. reflexivity.
Qed.

End Profile.

Lemma profile_of_sample :
  exists profile,
    generateCompleteSDGProfile (rt := Reference.runtime)
      Samples.threeAndThree [Samples.expiringOn "Yogurt" "2025-11-22"]
      Samples.today = Ok profile.
Proof. vm_compute. eexists. reflexivity. Qed.


Lemma risk_items_expire_within_two_days_witness :
  exists r,
    calculateWasteMetrics (rt := Reference.runtime) Samples.oneWasted
      [Samples.expiringOn "Yogurt" "2025-11-22"] Samples.today = Ok r
    /\ (List.length (riskItems r) <= 1)%nat
    /\ riskItemNames r = map risk_name (riskItems r).
Proof.
  assert (E : exists r,
             calculateWasteMetrics (rt := Reference.runtime)
               Samples.oneWasted
               [Samples.expiringOn "Yogurt" "2025-11-22"] Samples.today
             = Ok r) by (vm_compute; eexists; reflexivity).
  destruct E as [r Hr]. exists r. split; [exact Hr|].
  destruct (risk_items_expire_within_two_days _ _ _ _ Hr)
    as (_ & N & L & _).
  split; assumption.
Defined.

Lemma profile_is_consistent_witness :
  exists profile,
    generateCompleteSDGProfile (rt := Reference.runtime)
      Samples.threeAndThree [Samples.expiringOn "Yogurt" "2025-11-22"]
      Samples.today = Ok profile
    /\ Z.of_nat (totalConsumed (nutrition profile))
       = consumedCount (metrics profile)
    /\ personalSDGScore profile = waste_successRate profile.
Proof.
  destruct profile_of_sample as [profile Hp].
  exists profile. split; [exact Hp|].
  destruct (profile_is_consistent _ _ _ _ Hp)
    as (C & _ & _ & _ & _ & S & _).
  split; [exact C|]. apply S. discriminate.
Defined.

Lemma waste_metrics_fail_exactly_when_witness :
  calculateWasteMetrics (rt := Reference.runtime) Samples.textPriced
    Samples.pantry None = Throw TypeError
  /\ generateCompleteSDGProfile (rt := Reference.runtime) Samples.textPriced
       Samples.pantry None = Throw TypeError.
Proof.
  pose proof (waste_metrics_fail_exactly_when (rt := Reference.runtime)
                Samples.textPriced Samples.pantry None) as W.
  cbv zeta in W. destruct W as ([_ T] & _ & [_ T'] & _).
  assert (S : exists e s,
             In e Samples.textPriced /\ has_status "wasted" e = true
             /\ LogEntry.price e = VStr s).
  { exists (LogEntry.make (Some "Milk") None (VStr "cheap") "wasted"), "cheap".
    split; [now left|]. split; reflexivity. }
  split; [exact (T S) | exact (T' S)].
Defined.

End ProfileProofs.

(** ** The results as the engine computes them *)

Module EngineProofs.
Import JS JSFacts Analytics MealPlanning NutritionSpec MatchSpec.
Import Binary64 Engine EngineSpec.

(** *** Percentages *)

Lemma same_eq (a b : double) : same a b = true -> a = b.
Proof.
  destruct a as [s|s| |s m e], b as [s'|s'| |s' m' e']; cbn [same];
    try discriminate; try reflexivity.
  - intros E. apply Bool.eqb_prop in E. now subst.
  - intros E. apply Bool.eqb_prop in E. now subst.
  - intros E. apply andb_true_iff in E. destruct E as [E Ee].
    apply andb_true_iff in E. destruct E as [Es Em].
    apply Bool.eqb_prop in Es. apply Pos.eqb_eq in Em. apply Z.eqb_eq in Ee.
    now subst.
Qed.

(** Below 40 the engine's percentage is the exact percentage rounded;
    23 of 40 is the first that is not. *)
Lemma percentage_exact (part whole : nat) :
  (0 < whole < 40)%nat -> (part <= whole)%nat ->
  percentage part whole = ofZ (halfUp part whole).
Proof.
  intros Hw Hp.
  assert (C : percentagesExactBelow 40 = true) by (vm_compute; reflexivity).
  unfold percentagesExactBelow in C. rewrite forallb_forall in C.
  assert (Iw : In whole (seq 1 (40 - 1))) by (apply in_seq; lia).
  specialize (C whole Iw). rewrite forallb_forall in C.
  apply same_eq, C, in_seq. lia.
Qed.

(** *** The score *)

Lemma countStatus_occurrences (s : string) (history : list LogEntry.t) :
  countStatus s history
  = count_occ string_dec (map LogEntry.status history) s.
Proof.
  unfold countStatus.
  induction history as [|e history IH]; cbn [filter map count_occ];
    [reflexivity|].
  unfold has_status at 1.
  destruct (String.eqb_spec (LogEntry.status e) s) as [E|E];
    destruct (string_dec (LogEntry.status e) s); try contradiction;
    cbn [List.length]; now rewrite IH.
Qed.

(** C2.  Without a history, or with an empty one, [calculateSDGScore]
    returns score 50 and the three counts 0.  On a history with an entry,
    [consumedCount] and [wastedCount] are the numbers of entries with
    status "consumed" and "wasted", [totalItems] is the length,
    [successRate] is [Math.round] of [consumedCount / totalItems * 100]
    and [sdgScore] equals it.  The quotient, the product and the rounding
    are those of binary64.  Three consumed of six give 50.  For fewer
    than 40 entries the result is the exact percentage rounded, a tie
    going up; 23 consumed of 40 give 57, the product being a double
    just below 57.5. *)
Theorem calculateSDGScore_computed (history : list LogEntry.t)
    (H : history <> []) :
  let empty := calculateSDGScore (Some []) in
  let r := calculateSDGScore (Some history) in
  let statuses := map LogEntry.status history in
  let c := count_occ string_dec statuses "consumed" in
  let w := count_occ string_dec statuses "wasted" in
  let t := List.length history in
  calculateSDGScore None = empty
  /\ sdgScore empty = ofZ 50
  /\ wastedCount empty = 0%nat /\ consumedCount empty = 0%nat
  /\ totalItems empty = 0%nat
  /\ consumedCount r = c /\ wastedCount r = w /\ totalItems r = t
  /\ successRate r = Math_round (mul (div (ofNat c) (ofNat t)) (ofZ 100))
  /\ sdgScore r = successRate r
  /\ (t = 6%nat -> w = 3%nat -> c = 3%nat ->
      sdgScore r = ofZ 50 /\ successRate r = ofZ 50)
  /\ ((t < 40)%nat ->
      successRate r
      = ofZ ((200 * Z.of_nat c + Z.of_nat t) / (2 * Z.of_nat t)))
  /\ (t = 40%nat -> c = 23%nat -> successRate r = ofZ 57).
Proof.
  cbv zeta. destruct history as [|e h]; [congruence|].
  unfold calculateSDGScore. cbv zeta.
  cbn [sdgScore successRate wastedCount consumedCount totalItems].
  rewrite !countStatus_occurrences.
  repeat (split; [reflexivity|]).
  split; [|split].
  - intros E6 _ E3. rewrite E6, E3. split; reflexivity.
  - intros L. apply (percentage_exact _ (List.length (e :: h))).
    + cbn [List.length] in *. lia.
    + rewrite <- (length_map LogEntry.status (e :: h)).
      apply count_occ_bound.
  - intros E40 E23. rewrite E40, E23. reflexivity.
Qed.

Lemma calculateSDGScore_computed_witness :
  Samples.threeAndThree <> []
  /\ sdgScore (calculateSDGScore (Some Samples.threeAndThree)) = ofZ 50
  /\ successRate (calculateSDGScore (Some Samples.threeAndThree)) = ofZ 50.
Proof.
  assert (H : Samples.threeAndThree <> []) by discriminate.
  split; [exact H|].
  pose proof (calculateSDGScore_computed Samples.threeAndThree H) as P.
  cbv zeta in P.
  destruct P as (_ & _ & _ & _ & _ & _ & _ & _ & _ & _ & P & _).
  apply P; reflexivity.
Defined.

(** The first history for which the rounding of the double shows. *)
Example twentyThreeOfForty_scores :
  sdgScore (calculateSDGScore (Some EngineSamples.twentyThreeOfForty))
  = ofZ 57.
Proof. vm_compute. reflexivity. Qed.

(** *** Waste and risk *)

Lemma hundredthsOf_close (q : Q) :
  0 <= q -> Qabs (q - inject_Z (hundredthsOf q) / 100) <= 1 # 200.
Proof.
  intros Hq. unfold hundredthsOf.
  pose proof (Qfloor_le (q * 100 + (1 # 2))) as L.
  pose proof (Qlt_floor (q * 100 + (1 # 2))) as U.
  rewrite inject_Z_plus in U. change (inject_Z 1) with 1 in U.
  set (k := inject_Z (Qfloor (q * 100 + (1 # 2)))) in *.
  setoid_replace (k / 100) with (k * (1 # 100)) by field.
  apply Qabs_Qle_condition. split; lra.
Qed.

Section Hosted.
Context {host : Host}.

Lemma plus_on_number (acc : double) (v : jsval) :
  (forall s, v <> VStr s) -> plus (Num acc) v = Num (add acc (ToNumber v)).
Proof.
  destruct v; cbn [plus]; intros H; try reflexivity.
  exfalso. now apply (H s).
Qed.

Lemma sum_of_prices (entries : list LogEntry.t) (acc : double) :
  (forall e s, In e entries -> LogEntry.price e <> VStr s) ->
  fold_left (fun sum item => plus sum (LogEntry.price item)) entries (Num acc)
  = Num (fold_left add
           (map (fun e => ToNumber (LogEntry.price e)) entries) acc).
Proof.
  revert acc. induction entries as [|e entries IH]; intros acc H;
    cbn [fold_left map].
  - reflexivity.
  - rewrite plus_on_number.
    + apply IH. intros e' s Hin. apply H. now right.
    + intros s. apply H. now left.
Qed.

Lemma risk_loop_sums (today : double) (inventory : list InventoryItem.t)
    (value : double) (items : list RiskItem) :
  fold_left (riskStep today) inventory (value, items) =
  (fold_left add (map valueOf (filter (atRisk today) inventory)) value,
   items ++ map (riskItemOf today) (filter (atRisk today) inventory)).
Proof.
  revert value items.
  induction inventory as [|item inventory IH]; intros value items;
    cbn [fold_left filter map].
  - now rewrite app_nil_r.
  - assert (S : riskStep today (value, items) item =
                if atRisk today item
                then (add value (valueOf item),
                      items ++ [riskItemOf today item])
                else (value, items)) by reflexivity.
    rewrite S. destruct (atRisk today item).
    + rewrite IH. cbn [map fold_left]. rewrite <- app_assoc. reflexivity.
    + apply IH.
Qed.

Lemma wasteMetrics_of_numbers (history : list LogEntry.t)
    (inventory : list InventoryItem.t) (todayString : option string) :
  WasteSpec.pricesAddUp history ->
  let today := referenceDate todayString in
  let risky := filter (atRisk today) inventory in
  calculateWasteMetrics history inventory todayString =
  Ok {| totalWastedMoney := round2 (sumNumbers (wastedPrices history));
        riskValue := round2 (sumNumbers (map valueOf risky));
        riskItems := map (riskItemOf today) risky;
        riskItemNames := map risk_name (map (riskItemOf today) risky) |}.
Proof.
  intros H. cbv zeta. unfold calculateWasteMetrics.
  rewrite sum_of_prices.
  - fold (referenceDate todayString).
    rewrite risk_loop_sums. reflexivity.
  - intros e s Hin. apply filter_In in Hin. destruct Hin as [Hin Hw].
    now apply (H e s).
Qed.


End Hosted.


(** *** Nutrition *)

Section Nutrition.
Context {host : Host}.

Lemma isIn_first_group (g : Category) (e : LogEntry.t) :
  isIn g e = true <->
  matches g (nameOf e) = true
  /\ forall g', (rank g' < rank g)%nat -> matches g' (nameOf e) = false.
Proof.
  rewrite <- NutritionProofs.firstCategory_first. unfold isIn.
  destruct (firstCategory (nameOf e)) as [g'|].
  - split.
    + intros S. f_equal. now destruct g, g'.
    + intros E. injection E as ->. now destruct g.
  - split; discriminate.
Qed.

Lemma countIn_step (c : Category) (e : LogEntry.t)
    (entries : list LogEntry.t) :
  countIn c (e :: entries) =
  ((if isIn c e then 1 else 0) + countIn c entries)%nat.
Proof. unfold countIn. cbn [filter]. now destruct (isIn c e). Qed.

(** The loop over the consumed items counts each item in the first group
    that matches its name. *)
Lemma categorize_tallies (entries : list LogEntry.t) (c : Categories) :
  fold_left categorize entries c =
  {| fruits := fruits c + countIn Fruit entries;
     vegetables := vegetables c + countIn Vegetable entries;
     proteins := proteins c + countIn Protein entries;
     grains := grains c + countIn Grain entries;
     dairy := dairy c + countIn DairyFood entries |}.
Proof.
  revert c. induction entries as [|e entries IH]; intros c.
  - destruct c. cbn. f_equal; lia.
  - cbn [fold_left]. rewrite IH, !countIn_step.
    unfold categorize, isIn, firstCategory. fold (nameOf e).
    cbn [find priorityOrder keywordsOf].
    destruct (someIncluded fruitKeywords (nameOf e));
      [|destruct (someIncluded vegKeywords (nameOf e));
        [|destruct (someIncluded proteinKeywords (nameOf e));
          [|destruct (someIncluded grainKeywords (nameOf e));
            [|destruct (someIncluded dairyKeywords (nameOf e))]]]];
      cbn [fruits vegetables proteins grains dairy sameCategory];
      f_equal; lia.
Qed.

Lemma calculateNutritionScore_nonempty (history : list LogEntry.t) :
  history <> [] ->
  calculateNutritionScore (Some history) =
  let consumed := consumedOf history in
  let m := maxPerCategory (List.length consumed) in
  let c := countsOf consumed in
  let half := div m (ofZ 2) in
  let breached :=
    pushIf (lt (ofNat (vegetables c)) half)
           "Boost vegetables to 25% of meals"
    ++ pushIf (lt (ofNat (fruits c)) half) "Add more fruits for vitamins"
    ++ pushIf (lt (ofNat (proteins c)) half)
              "Include proteins in every meal"
    ++ pushIf (lt (ofNat (grains c)) half) "Choose whole grains"
    ++ pushIf (lt (ofNat (dairy c)) (div m (ofZ 3)))
              "Add dairy for calcium" in
  {| nutritionScore := Math_round (sumOfFifths m c);
     categories := c;
     totalConsumed := List.length consumed;
     suggestions :=
       match breached with
       | [] => ["Great variety! Keep it up!"]
       | _ => breached
       end |}.
Proof.
  intros Hne. destruct history as [|e history]; [now elim Hne|].
  unfold calculateNutritionScore. fold (consumedOf (e :: history)).
  cbv zeta. fold noCounts.
  rewrite categorize_tallies. reflexivity.
Qed.


End Nutrition.


(** *** The match of one recipe *)

Section Match.
Context {host : Host}.

Lemma lowerNames_of (inventory : list InventoryItem.t) (names : list string) :
  map InventoryItem.name inventory = map Some names ->
  mapM lowerName inventory = Ok (map toLowerCase names).
Proof.
  revert names. induction inventory as [|item inventory IH];
    intros [|n names] E; try discriminate; [reflexivity|].
  cbn [map] in E. injection E as En E. cbn [mapM map].
  unfold lowerName at 1. rewrite En. cbn [bind].
  now rewrite (IH names E).
Qed.

Lemma inInventory_iff_held (names : list string) (ing : string) :
  inInventory (map toLowerCase names) ing = true <-> held names ing.
Proof.
  unfold inInventory, held. rewrite existsb_exists. split.
  - intros (inv & Hin & Hinc). apply in_map_iff in Hin.
    destruct Hin as (n & <- & Hn). exists n. split; [exact Hn|].
    now apply MatchProofs.includes_occursIn.
  - intros (n & Hn & Hocc). exists (toLowerCase n). split.
    + now apply in_map.
    + now apply MatchProofs.includes_occursIn.
Qed.

Lemma scoreRecipeMatch_of_names (recipe : Recipe.t)
    (inventory : list InventoryItem.t) (names : list string) :
  map InventoryItem.name inventory = map Some names ->
  scoreRecipeMatch recipe inventory =
  let has := inInventory (map toLowerCase names) in
  let matched := filter has (Recipe.ingredients recipe) in
  Ok {| recipe := Recipe.name recipe;
        matchScore :=
          Math_round
            (mul (div (ofNat (List.length matched))
                      (ofNat (List.length (Recipe.ingredients recipe))))
                 (ofZ 100));
        matchedIngredients := matched;
        missingIngredients :=
          filter (fun ing => negb (has ing)) (Recipe.ingredients recipe);
        spread := recipe |}.
Proof.
  intros H. unfold scoreRecipeMatch. rewrite (lowerNames_of inventory names H).
  reflexivity.
Qed.

Lemma occursIn_whole (s : string) : occursIn s s.
Proof.
  exists "", "". cbn [append].
  induction s as [|c s IH]; [reflexivity|]. cbn [append]. now f_equal.
Qed.

(** C7.  When every item of the inventory has a name, [scoreRecipeMatch]
    puts an ingredient of the recipe into [matchedIngredients] exactly
    when the lower-cased name of some item contains the lower-cased
    ingredient, and into [missingIngredients] otherwise, so that letter
    case plays no part; the two lists split the ingredients without
    overlap; [matchScore] is [Math.round] of [matched / total * 100] in
    binary64.  Ingredients rice, peas, egg against the names rice, eggs
    give 67 and leave peas missing, and so do RICE, Peas, Egg against
    Basmati Rice, EGGS.  For fewer than 40 ingredients the score is the
    exact percentage rounded, a tie going up; 23 ingredients matched of
    40 give 57. *)
Theorem scoreRecipeMatch_computed (recipe : Recipe.t)
    (inventory : list InventoryItem.t) (names : list string)
    (H : map InventoryItem.name inventory = map Some names) :
  exists r,
    scoreRecipeMatch recipe inventory = Ok r
    /\ let ings := Recipe.ingredients recipe in
       let matched := matchedIngredients r in
       let missing := missingIngredients r in
       (forall ing, In ing ings ->
                    (In ing matched <-> held names ing)
                    /\ (In ing missing <-> ~ held names ing))
       /\ (forall ing n,
              In ing ings -> In n names ->
              toLowerCase ing = toLowerCase n -> In ing matched)
       /\ Permutation (matched ++ missing) ings
       /\ (forall ing, ~ (In ing matched /\ In ing missing))
       /\ (List.length matched + List.length missing
           = List.length ings)%nat
       /\ matchScore r =
          Math_round (mul (div (ofNat (List.length matched))
                               (ofNat (List.length ings)))
                          (ofZ 100))
       /\ (ings = ["rice"; "peas"; "egg"] -> names = ["rice"; "eggs"] ->
           matchScore r = ofZ 67 /\ missing = ["peas"])
       /\ (ings = ["RICE"; "Peas"; "Egg"] ->
           names = ["Basmati Rice"; "EGGS"] ->
           matchScore r = ofZ 67 /\ missing = ["Peas"])
       /\ ((0 < List.length ings < 40)%nat ->
           matchScore r
           = ofZ ((200 * Z.of_nat (List.length matched)
                   + Z.of_nat (List.length ings))
                  / (2 * Z.of_nat (List.length ings))))
       /\ (List.length ings = 40%nat -> List.length matched = 23%nat ->
           matchScore r = ofZ 57).
Proof.
  rewrite (scoreRecipeMatch_of_names recipe inventory names H). cbv zeta.
  eexists. split; [reflexivity|].
  cbn [matchedIngredients missingIngredients matchScore].
  set (has := inInventory (map toLowerCase names)).
  set (ings := Recipe.ingredients recipe).
  assert (Hhas : forall ing, has ing = true <-> held names ing)
    by (intros ing; apply inInventory_iff_held).
  assert (Lower : forall s, isAscii s = true ->
                            toLowerCase s = JS.toLowerCase s)
    by apply toLowerCase_ascii.
  split;
    [|split; [|split; [|split; [|split; [|split; [|split; [|split; [|split]]]]]]]].
  - intros ing Hin. rewrite !filter_In, negb_true_iff. split.
    + rewrite Hhas. tauto.
    + rewrite <- Hhas. destruct (has ing); intuition congruence.
  - intros ing n Hin Hn E. apply filter_In. split; [exact Hin|].
    apply Hhas. exists n. split; [exact Hn|]. rewrite E.
    apply occursIn_whole.
  - apply MatchProofs.filter_partition.
  - intros ing [Hm Hs]. apply filter_In in Hm. apply filter_In in Hs.
    destruct Hm as [_ Hm]. destruct Hs as [_ Hs]. rewrite Hm in Hs.
    discriminate.
  - rewrite <- length_app.
    apply Permutation_length, MatchProofs.filter_partition.
  - reflexivity.
  - intros Hi Hn. unfold has, inInventory. rewrite Hi, Hn.
    cbn [map filter existsb]. rewrite !Lower by reflexivity.
    split; reflexivity.
  - intros Hi Hn. unfold has, inInventory. rewrite Hi, Hn.
    cbn [map filter existsb]. rewrite !Lower by reflexivity.
    split; reflexivity.
  - intros L. apply (percentage_exact _ (List.length ings) L).
    apply filter_length_le.
  - intros E40 E23. rewrite E40, E23. reflexivity.
Qed.

End Match.

Lemma scoreRecipeMatch_computed_witness :
  map InventoryItem.name EngineSamples.riceAndEggsMixed
  = map Some ["Basmati Rice"; "EGGS"]
  /\ exists r,
       scoreRecipeMatch (host := EngineSamples.host)
         EngineSamples.friedRiceMixed EngineSamples.riceAndEggsMixed = Ok r
       /\ matchScore r = ofZ 67
       /\ matchedIngredients r = ["RICE"; "Egg"]
       /\ missingIngredients r = ["Peas"].
Proof.
  assert (H : map InventoryItem.name EngineSamples.riceAndEggsMixed
              = map Some ["Basmati Rice"; "EGGS"]) by reflexivity.
  split; [exact H|].
  destruct (scoreRecipeMatch_computed (host := EngineSamples.host)
              EngineSamples.friedRiceMixed EngineSamples.riceAndEggsMixed
              ["Basmati Rice"; "EGGS"] H) as (r & Hr & P).
  cbv zeta in P. destruct P as (_ & _ & _ & _ & _ & _ & _ & P & _).
  exists r. split; [exact Hr|].
  destruct (P eq_refl eq_refl) as [S M]. split; [exact S|].
  split; [|exact M].
  vm_compute in Hr. apply Ok_inj in Hr. rewrite <- Hr. reflexivity.
Defined.

End EngineProofs.
